(** * carlyzer: the post-detection analysis pipeline of [VehicleAnalyzer.tsx]

    A shallow embedding of the colour taxonomy, the region sampler / colour
    extractor, the coordinate rescaler and the detection scheduler of
    [src/components/VehicleAnalyzer.tsx], with the properties the
    specification states about them.

    Numbers.  A JavaScript [number] is an IEEE-754 binary64 value, and so is
    Rocq's primitive [float]: every fractional quantity of the source (HSL
    components, confidences, box coordinates, scale factors) is a [float] and
    is computed with the same operations in the same order.  Quantities that
    only ever hold small integers in the source (bytes of an [ImageData]
    buffer, pixel counters, histogram counts) are [Z]; they are converted
    with [Z2float] where the source mixes them with fractional arithmetic. *)

From Stdlib Require Import ZArith List String Ascii Bool Lia.
From Stdlib Require Import Floats Uint63 DecimalString.
From Stdlib Require Import Sorting.Sorted Sorting.Permutation.
Import ListNotations.

Local Open Scope string_scope.
Local Open Scope Z_scope.

Set Warnings "-inexact-float".

(** ** JavaScript primitives used by the source *)

Module JS.

(** An integer-valued JavaScript number as a double.  Exact below 2^53. *)
Definition Z2float (z : Z) : float :=
  if z <? 0 then (- PrimFloat.of_uint63 (Uint63.of_Z (- z)))%float
  else PrimFloat.of_uint63 (Uint63.of_Z z).

(** [a > b] and [a < b] on numbers. *)
Definition gt (a b : float) : bool := (b <? a)%float.
Definition lt (a b : float) : bool := (a <? b)%float.
Definition ge (a b : float) : bool := (b <=? a)%float.

(** [Math.max(a, b)]: NaN if either argument is NaN, and +0 above -0. *)
Definition Math_max (a b : float) : float :=
  if is_nan a || is_nan b then nan
  else if (a <? b)%float then b
  else if (b <? a)%float then a
  else if get_sign a then b else a.

(** [Math.min(a, b)]: NaN if either argument is NaN, and -0 below +0. *)
Definition Math_min (a b : float) : float :=
  if is_nan a || is_nan b then nan
  else if (a <? b)%float then a
  else if (b <? a)%float then b
  else if get_sign a then a else b.

Definition Math_max3 (a b c : float) : float := Math_max (Math_max a b) c.
Definition Math_min3 (a b c : float) : float := Math_min (Math_min a b) c.

(** [Math.floor]: the mantissa of a finite double with a negative exponent
    is shifted right (an arithmetic shift, so it rounds towards minus
    infinity); every other double is already integral, infinite or NaN. *)
Definition Math_floor (x : float) : float :=
  match Prim2SF x with
  | S754_finite s m e =>
      if 0 <=? e then x
      else
        let q := Z.shiftr (if s then Zneg m else Zpos m) (- e) in
        if (q =? 0) && s then neg_zero else Z2float q
  | _ => x
  end.

(** [Math.round]: the nearest integer, ties towards plus infinity. *)
Definition Math_round (x : float) : float :=
  match Prim2SF x with
  | S754_finite s m e =>
      if 0 <=? e then x
      else
        let k := - e in
        let q := Z.shiftr (2 * (if s then Zneg m else Zpos m) + Z.shiftl 1 k) (k + 1) in
        if (q =? 0) && s then neg_zero else Z2float q
  | _ => x
  end.

(** Assigning a number to an [unsigned long] IDL attribute such as
    [HTMLCanvasElement.width] stores its integer part (the WebIDL
    conversion truncates): [canvas.width = 599.8] leaves [canvas.width] at
    599.  NaN and the infinities give 0.  Negative numbers and numbers from
    2^32 on, which no image size produces, are not modelled: they give 0
    and themselves here. *)
Definition toUnsignedLong (x : float) : float :=
  match Prim2SF x with
  | S754_finite false m e =>
      if 0 <=? e then x else Z2float (Z.shiftr (Zpos m) (- e))
  | _ => zero
  end.

Definition lowerAscii (c : ascii) : ascii :=
  let n := nat_of_ascii c in
  if ((65 <=? n) && (n <=? 90))%nat then ascii_of_nat (n + 32) else c.

Definition upperAscii (c : ascii) : ascii :=
  let n := nat_of_ascii c in
  if ((97 <=? n) && (n <=? 122))%nat then ascii_of_nat (n - 32) else c.

(** [s.toLowerCase()] on the ASCII letters. *)
Fixpoint toLowerCase (s : string) : string :=
  match s with
  | EmptyString => EmptyString
  | String c t => String (lowerAscii c) (toLowerCase t)
  end.

(** [s.charAt(0).toUpperCase() + s.slice(1)]. *)
Definition capitalize (s : string) : string :=
  match s with
  | EmptyString => EmptyString
  | String c t => String (upperAscii c) t
  end.

(** The decimal text of an integer-valued number, as in a template
    literal. *)
Definition showZ (z : Z) : string := NilZero.string_of_int (Z.to_int z).

End JS.

Import JS.

(** ** Colour taxonomy *)

Module Taxonomy.

(** [rgbToHsl]: hue in degrees, saturation and lightness in [0,1]. *)
Definition rgbToHsl (r0 g0 b0 : float) : float * float * float :=
  let r := (r0 / 255)%float in
  let g := (g0 / 255)%float in
  let b := (b0 / 255)%float in
  let max := Math_max3 r g b in
  let min := Math_min3 r g b in
  let diff := (max - min)%float in
  let l := ((max + min) / 2)%float in
  if negb (diff =? 0)%float then
    let s := if gt l 0.5 then (diff / (2 - max - min))%float
             else (diff / (max + min))%float in
    let h :=
      if (max =? r)%float then
        (((g - b) / diff + (if lt g b then 6 else 0)) / 6)%float
      else if (max =? g)%float then (((b - r) / diff + 2) / 6)%float
      else if (max =? b)%float then (((r - g) / diff + 4) / 6)%float
      else 0%float in
    ((h * 360)%float, s, l)
  else ((0 * 360)%float, 0%float, l).

(** The grayscale band of the decision table ([s < 0.08]). *)
Definition grayscaleName (l : float) : string :=
  if gt l 0.85 then "Pearl White"
  else if gt l 0.75 then "Silver"
  else if gt l 0.65 then "Light Gray"
  else if gt l 0.55 then "Medium Gray"
  else if gt l 0.45 then "Gray"
  else if gt l 0.35 then "Dark Gray"
  else if gt l 0.25 then "Charcoal"
  else "Black".

(** The hue bands: everything below the grayscale band of
    [getAdvancedColorName]. *)
Definition hueBandName (h s l : float) : string :=
  (* BROWN/TAN *)
  if ge s 0.08 && lt s 0.4 && ge h 15 && lt h 55 then
    if gt l 0.7 then "Cream"
    else if gt l 0.6 then "Beige"
    else if gt l 0.5 then "Tan"
    else if gt l 0.4 then "Light Brown"
    else if gt l 0.3 then "Brown"
    else if gt l 0.2 then "Dark Brown"
    else "Chocolate"
  (* RED SPECTRUM *)
  else if (ge h 340 || lt h 20) && ge s 0.12 then
    if gt l 0.75 then "Light Pink"
    else if gt l 0.65 then "Rose"
    else if gt l 0.55 then "Light Red"
    else if gt l 0.45 then "Red"
    else if gt l 0.35 then "Crimson"
    else if gt l 0.25 then "Dark Red"
    else "Maroon"
  (* PINK/MAGENTA *)
  else if ge h 300 && lt h 340 && ge s 0.15 then
    if gt l 0.75 then "Light Pink"
    else if gt l 0.65 then "Pink"
    else if gt l 0.55 then "Hot Pink"
    else if gt l 0.45 then "Fuchsia"
    else if gt l 0.35 then "Magenta"
    else "Deep Pink"
  (* ORANGE SPECTRUM *)
  else if ge h 10 && lt h 40 && ge s 0.2 then
    if gt l 0.75 then "Peach"
    else if gt l 0.65 then "Light Orange"
    else if gt l 0.55 then "Orange"
    else if gt l 0.45 then "Burnt Orange"
    else if gt l 0.35 then "Dark Orange"
    else "Rust"
  (* YELLOW SPECTRUM *)
  else if ge h 40 && lt h 70 && ge s 0.2 then
    if gt l 0.8 then "Cream"
    else if gt l 0.7 then "Light Yellow"
    else if gt l 0.6 then "Yellow"
    else if gt l 0.5 then "Gold"
    else if gt l 0.4 then "Mustard"
    else "Amber"
  (* GREEN SPECTRUM: the four sub-bands cover [70,170) *)
  else if ge h 70 && lt h 170 && ge s 0.1 && ge h 70 && lt h 90 then
    if gt l 0.7 then "Lime"
    else if gt l 0.6 then "Light Green"
    else if gt l 0.5 then "Green"
    else if gt l 0.4 then "Forest Green"
    else "Dark Green"
  else if ge h 70 && lt h 170 && ge s 0.1 && ge h 90 && lt h 120 then
    if gt l 0.7 then "Mint Green"
    else if gt l 0.6 then "Light Green"
    else if gt l 0.5 then "Green"
    else if gt l 0.4 then "Emerald"
    else "Dark Green"
  else if ge h 70 && lt h 170 && ge s 0.1 && ge h 120 && lt h 150 then
    if gt l 0.7 then "Seafoam"
    else if gt l 0.6 then "Light Green"
    else if gt l 0.5 then "Teal"
    else if gt l 0.4 then "Green"
    else "Dark Teal"
  else if ge h 70 && lt h 170 && ge s 0.1 && ge h 150 && lt h 170 then
    if gt l 0.6 then "Turquoise"
    else if gt l 0.5 then "Cyan"
    else if gt l 0.4 then "Teal"
    else "Dark Teal"
  (* BLUE SPECTRUM *)
  else if ge h 170 && lt h 260 && ge s 0.15 && ge h 170 && lt h 200 then
    if gt l 0.7 then "Light Blue"
    else if gt l 0.6 then "Sky Blue"
    else if gt l 0.5 then "Blue"
    else if gt l 0.4 then "Royal Blue"
    else if gt l 0.3 then "Navy"
    else "Dark Navy"
  else if ge h 170 && lt h 260 && ge s 0.15 && ge h 200 && lt h 230 then
    if gt l 0.7 then "Light Blue"
    else if gt l 0.6 then "Blue"
    else if gt l 0.5 then "Cobalt"
    else if gt l 0.4 then "Blue"
    else if gt l 0.3 then "Navy"
    else "Midnight Blue"
  else if ge h 170 && lt h 260 && ge s 0.15 && ge h 230 && lt h 260 then
    if gt l 0.7 then "Periwinkle"
    else if gt l 0.6 then "Light Blue"
    else if gt l 0.5 then "Blue"
    else if gt l 0.4 then "Indigo"
    else "Dark Blue"
  (* PURPLE SPECTRUM *)
  else if ge h 260 && lt h 300 && ge s 0.15 && ge h 260 && lt h 280 then
    if gt l 0.7 then "Lavender"
    else if gt l 0.6 then "Light Purple"
    else if gt l 0.5 then "Purple"
    else if gt l 0.4 then "Violet"
    else "Dark Purple"
  else if ge h 260 && lt h 300 && ge s 0.15 && ge h 280 && lt h 300 then
    if gt l 0.7 then "Light Purple"
    else if gt l 0.6 then "Purple"
    else if gt l 0.5 then "Plum"
    else if gt l 0.4 then "Purple"
    else "Dark Purple"
  (* Fallback for any missed colors *)
  else "Mixed".

(** The decision table on an (h, s, l) triple. *)
Definition classifyHsl (h s l : float) : string :=
  (* Very dark colors *)
  if lt l 0.12 then "Black"
  (* Very light colors *)
  else if gt l 0.88 && lt s 0.15 then "White"
  (* Low saturation colors (grayscale spectrum) *)
  else if lt s 0.08 then grayscaleName l
  else hueBandName h s l.

Definition getAdvancedColorName (r g b : float) : string :=
  let '(h, s, l) := rgbToHsl r g b in classifyHsl h s l.

(** The static name-to-hex table, in source order. *)
Definition colorMap : list (string * string) :=
  [ ("Pearl White", "#F8F8FF"); ("White", "#FFFFFF"); ("Silver", "#C0C0C0");
    ("Light Gray", "#D3D3D3"); ("Medium Gray", "#A9A9A9"); ("Gray", "#808080");
    ("Dark Gray", "#505050"); ("Charcoal", "#36454F"); ("Black", "#1C1C1C");
    ("Cream", "#FFFDD0"); ("Beige", "#F5F5DC"); ("Tan", "#D2B48C");
    ("Light Brown", "#CD853F"); ("Brown", "#8B4513"); ("Dark Brown", "#654321");
    ("Chocolate", "#7B3F00");
    ("Light Pink", "#FFB6C1"); ("Rose", "#FF69B4"); ("Light Red", "#FF6B6B");
    ("Red", "#DC143C"); ("Crimson", "#DC143C"); ("Dark Red", "#8B0000");
    ("Maroon", "#800000");
    ("Pink", "#FFC0CB"); ("Hot Pink", "#FF1493"); ("Fuchsia", "#FF00FF");
    ("Magenta", "#FF00FF"); ("Deep Pink", "#FF1493");
    ("Peach", "#FFCBA4"); ("Light Orange", "#FFA500"); ("Orange", "#FF8C00");
    ("Burnt Orange", "#CC5500"); ("Dark Orange", "#FF8C00"); ("Rust", "#B7410E");
    ("Light Yellow", "#FFFFE0"); ("Yellow", "#FFD700"); ("Gold", "#FFD700");
    ("Mustard", "#FFDB58"); ("Amber", "#FFBF00");
    ("Lime", "#00FF00"); ("Mint Green", "#98FB98"); ("Light Green", "#90EE90");
    ("Green", "#228B22"); ("Forest Green", "#228B22"); ("Emerald", "#50C878");
    ("Seafoam", "#9FE2BF"); ("Teal", "#008080"); ("Dark Teal", "#003D3D");
    ("Turquoise", "#40E0D0"); ("Cyan", "#00FFFF"); ("Dark Green", "#006400");
    ("Sky Blue", "#87CEEB"); ("Light Blue", "#ADD8E6"); ("Blue", "#4169E1");
    ("Royal Blue", "#4169E1"); ("Cobalt", "#0047AB"); ("Navy", "#000080");
    ("Dark Navy", "#000080"); ("Midnight Blue", "#191970");
    ("Periwinkle", "#CCCCFF"); ("Indigo", "#4B0082"); ("Dark Blue", "#00008B");
    ("Lavender", "#E6E6FA"); ("Light Purple", "#DDA0DD"); ("Purple", "#800080");
    ("Violet", "#8A2BE2"); ("Plum", "#DDA0DD"); ("Dark Purple", "#4B0082");
    ("Mixed", "#808080") ].

Fixpoint lookup {A : Type} (k : string) (m : list (string * A)) : option A :=
  match m with
  | [] => None
  | (k', v) :: t => if String.eqb k' k then Some v else lookup k t
  end.

(** [colorMap[colorName] || "#808080"]. *)
Definition getColorHex (colorName : string) : string :=
  match lookup colorName colorMap with
  | Some hex => hex
  | None => "#808080"
  end.

End Taxonomy.

Import Taxonomy.

(** ** Region sampler / colour extractor *)

Module Extractor.

Inductive colorMethod := ApiAi | PixelAnalysis | Fallback.

(** The object [extractDominantColorWithDebug] resolves to. *)
Record colorResult := {
  color : string;
  colorHex : string;
  confidence : float;
  method : colorMethod;
  debugImage : option string;
  debugInfo : option string
}.

(** An awaited computation either returns or throws the text of an error. *)
Inductive outcome (A : Type) :=
| Ok (a : A)
| Throw (e : string).
Arguments Ok {A} a.
Arguments Throw {A} e.

(** [getFallbackColor]: the per-class default colour table. *)
Definition fallbackMap : list (string * (string * string)) :=
  [ ("car", ("Silver", "#C0C0C0"));
    ("truck", ("White", "#FFFFFF"));
    ("bus", ("Yellow", "#FFD700"));
    ("motorcycle", ("Black", "#333333"));
    ("bicycle", ("Blue", "#4169E1"));
    ("airplane", ("White", "#F5F5F5"));
    ("boat", ("White", "#FAFAFA"));
    ("train", ("Gray", "#808080")) ].

Definition getFallbackColor (vehicleType : string)
    (image info : option string) : colorResult :=
  let fallback :=
    match lookup (toLowerCase vehicleType) fallbackMap with
    | Some f => f
    | None => ("Gray", "#808080")
    end in
  {| color := fst fallback; colorHex := snd fallback;
     confidence := 0.3%float; method := Fallback;
     debugImage := image; debugInfo := info |}.

(** *** Regions *)

(** A source rectangle handed to [drawImage]. *)
Record region := { rx : float; ry : float; rw : float; rh : float }.

(** The three geometric strategies for the box [(x, y, width, height)]. *)
Definition strategies (x y width height : float) : list (string * region) :=
  [ ("Full Vehicle (Adjusted)",
     {| rx := x;
        ry := Math_max 0 (y - height * 0.3);
        rw := width;
        rh := (height * 1.3)%float |});
    ("Upper Body Area",
     {| rx := (x + width * 0.05)%float;
        ry := Math_max 0 (y - height * 0.05);
        rw := (width * 0.9)%float;
        rh := (height * 0.8)%float |});
    ("Main Body Panel",
     {| rx := (x + width * 0.1)%float;
        ry := y;
        rw := (width * 0.8)%float;
        rh := (height * 0.7)%float |}) ].

(** The region of the center-crop fallback. *)
Definition centerRegion (x y width height : float) : region :=
  let centerX := (x + width / 2)%float in
  let centerY := (y + height / 2)%float in
  let centerW := Math_max 20 (Math_floor (width * 0.4)) in
  let centerH := Math_max 20 (Math_floor (height * 0.3)) in
  {| rx := (centerX - centerW / 2)%float;
     ry := (centerY - centerH / 2)%float;
     rw := centerW;
     rh := centerH |}.

(** *** Pixel sampling *)

(** [colorCounts]: an object used as a map from colour name to count.
    [Object.entries] lists string keys in insertion order, and the later
    (stable) sort keeps that order between equal counts, so the map is an
    association list in insertion order. *)
Definition histogram := list (string * Z).

(** [colorCounts[c] = (colorCounts[c] || 0) + 1]. *)
Fixpoint bump (c : string) (h : histogram) : histogram :=
  match h with
  | [] => [(c, 1)]
  | (k, n) :: t => if String.eqb k c then (k, n + 1) :: t
                   else (k, n) :: bump c t
  end.

Record tally := { colorCounts : histogram; totalValidPixels : Z }.

Definition emptyTally : tally := {| colorCounts := []; totalValidPixels := 0 |}.

(** The pixel filter of a region strategy:
    [a > 50 && brightness > 2 && brightness < 255]. *)
Definition includeRegionPixel (r g b a : Z) : bool :=
  let brightness := (Z2float (r + g + b) / 3)%float in
  (50 <? a) && gt brightness 2 && lt brightness 255.

(** The pixel filter of the center-crop fallback:
    [a > 30 && (r + g + b) / 3 > 1]. *)
Definition includeCenterPixel (r g b a : Z) : bool :=
  (30 <? a) && gt (Z2float (r + g + b) / 3) 1.

(** The body of a sampling loop at byte offset [i].  A read past the end of
    the buffer is [undefined], which fails the alpha test. *)
Definition countPixel (include : Z -> Z -> Z -> Z -> bool)
    (data : list Z) (i : nat) (t : tally) : tally :=
  match nth_error data (i + 3) with
  | None => t
  | Some a =>
      let r := nth i data 0 in
      let g := nth (i + 1) data 0 in
      let b := nth (i + 2) data 0 in
      if include r g b a then
        let colorName :=
          getAdvancedColorName (Z2float r) (Z2float g) (Z2float b) in
        {| colorCounts := bump colorName (colorCounts t);
           totalValidPixels := totalValidPixels t + 1 |}
      else t
  end.

(** [for (let i = 0; i < len; i += stride) body(i)], with the iteration
    count as fuel. *)
Fixpoint forLoop {S : Type} (fuel : nat) (stride len i : nat)
    (body : nat -> S -> S) (s : S) : S :=
  match fuel with
  | O => s
  | Datatypes.S fuel' =>
      if (i <? len)%nat
      then forLoop fuel' stride len (i + stride) body (body i s)
      else s
  end.

(** One sampling pass over an RGBA byte buffer.  The loop advances by at
    least one byte per iteration, so [length data] iterations suffice. *)
Definition samplePixels (stride : nat) (include : Z -> Z -> Z -> Z -> bool)
    (data : list Z) : tally :=
  forLoop (List.length data) stride (List.length data) 0
          (countPixel include data) emptyTally.

(** *** Dominant colour *)

(** [entries.sort((a, b) => b[1] - a[1])]: a stable sort by descending
    count. *)
Fixpoint insertDesc (e : string * Z) (l : histogram) : histogram :=
  match l with
  | [] => [e]
  | y :: t => if snd y <=? snd e then e :: y :: t else y :: insertDesc e t
  end.

Definition sortDesc (h : histogram) : histogram :=
  fold_right insertDesc [] h.

Definition blackColors : list string :=
  ["Black"; "Dark Gray"; "Charcoal"; "Mixed"].

Definition isBlackColor (c : string) : bool :=
  existsb (String.eqb c) blackColors.

Definition coloredPixels (sortedColors : histogram) : histogram :=
  filter (fun e => negb (isBlackColor (fst e))) sortedColors.

Definition sumCounts (h : histogram) : Z :=
  fold_left (fun sum e => sum + snd e) h 0.

(** [totalColoredPixels > totalValidPixels * 0.3]. *)
Definition overThirtyPercent (totalColoredPixels totalValidPixels : Z) : bool :=
  gt (Z2float totalColoredPixels) (Z2float totalValidPixels * 0.3).

(** The choice between the top colored entry and the top entry overall. *)
Definition preferColored (sortedColors : histogram) (total : Z)
    (top : string * Z) : string * Z :=
  let colored := coloredPixels sortedColors in
  if overThirtyPercent (sumCounts colored) total && (0 <? List.length colored)%nat
  then hd top colored
  else top.

(** Dominant colour of a region strategy: [(dominantColor, maxCount)]. *)
Definition pickDominant (sortedColors : histogram) (total : Z) : string * Z :=
  match sortedColors with
  | [] => ("Unknown", 0)
  | top :: rest =>
      let chosen := preferColored sortedColors total top in
      if String.eqb (fst chosen) "Mixed" && (1 <? List.length sortedColors)%nat
      then nth 1 sortedColors chosen
      else chosen
  end.

Fixpoint join (sep : string) (l : list string) : string :=
  match l with
  | [] => ""
  | [s] => s
  | s :: t => s ++ sep ++ join sep t
  end.

Definition topColorsText (sortedColors : histogram) : string :=
  join ", " (map (fun e => fst e ++ "(" ++ showZ (snd e) ++ ")")
                 (firstn 3 sortedColors)).

(** [confidence] of a strategy. *)
Definition strategyConfidence (maxCount total : Z) : float :=
  if 50 <? total
  then Math_min (Z2float maxCount / Z2float total) 0.95
  else 0.4%float.

(** What one strategy computes from the pixels of its region. *)
Definition analyzeRegion (name url : string) (data : list Z) : colorResult :=
  let t := samplePixels 8 includeRegionPixel data in
  let sortedColors := sortDesc (colorCounts t) in
  let '(dominantColor, maxCount) :=
    pickDominant sortedColors (totalValidPixels t) in
  {| color := dominantColor;
     colorHex := getColorHex dominantColor;
     confidence := strategyConfidence maxCount (totalValidPixels t);
     method := PixelAnalysis;
     debugImage := Some url;
     debugInfo :=
       Some ("Strategy: " ++ name ++ ", Pixels: "
             ++ showZ (totalValidPixels t) ++ ", Top colors: "
             ++ topColorsText sortedColors) |}.

(** *** The frame and the canvas *)

Inductive stage := Strategy (i : nat) | CenterCrop.

(** What creating a canvas for a region of the frame and reading it back
    does.  [NoContext]: [getContext] returned null.  [Threw]: [drawImage],
    [toDataURL] or [getImageData] threw inside the local [try], after the
    debug image was pushed or before.  [Pixels]: the data URL and the RGBA
    bytes of the region.  [Crash]: an exception raised outside the local
    [try] (while the canvas is created). *)
Inductive readout :=
| NoContext
| Crash (e : string)
| Threw (pushed : option string) (e : string)
| Pixels (url : string) (data : list Z).

(** The media element as this component sees it. *)
Definition frame := stage -> region -> readout.

Record loopState := {
  bestResult : option colorResult;
  debugImages : list string
}.

(** [!bestResult || confidence > bestResult.confidence]. *)
Definition keepBest (best : option colorResult) (r : colorResult)
    : option colorResult :=
  match best with
  | None => Some r
  | Some b => if gt (confidence r) (confidence b) then Some r else Some b
  end.

(** [for (const strategy of strategies) ...]. *)
Fixpoint runStrategies (f : frame) (i : nat) (ss : list (string * region))
    (st : loopState) : outcome loopState :=
  match ss with
  | [] => Ok st
  | (name, reg) :: rest =>
      match f (Strategy i) reg with
      | Crash e => Throw e
      | NoContext => runStrategies f (S i) rest st
      | Threw pushed _ =>
          runStrategies f (S i) rest
            {| bestResult := bestResult st;
               debugImages :=
                 (debugImages st ++
                  match pushed with Some u => [u] | None => [] end)%list |}
      | Pixels url data =>
          runStrategies f (S i) rest
            {| bestResult := keepBest (bestResult st) (analyzeRegion name url data);
               debugImages := (debugImages st ++ [url])%list |}
      end
  end.

(** The center-crop fallback; [None] when it falls through to the final
    fallback (no context, an exception caught locally, too few pixels). *)
Definition centerSample (f : frame) (x y width height : float)
    : option colorResult :=
  match f CenterCrop (centerRegion x y width height) with
  | Pixels url data =>
      let t := samplePixels 16 includeCenterPixel data in
      if 5 <? totalValidPixels t then
        let sortedColors := sortDesc (colorCounts t) in
        match sortedColors with
        | [] => None
        | top :: _ =>
            let dominantColor :=
              fst (preferColored sortedColors (totalValidPixels t) top) in
            if negb (String.eqb dominantColor "Unknown") then
              Some {| color := dominantColor;
                      colorHex := getColorHex dominantColor;
                      confidence := 0.3%float;
                      method := PixelAnalysis;
                      debugImage := Some url;
                      debugInfo :=
                        Some ("Fallback center sampling: " ++ dominantColor) |}
            else None
        end
      else None
  | _ => None
  end.

(** The body of the outer [try]. *)
Definition extractBody (f : frame) (bbox : float * float * float * float)
    (vehicleType : string) : outcome colorResult :=
  let '(x, y, width, height) := bbox in
  match runStrategies f 0 (strategies x y width height)
          {| bestResult := None; debugImages := [] |} with
  | Throw e => Throw e
  | Ok st =>
      let fallThrough :=
        match centerSample f x y width height with
        | Some r => r
        | None =>
            getFallbackColor vehicleType (hd_error (debugImages st))
              (Some "All strategies failed, using fallback")
        end in
      match bestResult st with
      | Some best =>
          if gt (confidence best) 0.2 then Ok best else Ok fallThrough
      | None => Ok fallThrough
      end
  end.

(** [extractDominantColorWithDebug]: the body under the outer [catch]. *)
Definition extractDominantColorWithDebug (f : frame)
    (bbox : float * float * float * float) (vehicleType : string)
    : outcome colorResult :=
  match extractBody f bbox vehicleType with
  | Ok r => Ok r
  | Throw e =>
      Ok (getFallbackColor vehicleType None (Some ("Error: " ++ e)))
  end.

End Extractor.

Import Extractor.

(** ** Frame standardizer and coordinate rescaler *)

Module Pipeline.

(** [naturalWidth] and [naturalHeight] of the image element. *)
Record image := { naturalWidth : Z; naturalHeight : Z }.

(** The canvas [standardizeImage] returns: its [width] and [height]
    attributes, and the size the image was drawn at on it.  The attributes
    are [unsigned long]: assigning [newWidth] stores its integer part. *)
Record canvas := {
  width : float;
  height : float;
  drawnWidth : float;
  drawnHeight : float
}.

(** A canvas nothing was drawn on: 300 by 150, the default size. *)
Definition blankCanvas : canvas :=
  {| width := 300; height := 150; drawnWidth := 0; drawnHeight := 0 |}.

(** [standardizeImage]; [ctx] tells whether [getContext] gave a context. *)
Definition standardizeImage (ctx : bool) (imageElement : image)
    (targetWidth targetHeight : float) : canvas :=
  if negb ctx then blankCanvas
  else
    let aspectRatio :=
      (Z2float (naturalWidth imageElement)
       / Z2float (naturalHeight imageElement))%float in
    let '(newWidth, newHeight) :=
      if gt aspectRatio (targetWidth / targetHeight)
      then (targetWidth, (targetWidth / aspectRatio)%float)
      else ((targetHeight * aspectRatio)%float, targetHeight) in
    {| width := toUnsignedLong newWidth;
       height := toUnsignedLong newHeight;
       drawnWidth := newWidth;
       drawnHeight := newHeight |}.

Definition box := (float * float * float * float)%type.

(** The rescaling of [detectVehiclesInImage]: a box of the standardized
    canvas back in the pixel space of the image. *)
Definition adjustBbox (imageElement : image) (standardizedCanvas : canvas)
    (bbox : box) : box :=
  let '(b0, b1, b2, b3) := bbox in
  let scaleX :=
    (Z2float (naturalWidth imageElement) / width standardizedCanvas)%float in
  let scaleY :=
    (Z2float (naturalHeight imageElement) / height standardizedCanvas)%float in
  ((b0 * scaleX)%float, (b1 * scaleY)%float,
   (b2 * scaleX)%float, (b3 * scaleY)%float).

(** Where [ctx.drawImage(imageElement, 0, 0, newWidth, newHeight)] puts a
    box of the image on the canvas: the image is stretched from its natural
    size to the drawn size. *)
Definition drawnBox (imageElement : image) (standardizedCanvas : canvas)
    (bbox : box) : box :=
  let '(b0, b1, b2, b3) := bbox in
  let kx :=
    (drawnWidth standardizedCanvas / Z2float (naturalWidth imageElement))%float in
  let ky :=
    (drawnHeight standardizedCanvas / Z2float (naturalHeight imageElement))%float in
  ((b0 * kx)%float, (b1 * ky)%float, (b2 * kx)%float, (b3 * ky)%float).

(** Two numbers agree within floating-point tolerance: they differ by at
    most one part in a million of the expected value (or of 1). *)
Definition closeTo (expected actual : float) : bool :=
  (abs (actual - expected) <=? 1e-6 * Math_max 1 (abs expected))%float.

Definition boxCloseTo (expected actual : box) : bool :=
  let '(e0, e1, e2, e3) := expected in
  let '(a0, a1, a2, a3) := actual in
  closeTo e0 a0 && closeTo e1 a1 && closeTo e2 a2 && closeTo e3 a3.

End Pipeline.

Import Pipeline.

(** ** The component: detection passes and the continuous scheduler *)

Module Component.

(** [cocoSsd.DetectedObject]. *)
Record DetectedObject := {
  class : string;
  score : float;
  bbox : box
}.

Record VehicleAnalysis := {
  vehicleType : string;
  analysisConfidence : float;
  analysisColor : string;
  analysisColorHex : string;
  colorConfidence : float;
  colorMethod : Extractor.colorMethod;
  analysisDebugInfo : option string
}.

Record DetectedVehicle := {
  id : Z;
  vehicleClass : string;
  vehicleScore : float;
  vehicleBbox : box;
  vehicleColor : option string;
  analysis : option VehicleAnalysis;
  vehicleDebugImage : option string
}.

Definition vehicleClasses : list string :=
  ["car"; "truck"; "bus"; "motorcycle"; "bicycle"; "airplane"; "boat"; "train"].

Definition isVehicleClass (pred : DetectedObject) : bool :=
  existsb (String.eqb (class pred)) vehicleClasses.

(** Sequencing of awaited computations. *)
Definition bind {A B : Type} (m : outcome A) (k : A -> outcome B) : outcome B :=
  match m with
  | Ok a => k a
  | Throw e => Throw e
  end.

Notation "x <- m ;; k" := (bind m (fun x => k))
  (at level 61, m at next level, right associativity).

(** [Promise.all(list.map(async (item, index) => ...))]. *)
Fixpoint mapAll {A B : Type} (g : Z -> A -> outcome B) (index : Z)
    (l : list A) : outcome (list B) :=
  match l with
  | [] => Ok []
  | a :: t =>
      b <- g index a ;;
      bs <- mapAll g (index + 1) t ;;
      Ok (b :: bs)
  end.

Definition performVehicleAnalysis (f : frame) (detection : DetectedObject)
    : outcome VehicleAnalysis :=
  colorData <-
    extractDominantColorWithDebug f (bbox detection) (class detection) ;;
  Ok {| vehicleType := capitalize (class detection);
        analysisConfidence := Math_round (score detection * 100);
        analysisColor := color colorData;
        analysisColorHex := colorHex colorData;
        colorConfidence := Math_round (confidence colorData * 100);
        colorMethod := method colorData;
        analysisDebugInfo := debugInfo colorData |}.

(** The records of a still-image pass, from the predictions made on the
    standardized canvas. *)
Definition imageVehicles (f : frame) (imageElement : image)
    (standardizedCanvas : canvas) (predictions : list DetectedObject)
    : outcome (list DetectedVehicle) :=
  mapAll
    (fun index detection =>
       let adjustedBbox :=
         adjustBbox imageElement standardizedCanvas (bbox detection) in
       colorData <-
         extractDominantColorWithDebug f adjustedBbox (class detection) ;;
       analysis <-
         performVehicleAnalysis f
           {| class := class detection; score := score detection;
              bbox := adjustedBbox |} ;;
       Ok {| id := index;
             vehicleClass := class detection;
             vehicleScore := score detection;
             vehicleBbox := adjustedBbox;
             vehicleColor := Some (analysisColorHex analysis);
             analysis := Some analysis;
             vehicleDebugImage := debugImage colorData |})
    0 (filter isVehicleClass predictions).

(** The records of a video-frame pass, at native resolution. *)
Definition videoVehicles (f : frame) (predictions : list DetectedObject)
    : outcome (list DetectedVehicle) :=
  mapAll
    (fun index detection =>
       analysis <- performVehicleAnalysis f detection ;;
       Ok {| id := index;
             vehicleClass := class detection;
             vehicleScore := score detection;
             vehicleBbox := bbox detection;
             vehicleColor := Some (analysisColorHex analysis);
             analysis := Some analysis;
             vehicleDebugImage := None |})
    0 (filter isVehicleClass predictions).

(** *** State *)

(** The React state and refs of [VehicleAnalyzer] that the detection
    passes and the scheduler read or write.  [model] and [mediaRef] tell
    whether the detector is loaded and the media element is mounted. *)
Record state := {
  model : bool;
  mediaRef : bool;
  isVideo : bool;
  analyzing : bool;
  detectedVehicles : list DetectedVehicle;
  currentFrame : Z;
  showAlert : bool;
  alertMessage : string;
  hasAttemptedDetection : bool;
  continuousDetection : bool;
  lastDetectionTimestamp : option string;
  animationFrameRef : option positive;
  continuousDetectionRef : bool
}.

Definition setAnalyzing (v : bool) (s : state) : state :=
  {| model := model s; mediaRef := mediaRef s; isVideo := isVideo s;
     analyzing := v; detectedVehicles := detectedVehicles s;
     currentFrame := currentFrame s; showAlert := showAlert s;
     alertMessage := alertMessage s;
     hasAttemptedDetection := hasAttemptedDetection s;
     continuousDetection := continuousDetection s;
     lastDetectionTimestamp := lastDetectionTimestamp s;
     animationFrameRef := animationFrameRef s;
     continuousDetectionRef := continuousDetectionRef s |}.

Definition setDetectedVehicles (v : list DetectedVehicle) (s : state) : state :=
  {| model := model s; mediaRef := mediaRef s; isVideo := isVideo s;
     analyzing := analyzing s; detectedVehicles := v;
     currentFrame := currentFrame s; showAlert := showAlert s;
     alertMessage := alertMessage s;
     hasAttemptedDetection := hasAttemptedDetection s;
     continuousDetection := continuousDetection s;
     lastDetectionTimestamp := lastDetectionTimestamp s;
     animationFrameRef := animationFrameRef s;
     continuousDetectionRef := continuousDetectionRef s |}.

Definition setCurrentFrame (v : Z) (s : state) : state :=
  {| model := model s; mediaRef := mediaRef s; isVideo := isVideo s;
     analyzing := analyzing s; detectedVehicles := detectedVehicles s;
     currentFrame := v; showAlert := showAlert s;
     alertMessage := alertMessage s;
     hasAttemptedDetection := hasAttemptedDetection s;
     continuousDetection := continuousDetection s;
     lastDetectionTimestamp := lastDetectionTimestamp s;
     animationFrameRef := animationFrameRef s;
     continuousDetectionRef := continuousDetectionRef s |}.

(** [setAlertMessage(msg); setShowAlert(true)]. *)
Definition alert (msg : string) (s : state) : state :=
  {| model := model s; mediaRef := mediaRef s; isVideo := isVideo s;
     analyzing := analyzing s; detectedVehicles := detectedVehicles s;
     currentFrame := currentFrame s; showAlert := true;
     alertMessage := msg;
     hasAttemptedDetection := hasAttemptedDetection s;
     continuousDetection := continuousDetection s;
     lastDetectionTimestamp := lastDetectionTimestamp s;
     animationFrameRef := animationFrameRef s;
     continuousDetectionRef := continuousDetectionRef s |}.

Definition setHasAttemptedDetection (v : bool) (s : state) : state :=
  {| model := model s; mediaRef := mediaRef s; isVideo := isVideo s;
     analyzing := analyzing s; detectedVehicles := detectedVehicles s;
     currentFrame := currentFrame s; showAlert := showAlert s;
     alertMessage := alertMessage s;
     hasAttemptedDetection := v;
     continuousDetection := continuousDetection s;
     lastDetectionTimestamp := lastDetectionTimestamp s;
     animationFrameRef := animationFrameRef s;
     continuousDetectionRef := continuousDetectionRef s |}.

(** [setContinuousDetection(v); continuousDetectionRef.current = v]. *)
Definition setContinuous (v : bool) (s : state) : state :=
  {| model := model s; mediaRef := mediaRef s; isVideo := isVideo s;
     analyzing := analyzing s; detectedVehicles := detectedVehicles s;
     currentFrame := currentFrame s; showAlert := showAlert s;
     alertMessage := alertMessage s;
     hasAttemptedDetection := hasAttemptedDetection s;
     continuousDetection := v;
     lastDetectionTimestamp := lastDetectionTimestamp s;
     animationFrameRef := animationFrameRef s;
     continuousDetectionRef := v |}.

Definition setLastDetectionTimestamp (v : option string) (s : state) : state :=
  {| model := model s; mediaRef := mediaRef s; isVideo := isVideo s;
     analyzing := analyzing s; detectedVehicles := detectedVehicles s;
     currentFrame := currentFrame s; showAlert := showAlert s;
     alertMessage := alertMessage s;
     hasAttemptedDetection := hasAttemptedDetection s;
     continuousDetection := continuousDetection s;
     lastDetectionTimestamp := v;
     animationFrameRef := animationFrameRef s;
     continuousDetectionRef := continuousDetectionRef s |}.

Definition setAnimationFrameRef (v : option positive) (s : state) : state :=
  {| model := model s; mediaRef := mediaRef s; isVideo := isVideo s;
     analyzing := analyzing s; detectedVehicles := detectedVehicles s;
     currentFrame := currentFrame s; showAlert := showAlert s;
     alertMessage := alertMessage s;
     hasAttemptedDetection := hasAttemptedDetection s;
     continuousDetection := continuousDetection s;
     lastDetectionTimestamp := lastDetectionTimestamp s;
     animationFrameRef := v;
     continuousDetectionRef := continuousDetectionRef s |}.

(** The video element and the browser's animation-frame queue.  Handles
    are positive, so a stored handle is always truthy. *)
Record host := {
  paused : bool;
  ended : bool;
  currentTime : float;
  pendingFrames : list positive;
  nextHandle : positive
}.

(** [requestAnimationFrame(detectVehiclesInVideo)]. *)
Definition requestAnimationFrame (h : host) : positive * host :=
  (nextHandle h,
   {| paused := paused h; ended := ended h; currentTime := currentTime h;
      pendingFrames := (pendingFrames h ++ [nextHandle h])%list;
      nextHandle := Pos.succ (nextHandle h) |}).

(** [cancelAnimationFrame(handle)]. *)
Definition cancelAnimationFrame (handle : positive) (h : host) : host :=
  {| paused := paused h; ended := ended h; currentTime := currentTime h;
     pendingFrames := filter (fun k => negb (Pos.eqb k handle)) (pendingFrames h);
     nextHandle := nextHandle h |}.

Definition setPaused (v : bool) (h : host) : host :=
  {| paused := v; ended := ended h; currentTime := currentTime h;
     pendingFrames := pendingFrames h; nextHandle := nextHandle h |}.

(** The component with its host.  [inFlight] counts the loop iterations
    suspended at [await model.detect]; [playRequests] the [play()] promises
    of the start path that have not settled. *)
Record world := {
  ui : state;
  video : host;
  inFlight : nat;
  playRequests : nat
}.

Definition withUi (s : state) (w : world) : world :=
  {| ui := s; video := video w; inFlight := inFlight w;
     playRequests := playRequests w |}.

Definition withVideo (h : host) (w : world) : world :=
  {| ui := ui w; video := h; inFlight := inFlight w;
     playRequests := playRequests w |}.

End Component.

Import Component.

(** ** Detection passes and the continuous-detection loop *)

Module Session.
Section Session.

(** [formatVideoTime] only prints the timestamp for display. *)
Variable formatVideoTime : float -> string.

(** What the media element shows during the pass. *)
Variable f : frame.

Definition noVehicles (vehicles : list DetectedVehicle) : bool :=
  (List.length vehicles =? 0)%nat.

(** [detectVehiclesInImage], with the settlement of [model.detect] on the
    standardized canvas as [detect]. *)
Definition detectVehiclesInImage (imageElement : image) (ctx : bool)
    (detect : outcome (list DetectedObject)) (s : state) : state :=
  if negb (model s) || negb (mediaRef s) then s
  else
    let s := setAnalyzing true s in
    let standardizedCanvas := standardizeImage ctx imageElement 800 600 in
    let s :=
      match (predictions <- detect ;;
             imageVehicles f imageElement standardizedCanvas predictions) with
      | Ok vehicles =>
          setDetectedVehicles vehicles
            (if noVehicles vehicles
             then alert "No vehicles detected in this image." s
             else s)
      | Throw _ =>
          alert "An error occurred during detection. Please try another image." s
      end in
    setHasAttemptedDetection true (setAnalyzing false s).

(** [detectCurrentVideoFrame] up to [await model.detect]: [None] when the
    guard returns at once. *)
Definition detectCurrentVideoFrame_begin (w : world) : option world :=
  let s := ui w in
  if negb (model s) || negb (mediaRef s) || negb (isVideo s) then None
  else
    Some (withUi (setLastDetectionTimestamp
                    (Some (formatVideoTime (currentTime (video w)))) s) w).

(** [detectCurrentVideoFrame] from the settlement of [model.detect] on. *)
Definition detectCurrentVideoFrame_settle
    (detect : outcome (list DetectedObject)) (s : state) : state :=
  match (predictions <- detect ;; videoVehicles f predictions) with
  | Ok vehicles =>
      setHasAttemptedDetection true
        (setDetectedVehicles vehicles
           (if noVehicles vehicles
            then alert "No vehicles detected in this frame." s
            else s))
  | Throw _ => alert "An error occurred during detection." s
  end.

(** [handleDetectCurrentFrame]: the manual one-shot pass on a video. *)
Definition handleDetectCurrentFrame
    (detect : outcome (list DetectedObject)) (w : world) : world :=
  if negb (isVideo (ui w)) || negb (mediaRef (ui w)) then w
  else
    let w := withUi (setAnalyzing true (ui w)) w in
    let w :=
      match detectCurrentVideoFrame_begin w with
      | None => w
      | Some w' => withUi (detectCurrentVideoFrame_settle detect (ui w')) w'
      end in
    withUi (setAnalyzing false (ui w)) w.

(** The end of [detectVehiclesInVideo]: "Continue the loop - use ref to
    check current state". *)
Definition reschedule (w : world) : world :=
  let s := ui w in
  if continuousDetectionRef s && negb (paused (video w))
     && negb (ended (video w)) && model s && mediaRef s
  then
    let '(handle, h) := requestAnimationFrame (video w) in
    withUi (setAnimationFrameRef (Some handle) s) (withVideo h w)
  else w.

Definition suspend (w : world) : world :=
  {| ui := ui w; video := video w; inFlight := S (inFlight w);
     playRequests := playRequests w |}.

(** [detectVehiclesInVideo] from its entry to [await model.detect] (the
    iteration is then in flight) or to its early return. *)
Definition detectVehiclesInVideo_enter (w : world) : world :=
  let s := ui w in
  if negb (model s) || negb (mediaRef s) || negb (isVideo s) then w
  else if ended (video w) then
    (* Stop if video ended *)
    withUi (setContinuous false (setAnalyzing false s)) w
  else if negb (continuousDetectionRef s) then
    (* Stop if continuous mode was turned off *)
    withUi (setAnalyzing false s) w
  else if paused (video w) then
    (* Stop if video is paused *)
    withUi (setAnalyzing false s) w
  else
    let w := withUi (setCurrentFrame (currentFrame s + 1) s) w in
    match detectCurrentVideoFrame_begin w with
    | Some w' => suspend w'
    | None => reschedule w
    end.

(** [detectVehiclesInVideo] from the settlement of the detector on. *)
Definition detectVehiclesInVideo_resume
    (detect : outcome (list DetectedObject)) (w : world) : world :=
  reschedule (withUi (detectCurrentVideoFrame_settle detect (ui w)) w).

(** "Cancel any pending animation frame". *)
Definition cancelPending (w : world) : world :=
  match animationFrameRef (ui w) with
  | Some handle =>
      withUi (setAnimationFrameRef None (ui w))
             (withVideo (cancelAnimationFrame handle (video w)) w)
  | None => w
  end.

(** [toggleContinuousDetection]. *)
Definition toggleContinuousDetection (w : world) : world :=
  if negb (isVideo (ui w)) || negb (mediaRef (ui w)) then w
  else if continuousDetection (ui w) then
    (* Stop continuous detection *)
    cancelPending (withUi (setAnalyzing false (setContinuous false (ui w))) w)
  else
    (* Start continuous detection *)
    let w := cancelPending w in
    let w :=
      withUi (setHasAttemptedDetection true
                (setAnalyzing true (setContinuous true (ui w)))) w in
    if paused (video w) then
      {| ui := ui w; video := video w; inFlight := inFlight w;
         playRequests := S (playRequests w) |}
    else detectVehiclesInVideo_enter w.

(** The [then] and [catch] of [videoElement.play()] on the start path. *)
Definition playSettled (r : outcome unit) (w : world) : world :=
  match playRequests w with
  | O => w
  | S n =>
      let w := {| ui := ui w; video := video w; inFlight := inFlight w;
                  playRequests := n |} in
      match r with
      | Ok _ =>
          detectVehiclesInVideo_enter (withVideo (setPaused false (video w)) w)
      | Throw _ =>
          withUi
            (alert "Could not start video playback for auto-detection. Try playing the video manually first."
                   (setAnalyzing false (setContinuous false (ui w)))) w
      end
  end.

(** [handlePause] and [handlePlay], the listeners on the video element. *)
Definition handlePause (w : world) : world :=
  if continuousDetection (ui w) then
    let w :=
      match animationFrameRef (ui w) with
      | Some handle => withVideo (cancelAnimationFrame handle (video w)) w
      | None => w
      end in
    withUi (setAnalyzing false (ui w)) w
  else w.

Definition handlePlay (w : world) : world :=
  if continuousDetection (ui w) then
    detectVehiclesInVideo_enter (withUi (setAnalyzing true (ui w)) w)
  else w.

(** What can happen to a mounted video component, one event-loop turn at
    a time. *)
Inductive event :=
| Toggle
| PlaySettles (r : outcome unit)
| FrameFires (handle : positive)
| DetectorSettles (r : outcome (list DetectedObject))
| VideoPauses
| VideoPlays
| VideoEnds.

Definition isToggle (ev : event) : bool :=
  match ev with Toggle => true | _ => false end.

Definition takeFrame (handle : positive) (h : host) : host :=
  cancelAnimationFrame handle h.

Definition step (ev : event) (w : world) : world :=
  match ev with
  | Toggle => toggleContinuousDetection w
  | PlaySettles r => playSettled r w
  | FrameFires handle =>
      if existsb (Pos.eqb handle) (pendingFrames (video w))
      then detectVehiclesInVideo_enter (withVideo (takeFrame handle (video w)) w)
      else w
  | DetectorSettles r =>
      match inFlight w with
      | O => w
      | S n =>
          detectVehiclesInVideo_resume r
            {| ui := ui w; video := video w; inFlight := n;
               playRequests := playRequests w |}
      end
  | VideoPauses => handlePause (withVideo (setPaused true (video w)) w)
  | VideoPlays => handlePlay (withVideo (setPaused false (video w)) w)
  | VideoEnds =>
      withVideo {| paused := paused (video w); ended := true;
                   currentTime := currentTime (video w);
                   pendingFrames := pendingFrames (video w);
                   nextHandle := nextHandle (video w) |} w
  end.

Definition run (evs : list event) (w : world) : world :=
  fold_left (fun w ev => step ev w) evs w.

End Session.
End Session.

Import Session.

(** ** Strings as the engine has them *)

Module Text.

(** A string of the program: its UTF-16 code units. *)
Definition text := list Z.

(** The code units of an ASCII literal. *)
Definition lit (s : string) : text :=
  map (fun c => Z.of_nat (nat_of_ascii c)) (list_ascii_of_string s).

(** [hay.startsWith(needle)] and [hay.includes(needle)]. *)
Fixpoint startsWith (needle hay : text) : bool :=
  match needle, hay with
  | [], _ => true
  | _ :: _, [] => false
  | n :: needle', h :: hay' => (n =? h) && startsWith needle' hay'
  end.

Fixpoint includes (needle hay : text) : bool :=
  startsWith needle hay ||
  match hay with
  | [] => false
  | _ :: rest => includes needle rest
  end.





Definition isAscii (u : Z) : bool := (0 <=? u) && (u <? 128).

(** Lower case of an ASCII code unit: A to Z go to a to z. *)
Definition lowerAsciiUnit (u : Z) : Z :=
  if (65 <=? u) && (u <=? 90) then u + 32 else u.

Section Lower.

(** The lower-case mapping of the engine (Unicode's default case
    conversion, without locale) on the code units outside ASCII: what the
    unit [u] contributes to the result when it stands between [before] and
    [after].  The context is there for the surrogate pairs and for the one
    conditional mapping, the final sigma.  An ASCII unit contributes its
    own lower case whatever surrounds it. *)
Variable lowerOther : text -> Z -> text -> text.

Fixpoint lowerFrom (before s : text) : text :=
  match s with
  | [] => []
  | u :: rest =>
      ((if isAscii u then [lowerAsciiUnit u] else lowerOther before u rest)
       ++ lowerFrom (before ++ [u]) rest)%list
  end.

(** [s.toLowerCase()]. *)
Definition toLowerCase (s : text) : text := lowerFrom [] s.

End Lower.

End Text.

(** ** Loading new media *)

Module Media.

(** A [File]: its MIME type. *)
Record File := { fileType : string }.

(** The analyzer with the media it shows: the component and its host, the
    URL and the file of the media, the uploader flag, and the object URLs
    released with [URL.revokeObjectURL]. *)
Record analyzer := {
  core : world;
  fileUrl : Text.text;
  file : option File;
  showUploader : bool;
  revoked : list Text.text
}.

Definition setIsVideo (v : bool) (s : state) : state :=
  {| model := model s; mediaRef := mediaRef s; isVideo := v;
     analyzing := analyzing s; detectedVehicles := detectedVehicles s;
     currentFrame := currentFrame s; showAlert := showAlert s;
     alertMessage := alertMessage s;
     hasAttemptedDetection := hasAttemptedDetection s;
     continuousDetection := continuousDetection s;
     lastDetectionTimestamp := lastDetectionTimestamp s;
     animationFrameRef := animationFrameRef s;
     continuousDetectionRef := continuousDetectionRef s |}.

Definition videoExtensions : list Text.text :=
  map Text.lit [".mp4"; ".webm"; ".mov"; ".avi"; ".mkv"].

(** [videoExtensions.some((ext) => url.toLowerCase().includes(ext))]. *)
Definition isVideoUrl (lowerOther : Text.text -> Z -> Text.text -> Text.text)
    (url : Text.text) : bool :=
  existsb (fun ext => Text.includes ext (Text.toLowerCase lowerOther url))
          videoExtensions.

(** [newFile.type.startsWith("video/")]. *)
Definition isVideoFile (newFile : File) : bool :=
  prefix "video/" (fileType newFile).

(** "Clean up previous URL if it was from a local file". *)
Definition revokePrevious (a : analyzer) : list Text.text :=
  match file a with
  | Some _ =>
      match fileUrl a with
      | [] => revoked a
      | _ :: _ => (revoked a ++ [fileUrl a])%list
      end
  | None => revoked a
  end.

(** "Stop any ongoing video detection": the recorded frame is cancelled; the
    ref keeps the handle. *)
Definition cancelRecorded (w : world) : world :=
  match animationFrameRef (ui w) with
  | Some handle => withVideo (cancelAnimationFrame handle (video w)) w
  | None => w
  end.

(** The state updates both loaders share, in source order. *)
Definition resetSession (nowVideo : bool) (s : state) : state :=
  setLastDetectionTimestamp None
    (setContinuous false
       (setHasAttemptedDetection false
          (setIsVideo nowVideo
             (setAnalyzing false (setDetectedVehicles [] s))))).

(** [handleFileUpload], with the URL [URL.createObjectURL(newFile)]
    returns. *)
Definition handleFileUpload (newFile : File) (objectUrl : Text.text)
    (a : analyzer) : analyzer :=
  let w := cancelRecorded (core a) in
  {| core := withUi (resetSession (isVideoFile newFile) (ui w)) w;
     fileUrl := objectUrl;
     file := Some newFile;
     showUploader := false;
     revoked := revokePrevious a |}.

(** [handleUrlInput]. *)
Definition handleUrlInput
    (lowerOther : Text.text -> Z -> Text.text -> Text.text)
    (url : Text.text) (a : analyzer) : analyzer :=
  let w := cancelRecorded (core a) in
  {| core := withUi (resetSession (isVideoUrl lowerOther url) (ui w)) w;
     fileUrl := url;
     file := None;
     showUploader := false;
     revoked := revokePrevious a |}.

(** [handleTryAnother]: the results stay visible until the new upload.  The
    mounted element is a video exactly when [isVideo] is set. *)
Definition handleTryAnother (a : analyzer) : analyzer :=
  let w := core a in
  let w := if isVideo (ui w) then cancelRecorded w else w in
  let w :=
    if mediaRef (ui w) && isVideo (ui w)
    then withVideo (setPaused true (video w)) w
    else w in
  {| core := withUi (setContinuous false (setAnalyzing false (ui w))) w;
     fileUrl := fileUrl a;
     file := file a;
     showUploader := true;
     revoked := revoked a |}.

(** [handleMediaLoad], the [onLoad] of the image and the [onLoadedData] of
    the video: "Images auto-detect on load, videos require manual
    detection". *)
Definition handleMediaLoad (f : frame) (imageElement : image) (ctx : bool)
    (detect : outcome (list DetectedObject)) (s : state) : state :=
  if negb (isVideo s) then detectVehiclesInImage f imageElement ctx detect s
  else s.

End Media.

(** ** The URL form of [FileUploader.tsx] *)

Module Uploader.





End Uploader.

(** ** Definitions that follow the specification's words

    Each is compared below with the definition translated from the source. *)

Module Spec.

(** "eight lightness buckets (Pearl White…Black) by descending lightness
    thresholds {0.85,0.75,0.65,0.55,0.45,0.35,0.25}". *)
Definition grayscaleThresholds : list (float * string) :=
  [ (0.85, "Pearl White"); (0.75, "Silver"); (0.65, "Light Gray");
    (0.55, "Medium Gray"); (0.45, "Gray"); (0.35, "Dark Gray");
    (0.25, "Charcoal") ]%float.

(** The name of the first threshold that [l] exceeds, [floor] if none. *)
Fixpoint firstExceeded (l : float) (table : list (float * string))
    (floor : string) : string :=
  match table with
  | [] => floor
  | (threshold, name) :: rest =>
      if gt l threshold then name else firstExceeded l rest floor
  end.

Definition grayscaleNames : list string :=
  (map snd grayscaleThresholds ++ ["Black"])%list.

End Spec.

(** * Vocabulary of the statements and example inputs *)

(** ** Facts about doubles *)

(** A double that is not below zero: NaN, a zero, or positive. *)
Definition sfNotNeg (x : spec_float) : Prop :=
  match x with
  | S754_finite true _ _ | S754_infinity true => False
  | _ => True
  end.

(** ** Colour taxonomy *)

(** Gray levels whose classification goes through the grayscale band, one
    per bucket, lightest first. *)
Definition grayLevels : list float := [220; 200; 180; 150; 120; 100; 70; 40]%float.

Definition throughGrayBand (v : float) : bool :=
  let '(_, s, l) := rgbToHsl v v v in
  negb (lt l 0.12) && negb (gt l 0.88 && lt s 0.15) && lt s 0.08.

(** ** Sampling loops and histograms *)

(** What a sampling pass maintains: the total is the sum of the counts,
    every count is positive, and no name occurs twice. *)
Definition tallyOk (t : tally) : Prop :=
  totalValidPixels t = sumCounts (colorCounts t) /\
  Forall (fun e => 0 < snd e) (colorCounts t) /\
  NoDup (map fst (colorCounts t)).

(** ** The extractor's fallback chain *)

Definition strategyNames : list string :=
  ["Full Vehicle (Adjusted)"; "Upper Body Area"; "Main Body Panel"].

(** A diagnostic that names the path that produced the answer: one of the
    three strategies, the center-crop fallback, the class default after all
    of them, or the error handler. *)
Inductive namesPath : string -> Prop :=
| ByStrategy (name rest : string) :
    In name strategyNames -> namesPath ("Strategy: " ++ name ++ rest)
| ByCenterCrop (dominantColor : string) :
    namesPath ("Fallback center sampling: " ++ dominantColor)
| ByClassDefault : namesPath "All strategies failed, using fallback"
| ByErrorHandler (e : string) : namesPath ("Error: " ++ e).

(** The per-class default colour and its hex code. *)
Definition classDefault (vehicleType : string) : string * string :=
  (color (getFallbackColor vehicleType None None),
   colorHex (getFallbackColor vehicleType None None)).

(** The result of a strategy that counted no valid pixel. *)
Definition unknownResult (name url : string) : colorResult :=
  {| color := "Unknown"; colorHex := "#808080"; confidence := 0.4%float;
     method := PixelAnalysis; debugImage := Some url;
     debugInfo := Some ("Strategy: " ++ name ++ ", Pixels: 0, Top colors: ") |}.

(** Ten sampled pixels of one colour: each sampled RGBA quad is followed by
    the quad the stride skips. *)
Definition tenPixels (r g b : Z) : list Z :=
  List.concat (repeat [r; g; b; 255; r; g; b; 255] 10).

(** Sixty valid pixels of six colours, ten of each (confidence 1/6). *)
Definition sixColours : list Z :=
  (tenPixels 220 20 60 ++ tenPixels 0 0 255 ++ tenPixels 0 255 0 ++
   tenPixels 255 255 0 ++ tenPixels 255 0 255 ++ tenPixels 255 165 0)%list.

(** A frame whose first region is [sixColours], whose other strategy
    canvases have no context, and whose center crop holds one red pixel. *)
Definition manyColoursFrame : frame :=
  fun st _ =>
    match st with
    | Strategy 0 => Pixels "data:full" sixColours
    | Strategy _ => NoContext
    | CenterCrop => Pixels "data:center" [220; 20; 60; 255]
    end.

(** A frame every region of which is fully transparent. *)
Definition transparentFrame : frame :=
  fun _ _ => Pixels "data:blank" [0; 0; 0; 0; 0; 0; 0; 0; 0; 0; 0; 0; 0; 0; 0; 0].

(** ** Dominant-colour selection *)

(** Ranking order of the sorted histogram: counts never increase. *)
Definition ranked (a b : string * Z) : Prop := snd b <= snd a.

(** The 30% test of the source against the same test on the integers, for
    every count of colored pixels up to a total. *)
Definition thirtyPercentExactUpTo (total : Z) : bool :=
  forallb (fun c => Bool.eqb (overThirtyPercent c total) (3 * total <? 10 * c))
          (map Z.of_nat (seq 0 (S (Z.to_nat total)))).

(** ** Pixel sampling *)

Definition pixel := (Z * Z * Z * Z)%type.

(** The RGBA quad of pixel [p] of a buffer. *)
Definition pixelAt (data : list Z) (p : nat) : pixel :=
  (nth (4 * p) data 0, nth (4 * p + 1) data 0,
   nth (4 * p + 2) data 0, nth (4 * p + 3) data 0).

(** The pixel indices 0, [step], 2 [step], ... below [n]. *)
Definition everyNth (step n : nat) : list nat :=
  filter (fun p => p <? n)%nat (map (fun j => j * step)%nat (seq 0 n)).

(** Classifying and counting the kept pixels of a list, in order. *)
Definition tallyStep (kept : pixel -> bool) (t : tally) (px : pixel) : tally :=
  let '(r, g, b, a) := px in
  if kept px then
    {| colorCounts :=
         bump (getAdvancedColorName (Z2float r) (Z2float g) (Z2float b))
              (colorCounts t);
       totalValidPixels := totalValidPixels t + 1 |}
  else t.

Definition tallyPixels (kept : pixel -> bool) (pixels : list pixel) : tally :=
  fold_left (tallyStep kept) pixels emptyTally.

(** Brightness is [(r + g + b) / 3]: the exclusions in terms of the bytes.
    What the source excludes: alpha at most 50, brightness at most 2, or
    brightness 255. *)
Definition excludedByCode (px : pixel) : bool :=
  let '(r, g, b, a) := px in
  (a <=? 50) || (r + g + b <=? 6) || (r + g + b =? 765).

(** What the specification says is excluded: alpha below 50, brightness
    below 2, or brightness equal to 255. *)
Definition excludedBySpec (px : pixel) : bool :=
  let '(r, g, b, a) := px in
  (a <? 50) || (r + g + b <? 6) || (r + g + b =? 765).

Definition isByte (v : Z) : Prop := 0 <= v <= 255.

(** The brightness tests on every possible sum of three bytes. *)
Definition brightnessTestsAgree (s : Z) : bool :=
  Bool.eqb (gt (Z2float s / 3) 2) (6 <? s) &&
  Bool.eqb (lt (Z2float s / 3) 255) (s <? 765).

(** Six pixels: an opaque red one, an opaque blue one two pixels on, and a
    gray one with alpha 50 four pixels on; the others are transparent. *)
Definition sixPixels : list Z :=
  [220; 20; 60; 255;   0; 0; 0; 0;   0; 0; 255; 255;
   0; 0; 0; 0;   120; 120; 120; 50;   0; 0; 0; 0].

(** ** Sampling regions *)

(** Every region the extractor reads for a box: the three strategies and
    the center crop. *)
Definition sampledRegions (x y width height : float) : list region :=
  (map snd (strategies x y width height) ++ [centerRegion x y width height])%list.

(** "All region coordinates are clamped to non-negative values". *)
Definition allCoordinatesNonNegative (x y width height : float) : bool :=
  forallb (fun reg => ge (rx reg) 0 && ge (ry reg) 0)
          (sampledRegions x y width height).

(** The strategies whose region is shifted upward. *)
Definition shiftedUp (x y width height : float) : list (string * region) :=
  firstn 2 (strategies x y width height).

(** ** Coordinate rescaling *)

(** An image slightly wider than 4:3, and a box in it. *)
Definition wideImage : image := {| naturalWidth := 4000; naturalHeight := 2999 |}.
Definition wideBox : box := (1000, 2000, 500, 400)%float.

(** An image of exactly 4:3. *)
Definition plainImage : image := {| naturalWidth := 1600; naturalHeight := 1200 |}.

(** ** Detection passes *)

(** A mounted, playing video with the detector loaded and nothing detected
    yet. *)
Definition idleVideo : world :=
  {| ui := {| model := true; mediaRef := true; isVideo := true;
              analyzing := false; detectedVehicles := [];
              currentFrame := 0; showAlert := false; alertMessage := "";
              hasAttemptedDetection := false; continuousDetection := false;
              lastDetectionTimestamp := None; animationFrameRef := None;
              continuousDetectionRef := false |};
     video := {| paused := false; ended := false; currentTime := 12.5;
                 pendingFrames := []; nextHandle := 1 |};
     inFlight := 0; playRequests := 0 |}.

(** A mounted still image with the detector loaded. *)
Definition idleImage : state :=
  {| model := true; mediaRef := true; isVideo := false;
     analyzing := false; detectedVehicles := [];
     currentFrame := 0; showAlert := false; alertMessage := "";
     hasAttemptedDetection := false; continuousDetection := false;
     lastDetectionTimestamp := None; animationFrameRef := None;
     continuousDetectionRef := false |}.

Definition plainTime (t : float) : string := "00:12.50".

(** The same video, paused. *)
Definition pausedVideo : world :=
  withVideo (setPaused true (video idleVideo)) idleVideo.

(** Continuous mode started on the paused video: the video plays, so both
    the [play] listener and the [then] of [play()] enter the loop, and each
    of the two iterations settles and schedules its successor. *)
Definition startOnPaused : list event :=
  [Toggle; VideoPlays; PlaySettles (Ok tt);
   DetectorSettles (Ok []); DetectorSettles (Ok [])].

(** ** The continuous-detection loop *)

(** Continuous mode is off: both the ref the loop reads and the state the
    button and the listeners read. *)
Definition stopped (w : world) : Prop :=
  continuousDetectionRef (ui w) = false /\ continuousDetection (ui w) = false.

(** Nothing was scheduled and no detection began between [w] and [w']. *)
Definition quiet (w w' : world) : Prop :=
  nextHandle (video w') = nextHandle (video w) /\
  incl (pendingFrames (video w')) (pendingFrames (video w)) /\
  (inFlight w' <= inFlight w)%nat.

(** * Vocabulary of the further properties *)

(** ** Colour names *)

(** Every name the decision table can return. *)
Definition classifierNames : list string :=
  [ "Black"; "White"; "Pearl White"; "Silver"; "Light Gray"; "Medium Gray";
    "Gray"; "Dark Gray"; "Charcoal";
    "Cream"; "Beige"; "Tan"; "Light Brown"; "Brown"; "Dark Brown"; "Chocolate";
    "Light Pink"; "Rose"; "Light Red"; "Red"; "Crimson"; "Dark Red"; "Maroon";
    "Pink"; "Hot Pink"; "Fuchsia"; "Magenta"; "Deep Pink";
    "Peach"; "Light Orange"; "Orange"; "Burnt Orange"; "Dark Orange"; "Rust";
    "Light Yellow"; "Yellow"; "Gold"; "Mustard"; "Amber";
    "Lime"; "Light Green"; "Green"; "Forest Green"; "Dark Green";
    "Mint Green"; "Emerald"; "Seafoam"; "Teal"; "Dark Teal";
    "Turquoise"; "Cyan";
    "Light Blue"; "Sky Blue"; "Blue"; "Royal Blue"; "Navy"; "Dark Navy";
    "Cobalt"; "Midnight Blue"; "Periwinkle"; "Indigo"; "Dark Blue";
    "Lavender"; "Light Purple"; "Purple"; "Violet"; "Dark Purple"; "Plum";
    "Mixed" ].

Definition isClassifierName (c : string) : bool :=
  existsb (String.eqb c) classifierNames.

(** The name has an entry of its own in the hex table. *)
Definition hasHexEntry (c : string) : bool :=
  match lookup c colorMap with Some _ => true | None => false end.

(** The names an achromatic pixel can get. *)
Definition achromaticNames : list string :=
  ("White" :: Spec.grayscaleNames)%list.

Definition achromaticOk (v : Z) : bool :=
  let '(h, s, _) := rgbToHsl (Z2float v) (Z2float v) (Z2float v) in
  (h =? 0)%float && (s =? 0)%float &&
  existsb (String.eqb (getAdvancedColorName (Z2float v) (Z2float v) (Z2float v)))
          achromaticNames.

(** ** Doubles *)

(** The order [SFcompare] puts on two finite doubles of the same sign:
    exponent first, then mantissa. *)
Definition lexCompare (e1 : Z) (m1 : positive) (e2 : Z) (m2 : positive)
    : comparison :=
  match (e1 ?= e2) with
  | Lt => Lt
  | Gt => Gt
  | Eq => Pos.compare_cont Eq m1 m2
  end.

(** ** Histograms and strategies *)

(** What holds of each entry of a histogram with total [total]. *)
Definition entryOk (total : Z) (e : string * Z) : Prop :=
  1 <= snd e <= total /\ In (fst e) classifierNames.

(** The entries with count [c], in order. *)
Definition withCount (c : Z) (h : histogram) : histogram :=
  filter (fun e => snd e =? c) h.

(** The loop state the strategies start from. *)
Definition noResult : loopState := {| bestResult := None; debugImages := [] |}.

(** Strategy [k] of the list read its region and computed [r]. *)
Definition computed (f : frame) (ss : list (string * region)) (k : nat)
    (r : colorResult) : Prop :=
  exists name reg url data,
    nth_error ss k = Some (name, reg) /\
    f (Strategy k) reg = Pixels url data /\
    r = analyzeRegion name url data.

(** What the center-crop fallback keeps, in terms of the bytes: alpha above
    30 and brightness above 1. *)
Definition keptByCenter (px : pixel) : bool :=
  let '(r, g, b, a) := px in (30 <? a) && (3 <? r + g + b).

Definition centerBrightnessAgrees (s : Z) : bool :=
  Bool.eqb (gt (Z2float s / 3) 1) (3 <? s).

(** A frame whose strategy canvases have no context and whose center crop
    shows six opaque red pixels, one every fourth pixel. *)
Definition centerOnlyFrame : frame :=
  fun st _ =>
    match st with
    | Strategy _ => NoContext
    | CenterCrop =>
        Pixels "data:center"
          (List.concat
             (repeat [220; 20; 60; 255; 0; 0; 0; 0; 0; 0; 0; 0; 0; 0; 0; 0] 6))
    end.

(** Eight pixels: opaque red at pixel 0, opaque blue at pixel 4 with alpha
    31, and transparent ones between. *)
Definition eightPixels : list Z :=
  [220; 20; 60; 255;  0; 0; 0; 0;  0; 0; 0; 0;  0; 0; 0; 0;
   0; 0; 255; 31;  0; 0; 0; 0;  0; 0; 0; 0;  0; 0; 0; 0].

(** ** Records of a pass *)

(** Record [v] was built from detection [d] at position [k] of the vehicle
    detections, with the box [b]. *)
Definition recordOf (k : nat) (d : DetectedObject) (b : box)
    (v : DetectedVehicle) : Prop :=
  id v = Z.of_nat k /\
  vehicleClass v = class d /\
  vehicleScore v = score d /\
  vehicleBbox v = b /\
  In (vehicleClass v) vehicleClasses /\
  exists a,
    analysis v = Some a /\
    vehicleType a = capitalize (class d) /\
    vehicleColor v = Some (analysisColorHex a).

(** The records [vs] are those of the vehicle detections among
    [predictions], one each and in order, with the boxes [boxOf] gives. *)
Definition recordsOf (boxOf : box -> box) (predictions : list DetectedObject)
    (vs : list DetectedVehicle) : Prop :=
  List.length vs = List.length (filter isVehicleClass predictions) /\
  forall k d,
    nth_error (filter isVehicleClass predictions) k = Some d ->
    exists v, nth_error vs k = Some v /\ recordOf k d (boxOf (bbox d)) v.

(** Two detections, a person and a truck. *)
Definition personAndTruck : list DetectedObject :=
  [ {| class := "person"; score := 0.88; bbox := (10, 20, 30, 40)%float |};
    {| class := "truck"; score := 0.91; bbox := (100, 100, 200, 150)%float |} ].

Definition onlyPerson : list DetectedObject :=
  [ {| class := "person"; score := 0.88; bbox := (10, 20, 30, 40)%float |} ].

(** What a completed pass shows besides its records: the notice when no
    vehicle was among the detections, and otherwise the alert as it was. *)
Definition noticeAfter (predictions : list DetectedObject) (notice : string)
    (s s' : state) : Prop :=
  match filter isVehicleClass predictions with
  | [] => showAlert s' = true /\ alertMessage s' = notice
  | _ :: _ => showAlert s' = showAlert s /\ alertMessage s' = alertMessage s
  end.

(** ** The loop while it runs *)

(** A mounted video with the detector loaded. *)
Definition mounted (w : world) : Prop :=
  model (ui w) = true /\ mediaRef (ui w) = true /\ isVideo (ui w) = true.

(** Continuous mode is on, in the state and in the ref. *)
Definition continuous (w : world) : Prop :=
  continuousDetection (ui w) = true /\ continuousDetectionRef (ui w) = true.

(** The video plays and has not ended. *)
Definition playing (w : world) : Prop :=
  paused (video w) = false /\ ended (video w) = false.

(** The loop right after a start on the playing video: the first iteration
    is in flight and no frame is pending. *)
Definition justStarted : world :=
  run plainTime transparentFrame [Toggle] idleVideo.

(** The loop with its second iteration pending. *)
Definition secondPending : world :=
  run plainTime transparentFrame [Toggle; DetectorSettles (Ok [])] idleVideo.

(** The loop is suspended: continuous mode is on and the video is paused
    before its end. *)
Definition suspended (w : world) : Prop :=
  mounted w /\ continuous w /\
  paused (video w) = true /\ ended (video w) = false.

(** A loop iteration fires or a detection settles. *)
Definition firesOrSettles (ev : event) : bool :=
  match ev with
  | FrameFires _ | DetectorSettles _ => true
  | _ => false
  end.

(** ** Loading new media *)

(** No records, no attempt, no timestamp, not analyzing, and continuous
    mode off. *)
Definition freshSession (w : world) : Prop :=
  detectedVehicles (ui w) = [] /\ analyzing (ui w) = false /\
  hasAttemptedDetection (ui w) = false /\
  lastDetectionTimestamp (ui w) = None /\ stopped w.

(** The frame the ref of [w] records is not pending in [w']. *)
Definition recordedFrameCancelled (w w' : world) : Prop :=
  forall handle, animationFrameRef (ui w) = Some handle ->
    ~ In handle (pendingFrames (video w')).

(** The loop of [justStarted] runs on a local clip, its first detection in
    flight. *)
Definition watchingLocalClip : Media.analyzer :=
  {| Media.core := justStarted; Media.fileUrl := Text.lit "blob:first";
     Media.file := Some {| Media.fileType := "video/mp4" |};
     Media.showUploader := false; Media.revoked := [] |}.

Definition stillPicture : Media.File := {| Media.fileType := "image/png" |}.

(** ** Addresses *)

(** Every code unit is ASCII. *)
Definition isAsciiText (s : Text.text) : bool := forallb Text.isAscii s.

(** The extension [ext], in whatever mix of ASCII upper and lower case,
    occurs in [url]. *)
Definition carriesExtension (url : Text.text) : Prop :=
  exists p ext s,
    url = (p ++ ext ++ s)%list /\ isAsciiText ext = true /\
    In (map Text.lowerAsciiUnit ext) Media.videoExtensions.

(** A lower-case mapping for the examples: the two mappings of Unicode's
    table that lead into ASCII, the Kelvin sign U+212A to k and the dotted
    capital I U+0130 to i with a combining dot; every other code unit is
    left as it is. *)
Definition intoAscii (before : Text.text) (u : Z) (after : Text.text)
    : Text.text :=
  if u =? 8490 then [107]
  else if u =? 304 then [105; 775]
  else [u].

(** An address whose extension is spelled with the Kelvin sign. *)
Definition kelvinClip : Text.text :=
  (Text.lit "https://x/a.m" ++ [8490] ++ Text.lit "v")%list.

(** ** The URL form *)



(** * Properties *)

(** ** Facts about doubles *)

Section FloatFacts.

Lemma SFcompare_antisym (x y : spec_float) :
  SFcompare y x = option_map CompOpp (SFcompare x y).
Proof.
  destruct x as [sx|sx| |sx mx ex], y as [sy|sy| |sy my ey]; simpl;
    try reflexivity;
    try (destruct sx; reflexivity); try (destruct sy; reflexivity);
    try (destruct sx, sy; reflexivity).
  pose proof (Pos.compare_cont_antisym mx my Eq) as H.
  destruct sx, sy; simpl; try reflexivity;
    rewrite (Z.compare_antisym ex ey);
    destruct (ex ?= ey)%Z; simpl; try reflexivity.
  - do 2 f_equal. symmetry. exact H.
  - f_equal. symmetry. exact H.
Qed.

Lemma ltb_asym (x y : float) :
  (x <? y)%float = true -> (y <? x)%float = false.
Proof.
  rewrite !FloatAxioms.ltb_spec. unfold SFltb.
  rewrite (SFcompare_antisym (Prim2SF x) (Prim2SF y)).
  destruct (SFcompare (Prim2SF x) (Prim2SF y)) as [[]|]; simpl; congruence.
Qed.

Lemma leb_not_gt (x y : float) :
  (x <=? y)%float = true -> gt x y = false.
Proof.
  unfold gt. rewrite FloatAxioms.leb_spec, FloatAxioms.ltb_spec. unfold SFltb, SFleb.
  rewrite (SFcompare_antisym (Prim2SF x) (Prim2SF y)).
  destruct (SFcompare (Prim2SF x) (Prim2SF y)) as [[]|]; simpl; congruence.
Qed.

Lemma notNeg_spec (v : float) :
  lt v 0 = false <-> sfNotNeg (Prim2SF v).
Proof.
  unfold lt. rewrite FloatAxioms.ltb_spec. change (Prim2SF 0) with (S754_zero false).
  unfold SFltb.
  destruct (Prim2SF v) as [[]|[]| |[] m e]; simpl; intuition congruence.
Qed.

Lemma binary_round_aux_notNeg m e l :
  sfNotNeg (binary_round_aux prec emax false m e l).
Proof.
  unfold binary_round_aux.
  destruct (shr_fexp prec emax m e l) as [mrs e'].
  destruct (shr_fexp prec emax _ e' loc_Exact) as [mrs' e''].
  destruct (shr_m mrs'); simpl; trivial.
  destruct (Z.leb e'' _); simpl; trivial.
Qed.

Lemma binary_round_notNeg m e : sfNotNeg (binary_round prec emax false m e).
Proof.
  unfold binary_round.
  destruct (shl_align _ _ _) as [mz ez]. apply binary_round_aux_notNeg.
Qed.

Lemma SFmul_notNeg x y :
  sfNotNeg x -> sfNotNeg y -> sfNotNeg (SF64mul x y).
Proof.
  unfold SF64mul.
  destruct x as [[]|[]| |[] mx ex], y as [[]|[]| |[] my ey]; simpl; trivial;
    try contradiction.
  intros _ _. apply binary_round_aux_notNeg.
Qed.

Lemma SFadd_notNeg x y :
  sfNotNeg x -> sfNotNeg y -> sfNotNeg (SF64add x y).
Proof.
  unfold SF64add.
  destruct x as [[]|[]| |[] mx ex], y as [[]|[]| |[] my ey]; simpl; trivial;
    try contradiction.
  intros _ _. apply binary_round_notNeg.
Qed.

Lemma mul_notNeg (x y : float) :
  lt x 0 = false -> lt y 0 = false -> lt (x * y) 0 = false.
Proof.
  rewrite !notNeg_spec, FloatAxioms.mul_spec. apply SFmul_notNeg.
Qed.

Lemma add_notNeg (x y : float) :
  lt x 0 = false -> lt y 0 = false -> lt (x + y) 0 = false.
Proof.
  rewrite !notNeg_spec, FloatAxioms.add_spec. apply SFadd_notNeg.
Qed.



(** [Math.max(0, v)] is never below zero. *)
Lemma Math_max_zero_notNeg (v : float) : lt (Math_max 0 v) 0 = false.
Proof.
  unfold Math_max.
  destruct (is_nan 0 || is_nan v); [reflexivity|].
  destruct (0 <? v)%float eqn:E1; [now apply ltb_asym|].
  destruct (v <? 0)%float eqn:E2; [reflexivity|].
  change (get_sign 0) with false. reflexivity.
Qed.

End FloatFacts.

(** ** Colour taxonomy *)

Section TaxonomyProperties.

Lemma grayscaleName_thresholds (l : float) :
  grayscaleName l = Spec.firstExceeded l Spec.grayscaleThresholds "Black".
Proof. reflexivity. Qed.

Lemma firstExceeded_in (l : float) (table : list (float * string)) (floor : string) :
  In (Spec.firstExceeded l table floor) (map snd table ++ [floor])%list.
Proof.
  induction table as [|[t n] rest IH]; simpl.
  - now left.
  - destruct (gt l t); [now left | now right].
Qed.

End TaxonomyProperties.

(** C6: for every RGB triple the classification is the decision table read
    top to bottom, first match winning: lightness below 0.12 gives Black;
    otherwise lightness above 0.88 with saturation below 0.15 gives White;
    otherwise saturation below 0.08 gives the grayscale name of the first of
    the descending thresholds 0.85, 0.75, 0.65, 0.55, 0.45, 0.35, 0.25 that
    the lightness exceeds, Black below all of them: one of eight names, from
    Pearl White down to Black, each of which is reached. *)
Theorem color_decision_table :
  forall r g b : float,
    let '(_, s, l) := rgbToHsl r g b in
    let name := getAdvancedColorName r g b in
    (lt l 0.12 = true -> name = "Black") /\
    (lt l 0.12 = false -> gt l 0.88 && lt s 0.15 = true -> name = "White") /\
    (lt l 0.12 = false -> gt l 0.88 && lt s 0.15 = false -> lt s 0.08 = true ->
       name = Spec.firstExceeded l Spec.grayscaleThresholds "Black" /\
       In name Spec.grayscaleNames) /\
    List.length Spec.grayscaleNames = 8%nat /\
    forallb throughGrayBand grayLevels = true /\
    map (fun v => getAdvancedColorName v v v) grayLevels = Spec.grayscaleNames.
Proof.
  intros r g b. unfold getAdvancedColorName.
  destruct (rgbToHsl r g b) as [[h s] l]. unfold classifyHsl.
  split; [|split; [|split; [|split; [|split]]]].
  - intros H. now rewrite H.
  - intros H1 H2. now rewrite H1, H2.
  - intros H1 H2 H3. rewrite H1, H2, H3. split.
    + apply grayscaleName_thresholds.
    + rewrite grayscaleName_thresholds. apply firstExceeded_in.
  - reflexivity.
  - vm_compute. reflexivity.
  - vm_compute. reflexivity.
Qed.

(** ** Sampling loops and histograms *)

Section SamplingFacts.

Lemma forLoop_invariant {S : Type} (P : S -> Prop) (body : nat -> S -> S) :
  (forall i s, P s -> P (body i s)) ->
  forall fuel stride len i s, P s -> P (forLoop fuel stride len i body s).
Proof.
  intros Hbody fuel. induction fuel as [|fuel IH]; intros stride len i s Hs.
  - exact Hs.
  - simpl. destruct (i <? len)%nat; [apply IH, Hbody, Hs | exact Hs].
Qed.

(** More fuel than the buffer is long changes nothing. *)
Lemma forLoop_fuel_enough {S : Type} (body : nat -> S -> S) (stride len : nat) :
  (0 < stride)%nat ->
  forall fuel1 fuel2 i s,
    (len - i <= fuel1)%nat -> (len - i <= fuel2)%nat ->
    forLoop fuel1 stride len i body s = forLoop fuel2 stride len i body s.
Proof.
  intros Hstride fuel1.
  induction fuel1 as [|fuel1 IH]; intros fuel2 i s H1 H2.
  - destruct fuel2 as [|fuel2]; [reflexivity|]. simpl.
    destruct (i <? len)%nat eqn:E; [apply Nat.ltb_lt in E; lia | reflexivity].
  - destruct fuel2 as [|fuel2]; simpl.
    + destruct (i <? len)%nat eqn:E; [apply Nat.ltb_lt in E; lia | reflexivity].
    + destruct (i <? len)%nat eqn:E; [|reflexivity].
      apply Nat.ltb_lt in E. apply IH; lia.
Qed.

Lemma fold_sum_acc (h : histogram) (a : Z) :
  fold_left (fun sum e => sum + snd e) h a = a + sumCounts h.
Proof.
  unfold sumCounts. revert a.
  induction h as [|e h IH]; intros a; simpl; [lia|].
  rewrite (IH (a + snd e)), (IH (snd e)). lia.
Qed.

Lemma sumCounts_cons (e : string * Z) (h : histogram) :
  sumCounts (e :: h) = snd e + sumCounts h.
Proof. unfold sumCounts at 1. simpl. rewrite fold_sum_acc. lia. Qed.

Lemma sumCounts_bump (c : string) (h : histogram) :
  sumCounts (bump c h) = sumCounts h + 1.
Proof.
  induction h as [|[k n] h IH]; simpl; [reflexivity|].
  destruct (String.eqb k c); rewrite !sumCounts_cons; simpl; lia.
Qed.

Lemma bump_positive (c : string) (h : histogram) :
  Forall (fun e => 0 < snd e) h -> Forall (fun e => 0 < snd e) (bump c h).
Proof.
  induction h as [|[k n] h IH]; intros H; simpl.
  - repeat constructor.
  - inversion H as [|? ? Hn Hh]; subst. simpl in Hn.
    destruct (String.eqb k c); constructor; simpl; auto; lia.
Qed.

Lemma bump_keys (c : string) (h : histogram) :
  forall k, In k (map fst (bump c h)) <-> k = c \/ In k (map fst h).
Proof.
  induction h as [|[k' n] h IH]; intros k; simpl.
  - intuition.
  - destruct (String.eqb k' c) eqn:E; simpl.
    + apply String.eqb_eq in E; subst. intuition.
    + rewrite IH. intuition.
Qed.

Lemma bump_nodup (c : string) (h : histogram) :
  NoDup (map fst h) -> NoDup (map fst (bump c h)).
Proof.
  induction h as [|[k n] h IH]; intros H; simpl.
  - repeat constructor. intros [].
  - inversion H as [|? ? Hk Hh]; subst.
    destruct (String.eqb k c) eqn:E; simpl.
    + constructor; assumption.
    + constructor; [|auto]. rewrite bump_keys. intros [->|Hin]; [|contradiction].
      rewrite String.eqb_refl in E. discriminate.
Qed.

Lemma countPixel_ok include data i t :
  tallyOk t -> tallyOk (countPixel include data i t).
Proof.
  intros (Hsum & Hpos & Hnd). unfold countPixel.
  destruct (nth_error data (i + 3)); [|repeat split; assumption].
  destruct (include _ _ _ _); [|repeat split; assumption].
  repeat split; simpl.
  - rewrite sumCounts_bump, Hsum. reflexivity.
  - now apply bump_positive.
  - now apply bump_nodup.
Qed.

Lemma samplePixels_ok stride include data :
  tallyOk (samplePixels stride include data).
Proof.
  unfold samplePixels. apply forLoop_invariant.
  - intros i s. apply countPixel_ok.
  - repeat split; simpl; constructor.
Qed.

Lemma sumCounts_nonneg (h : histogram) :
  Forall (fun e => 0 < snd e) h -> 0 <= sumCounts h.
Proof.
  induction 1 as [|e h He _ IH]; [reflexivity|]. rewrite sumCounts_cons. lia.
Qed.


(** No valid pixel, no histogram entry. *)
Lemma zero_total_empty stride include data :
  totalValidPixels (samplePixels stride include data) = 0 ->
  colorCounts (samplePixels stride include data) = [].
Proof.
  destruct (samplePixels_ok stride include data) as (Hsum & Hpos & _).
  rewrite Hsum. destruct (colorCounts _) as [|e h]; [reflexivity|].
  inversion Hpos as [|? ? He Hh]; subst. rewrite sumCounts_cons.
  pose proof (sumCounts_nonneg h Hh). lia.
Qed.

End SamplingFacts.

(** ** The extractor's fallback chain *)

Section ExtractorFacts.

Lemma strategies_names (x y width height : float) :
  map fst (strategies x y width height) = strategyNames.
Proof. reflexivity. Qed.

Lemma analyzeRegion_fields (name url : string) (data : list Z) :
  method (analyzeRegion name url data) = PixelAnalysis /\
  exists rest,
    debugInfo (analyzeRegion name url data) = Some ("Strategy: " ++ name ++ rest).
Proof.
  unfold analyzeRegion. destruct (pickDominant _ _) as [c n]. simpl.
  split; [reflexivity|]. eexists. reflexivity.
Qed.

Lemma analyzeRegion_zero (name url : string) (data : list Z) :
  totalValidPixels (samplePixels 8 includeRegionPixel data) = 0 ->
  analyzeRegion name url data = unknownResult name url.
Proof.
  intros H0. unfold analyzeRegion.
  rewrite (zero_total_empty _ _ _ H0), H0. reflexivity.
Qed.

(** The best result after the loop is the one it started with or the
    analysis of a strategy whose region could be read. *)
Lemma runStrategies_best (f : frame) :
  forall ss i st st',
    runStrategies f i ss st = Ok st' ->
    forall b, bestResult st' = Some b ->
      bestResult st = Some b \/
      exists k name reg url data,
        nth_error ss k = Some (name, reg) /\
        f (Strategy (i + k)) reg = Pixels url data /\
        b = analyzeRegion name url data.
Proof.
  induction ss as [|[name reg] ss IH]; intros i st st' Hrun b Hb; simpl in Hrun.
  - injection Hrun as <-. now left.
  - destruct (f (Strategy i) reg) as [|e|pushed e|url data] eqn:Hread.
    + destruct (IH _ _ _ Hrun b Hb) as [H|(k & n & r & u & d & Hk & Hf & ->)];
        [now left|right].
      exists (S k), n, r, u, d. rewrite Nat.add_succ_r. auto.
    + discriminate.
    + destruct (IH _ _ _ Hrun b Hb) as [H|(k & n & r & u & d & Hk & Hf & ->)];
        [now left|right].
      exists (S k), n, r, u, d. rewrite Nat.add_succ_r. auto.
    + destruct (IH _ _ _ Hrun b Hb) as [H|(k & n & r & u & d & Hk & Hf & ->)].
      * simpl in H. unfold keepBest in H.
        destruct (bestResult st) as [b0|].
        -- destruct (gt _ _); injection H as <-.
           ++ right. exists 0%nat, name, reg, url, data.
              rewrite Nat.add_0_r. auto.
           ++ now left.
        -- injection H as <-. right. exists 0%nat, name, reg, url, data.
           rewrite Nat.add_0_r. auto.
      * right. exists (S k), n, r, u, d. rewrite Nat.add_succ_r. auto.
Qed.

(** The loop only fails by an exception raised outside the local [try]. *)
Lemma runStrategies_throw (f : frame) :
  forall ss i st e,
    runStrategies f i ss st = Throw e ->
    exists k name reg,
      nth_error ss k = Some (name, reg) /\ f (Strategy (i + k)) reg = Crash e.
Proof.
  induction ss as [|[name reg] ss IH]; intros i st e Hrun; simpl in Hrun.
  - discriminate.
  - destruct (f (Strategy i) reg) as [|e'|pushed e'|url data] eqn:Hread;
      try (destruct (IH _ _ _ Hrun) as (k & n & r & Hk & Hf);
           exists (S k), n, r; rewrite Nat.add_succ_r; auto).
    injection Hrun as <-. exists 0%nat, name, reg. rewrite Nat.add_0_r. auto.
Qed.

Lemma centerSample_fields (f : frame) (x y width height : float) (r : colorResult) :
  centerSample f x y width height = Some r ->
  method r = PixelAnalysis /\ confidence r = 0.3%float /\
  (exists c, debugInfo r = Some ("Fallback center sampling: " ++ c)) /\
  exists url data,
    f CenterCrop (centerRegion x y width height) = Pixels url data /\
    5 < totalValidPixels (samplePixels 16 includeCenterPixel data).
Proof.
  unfold centerSample.
  destruct (f CenterCrop _) as [|e|pushed e|url data]; try discriminate.
  destruct (5 <? _) eqn:E5; [|discriminate].
  destruct (sortDesc _) as [|top rest]; [discriminate|].
  destruct (negb _); [|discriminate].
  intros H. injection H as <-. simpl.
  repeat split; eauto. exists url, data. split; [reflexivity|now apply Z.ltb_lt].
Qed.

Lemma fallback_fields (vehicleType : string) (image info : option string) :
  let r := getFallbackColor vehicleType image info in
  method r = Fallback /\ confidence r = 0.3%float /\
  color r = fst (classDefault vehicleType) /\
  colorHex r = snd (classDefault vehicleType) /\
  debugInfo r = info.
Proof. repeat split. Qed.

End ExtractorFacts.

Lemma centerSample_diagnostic (f : frame) (x y width height : float)
    (r : colorResult) :
  centerSample f x y width height = Some r ->
  debugInfo r = Some ("Fallback center sampling: " ++ color r).
Proof.
  unfold centerSample.
  destruct (f CenterCrop (centerRegion x y width height));
    try discriminate.
  destruct (5 <? totalValidPixels (samplePixels 16 includeCenterPixel data));
    [|discriminate].
  cbv zeta. destruct (sortDesc _) as [|top rest]; [discriminate|].
  destruct (negb _); [|discriminate].
  intros H. injection H as <-. reflexivity.
Qed.

(** C8: for every frame, bounding box and vehicle class the extraction
    returns a result and never throws: an exception that escapes the local
    handlers is caught and answered with the per-class fallback colour, a
    frame none of whose regions can be read is answered with the per-class
    fallback colour, and every result carries a diagnostic that names the
    path that produced it.  The result is produced in one of four ways, and
    the diagnostic says which: the analysis of a strategy whose region was
    read, kept by the loop and above 0.2, with "Strategy: " and the name of
    that strategy; the center crop, when no strategy result was kept above
    0.2, with "Fallback center sampling: " and the colour it found; the
    class default, when the center crop gave nothing either, with "All
    strategies failed, using fallback"; the handler of the outer catch,
    when an exception escaped, with "Error: " and the text of that
    exception. *)
Theorem extraction_never_throws :
  forall (f : frame) (bbox : box) (vehicleType : string),
  exists r,
    extractDominantColorWithDebug f bbox vehicleType = Ok r /\
    (exists info, debugInfo r = Some info /\ namesPath info) /\
    (forall e, extractBody f bbox vehicleType = Throw e ->
       r = getFallbackColor vehicleType None (Some ("Error: " ++ e))) /\
    ((forall st reg url data, f st reg <> Pixels url data) ->
       method r = Fallback /\ confidence r = 0.3%float /\
       color r = fst (classDefault vehicleType) /\
       colorHex r = snd (classDefault vehicleType)) /\
    let '(x, y, width, height) := bbox in
    let ss := strategies x y width height in
    match runStrategies f 0 ss {| bestResult := None; debugImages := [] |} with
    | Throw e =>
        (* the handler of the outer catch *)
        method r = Fallback /\
        color r = fst (classDefault vehicleType) /\
        debugInfo r = Some ("Error: " ++ e)
    | Ok st =>
        (* a strategy *)
        (bestResult st = Some r /\ gt (confidence r) 0.2 = true /\
         exists k name reg url data rest,
           nth_error ss k = Some (name, reg) /\
           f (Strategy k) reg = Pixels url data /\
           r = analyzeRegion name url data /\
           debugInfo r = Some ("Strategy: " ++ name ++ rest)) \/
        (* no strategy result kept above 0.2 *)
        ((forall best, bestResult st = Some best ->
                       gt (confidence best) 0.2 = false) /\
         match centerSample f x y width height with
         | Some c =>
             (* the center crop *)
             r = c /\ method r = PixelAnalysis /\
             debugInfo r = Some ("Fallback center sampling: " ++ color r)
         | None =>
             (* the class default *)
             method r = Fallback /\
             color r = fst (classDefault vehicleType) /\
             debugInfo r = Some "All strategies failed, using fallback"
         end)
    end.
Proof.
  intros f [[[x y] width] height] vehicleType.
  unfold extractDominantColorWithDebug, extractBody.
  destruct (runStrategies f 0 (strategies x y width height) _) as [st|e] eqn:Hrun.
  - (* the loop returned *)
    assert (Hbest : forall b, bestResult st = Some b ->
              exists k name reg url data,
                nth_error (strategies x y width height) k = Some (name, reg) /\
                f (Strategy k) reg = Pixels url data /\
                b = analyzeRegion name url data).
    { intros b Hb.
      destruct (runStrategies_best f _ _ _ _ Hrun b Hb) as [H|H];
        [discriminate | exact H]. }
    set (fallThrough :=
           match centerSample f x y width height with
           | Some r => r
           | None => getFallbackColor vehicleType (hd_error (debugImages st))
                       (Some "All strategies failed, using fallback")
           end).
    assert (Hft : (exists info, debugInfo fallThrough = Some info /\ namesPath info) /\
                  ((forall st reg url data, f st reg <> Pixels url data) ->
                   method fallThrough = Fallback /\
                   confidence fallThrough = 0.3%float /\
                   color fallThrough = fst (classDefault vehicleType) /\
                   colorHex fallThrough = snd (classDefault vehicleType))).
    { subst fallThrough.
      destruct (centerSample f x y width height) as [r|] eqn:Hc.
      - destruct (centerSample_fields _ _ _ _ _ _ Hc)
          as (_ & _ & (c & Hinfo) & url & data & Hread & _).
        split.
        + exists ("Fallback center sampling: " ++ c). split; [exact Hinfo|constructor].
        + intros Hno. exfalso. exact (Hno _ _ _ _ Hread).
      - split.
        + eexists. split; [reflexivity|constructor].
        + intros _. repeat split. }
    assert (Hpath : match centerSample f x y width height with
                    | Some c =>
                        fallThrough = c /\ method fallThrough = PixelAnalysis /\
                        debugInfo fallThrough
                        = Some ("Fallback center sampling: " ++ color fallThrough)
                    | None =>
                        method fallThrough = Fallback /\
                        color fallThrough = fst (classDefault vehicleType) /\
                        debugInfo fallThrough
                        = Some "All strategies failed, using fallback"
                    end).
    { subst fallThrough.
      destruct (centerSample f x y width height) as [c|] eqn:Hc.
      - split; [reflexivity|].
        split; [exact (proj1 (centerSample_fields _ _ _ _ _ _ Hc))|].
        exact (centerSample_diagnostic _ _ _ _ _ _ Hc).
      - repeat split. }
    assert (Hpick : forall b, bestResult st = Some b ->
              (exists info, debugInfo b = Some info /\ namesPath info) /\
              ((forall st reg url data, f st reg <> Pixels url data) -> False)).
    { intros b Hb.
      destruct (Hbest b Hb) as (k & name & reg & url & data & Hk & Hread & ->).
      split.
      - destruct (analyzeRegion_fields name url data) as (_ & rest & Hinfo).
        eexists. split; [exact Hinfo|]. constructor.
        rewrite <- (strategies_names x y width height).
        apply nth_error_In in Hk. now apply (in_map fst) in Hk.
      - intros Hno. exact (Hno _ _ _ _ Hread). }
    destruct Hft as (Hinfo & Hdef).
    destruct (bestResult st) as [best|] eqn:Hb.
    + destruct (gt (confidence best) 0.2) eqn:Hgt.
      * exists best. destruct (Hpick best eq_refl) as (Hbinfo & Hno).
        split; [reflexivity|]. split; [exact Hbinfo|].
        split; [intros e He; discriminate|].
        split; [intros H; exfalso; exact (Hno H)|].
        left. split; [reflexivity|]. split; [exact Hgt|].
        destruct (Hbest best eq_refl) as (k & name & reg & url & data & Hk & Hread & Heq).
        destruct (analyzeRegion_fields name url data) as (_ & rest & Hdiag).
        exists k, name, reg, url, data, rest.
        split; [exact Hk|]. split; [exact Hread|]. split; [exact Heq|].
        rewrite Heq. exact Hdiag.
      * exists fallThrough. split; [reflexivity|]. split; [exact Hinfo|].
        split; [intros e He; discriminate|]. split; [exact Hdef|].
        right. split; [|exact Hpath].
        intros best' Hbest'. injection Hbest' as <-. exact Hgt.
    + exists fallThrough. split; [reflexivity|]. split; [exact Hinfo|].
      split; [intros e He; discriminate|]. split; [exact Hdef|].
      right. split; [|exact Hpath].
      intros best' Hbest'. discriminate Hbest'.
  - (* an exception escaped the loop: the outer handler answers *)
    eexists. split; [reflexivity|]. split; [|split; [|split]].
    + eexists. split; [reflexivity|constructor].
    + intros e' He'. injection He' as <-. reflexivity.
    + intros _. repeat split.
    + repeat split.
Qed.

(** C1: when every region strategy that yields a result yields a confidence
    of at most 0.2 and the center-crop fallback finds fewer than 5 valid
    pixels, the extraction for class "truck" returns White, #FFFFFF, at
    confidence 0.3, with method Fallback. *)
Theorem fallback_chain_exhaustion_truck :
  forall (f : frame) (x y width height : float),
    (forall i name reg url data,
        nth_error (strategies x y width height) i = Some (name, reg) ->
        f (Strategy i) reg = Pixels url data ->
        (confidence (analyzeRegion name url data) <=? 0.2)%float = true) ->
    (forall url data,
        f CenterCrop (centerRegion x y width height) = Pixels url data ->
        totalValidPixels (samplePixels 16 includeCenterPixel data) < 5) ->
    exists r,
      extractDominantColorWithDebug f (x, y, width, height) "truck" = Ok r /\
      color r = "White" /\ colorHex r = "#FFFFFF" /\
      confidence r = 0.3%float /\ method r = Fallback.
Proof.
  intros f x y width height Hlow Hfew.
  unfold extractDominantColorWithDebug, extractBody.
  destruct (runStrategies f 0 (strategies x y width height) _) as [st|e] eqn:Hrun.
  - assert (Hcenter : centerSample f x y width height = None).
    { destruct (centerSample f x y width height) as [r|] eqn:Hc; [|reflexivity].
      destruct (centerSample_fields _ _ _ _ _ _ Hc)
        as (_ & _ & _ & url & data & Hread & Hmany).
      specialize (Hfew _ _ Hread). lia. }
    rewrite Hcenter.
    destruct (bestResult st) as [best|] eqn:Hb.
    + destruct (runStrategies_best f _ _ _ _ Hrun best Hb)
        as [H|(k & name & reg & url & data & Hk & Hread & ->)]; [discriminate|].
      rewrite (leb_not_gt _ _ (Hlow _ _ _ _ _ Hk Hread)).
      eexists. split; [reflexivity|]. repeat split.
    + eexists. split; [reflexivity|]. repeat split.
  - eexists. split; [reflexivity|]. repeat split.
Qed.

(** The hypotheses of C1 hold of a frame whose only readable strategy region
    shows six colours in equal shares and whose center crop has one pixel. *)
Lemma fallback_chain_exhaustion_truck_witness :
  exists r,
    extractDominantColorWithDebug manyColoursFrame (100, 100, 200, 150)%float "truck"
      = Ok r /\
    color r = "White" /\ colorHex r = "#FFFFFF" /\
    confidence r = 0.3%float /\ method r = Fallback.
Proof.
  apply (fallback_chain_exhaustion_truck manyColoursFrame 100 100 200 150).
  - intros i name reg url data Hnth Hread.
    destruct i as [|i]; simpl in Hread; [|discriminate].
    injection Hread as <- <-. simpl in Hnth. injection Hnth as <- _.
    vm_compute. reflexivity.
  - intros url data Hread. simpl in Hread. injection Hread as <- <-.
    vm_compute. reflexivity.
Defined.

(** C3: when each of the three strategies reads its region and counts no
    valid pixel, the extraction returns Unknown, #808080, at confidence 0.4
    with method pixel-analysis.  That confidence exceeds the 0.2 threshold,
    so the answer depends neither on the center crop nor on the vehicle
    class: any frame with the same three strategy regions gives it for any
    class. *)
Theorem zero_pixel_strategies_return_unknown :
  forall (f : frame) (x y width height : float) (vehicleType : string),
    (forall i name reg,
        nth_error (strategies x y width height) i = Some (name, reg) ->
        exists url data,
          f (Strategy i) reg = Pixels url data /\
          totalValidPixels (samplePixels 8 includeRegionPixel data) = 0) ->
    exists r,
      extractDominantColorWithDebug f (x, y, width, height) vehicleType = Ok r /\
      color r = "Unknown" /\ colorHex r = "#808080" /\
      confidence r = 0.4%float /\ method r = PixelAnalysis /\
      gt (confidence r) 0.2 = true /\
      forall (f' : frame) (vehicleType' : string),
        (forall i reg, f' (Strategy i) reg = f (Strategy i) reg) ->
        extractDominantColorWithDebug f' (x, y, width, height) vehicleType' = Ok r.
Proof.
  intros f x y width height vehicleType Hzero.
  destruct (Hzero 0%nat _ _ eq_refl) as (url0 & data0 & Hf0 & Hz0).
  destruct (Hzero 1%nat _ _ eq_refl) as (url1 & data1 & Hf1 & Hz1).
  destruct (Hzero 2%nat _ _ eq_refl) as (url2 & data2 & Hf2 & Hz2).
  assert (Hall : forall (f' : frame) (vehicleType' : string),
             (forall i reg, f' (Strategy i) reg = f (Strategy i) reg) ->
             extractDominantColorWithDebug f' (x, y, width, height) vehicleType'
             = Ok (unknownResult "Full Vehicle (Adjusted)" url0)).
  { intros f' vehicleType' Hsame.
    unfold extractDominantColorWithDebug, extractBody. simpl.
    rewrite !Hsame, Hf0, Hf1, Hf2.
    rewrite !analyzeRegion_zero by assumption. reflexivity. }
  exists (unknownResult "Full Vehicle (Adjusted)" url0).
  split; [apply Hall; reflexivity|].
  repeat (split; [reflexivity|]). exact Hall.
Qed.

(** The hypothesis of C3 holds of a fully transparent frame. *)
Lemma zero_pixel_strategies_return_unknown_witness :
  exists r,
    extractDominantColorWithDebug transparentFrame (100, 100, 200, 150)%float "car"
      = Ok r /\
    color r = "Unknown" /\ colorHex r = "#808080" /\
    confidence r = 0.4%float /\ method r = PixelAnalysis /\
    gt (confidence r) 0.2 = true /\
    forall (f' : frame) (vehicleType' : string),
      (forall i reg, f' (Strategy i) reg = transparentFrame (Strategy i) reg) ->
      extractDominantColorWithDebug f' (100, 100, 200, 150)%float vehicleType' = Ok r.
Proof.
  apply (zero_pixel_strategies_return_unknown transparentFrame 100 100 200 150 "car").
  intros i name reg _. exists "data:blank". eexists. split; [reflexivity|].
  vm_compute. reflexivity.
Defined.

(** ** Dominant-colour selection *)

Section DominantColour.

Lemma insertDesc_perm (e : string * Z) (l : histogram) :
  Permutation (insertDesc e l) (e :: l).
Proof.
  induction l as [|y l IH]; simpl; [reflexivity|].
  destruct (snd y <=? snd e); [reflexivity|].
  rewrite IH. apply perm_swap.
Qed.

Lemma sortDesc_perm (h : histogram) : Permutation (sortDesc h) h.
Proof.
  induction h as [|e h IH]; simpl; [reflexivity|].
  rewrite insertDesc_perm. now constructor.
Qed.

Lemma insertDesc_sorted (e : string * Z) (l : histogram) :
  StronglySorted ranked l -> StronglySorted ranked (insertDesc e l).
Proof.
  induction 1 as [|y l Hl IH Hy]; simpl.
  - repeat constructor.
  - destruct (snd y <=? snd e) eqn:E.
    + apply Z.leb_le in E. constructor; [now constructor|].
      constructor; [exact E|].
      eapply Forall_impl; [|exact Hy]. unfold ranked. intros a Ha. lia.
    + apply Z.leb_gt in E. constructor; [exact IH|].
      eapply Permutation_Forall; [symmetry; apply insertDesc_perm|].
      constructor; [unfold ranked; lia | exact Hy].
Qed.

Lemma sortDesc_sorted (h : histogram) : StronglySorted ranked (sortDesc h).
Proof.
  induction h as [|e h IH]; simpl; [constructor | now apply insertDesc_sorted].
Qed.


Lemma sorted_head_max (top : string * Z) (rest : histogram) :
  StronglySorted ranked (top :: rest) ->
  forall e, In e (top :: rest) -> snd e <= snd top.
Proof.
  intros Hs e [<-|Hin]; [lia|].
  apply StronglySorted_inv in Hs. destruct Hs as [_ Hall].
  rewrite Forall_forall in Hall. exact (Hall e Hin).
Qed.





(** On the doubles the test agrees with [10 c > 3 total] for every count
    up to a thousand pixels. *)
Lemma overThirtyPercent_exact (c total : Z) :
  0 <= c <= total -> total <= 1000 ->
  overThirtyPercent c total = (3 * total <? 10 * c).
Proof.
  intros Hc Ht.
  assert (Hall : forallb thirtyPercentExactUpTo (map Z.of_nat (seq 0 1001)) = true)
    by (vm_compute; reflexivity).
  rewrite forallb_forall in Hall.
  assert (Htot : thirtyPercentExactUpTo total = true).
  { apply Hall. rewrite in_map_iff. exists (Z.to_nat total).
    split; [lia | apply in_seq; lia]. }
  unfold thirtyPercentExactUpTo in Htot. rewrite forallb_forall in Htot.
  apply Bool.eqb_prop, Htot.
  rewrite in_map_iff. exists (Z.to_nat c). split; [lia | apply in_seq; lia].
Qed.



End DominantColour.


(** The two cases of the specification's dominant-colour example, and the
    boundary between them: 35 red pixels among 100 win over 65 black ones,
    20 among 100 do not, and neither do exactly 30. *)
Example dominant_color_shares :
  let shares (red black : nat) :=
    (List.concat (repeat [220; 20; 60; 255; 0; 0; 0; 0] red) ++
     List.concat (repeat [10; 10; 10; 255; 0; 0; 0; 0] black))%list in
  let choice data :=
    let t := samplePixels 8 includeRegionPixel data in
    pickDominant (sortDesc (colorCounts t)) (totalValidPixels t) in
  choice (shares 35 65)%nat = ("Red", 35) /\
  choice (shares 20 80)%nat = ("Black", 80) /\
  choice (shares 30 70)%nat = ("Black", 70).
Proof. vm_compute. repeat split. Qed.

(** ** Pixel sampling *)

Section SamplingStride.

Lemma brightness_tests (s : Z) :
  0 <= s <= 765 ->
  gt (Z2float s / 3) 2 = (6 <? s) /\ lt (Z2float s / 3) 255 = (s <? 765).
Proof.
  intros Hs.
  assert (Hall : forallb brightnessTestsAgree (map Z.of_nat (seq 0 766)) = true)
    by (vm_compute; reflexivity).
  rewrite forallb_forall in Hall.
  specialize (Hall s). unfold brightnessTestsAgree in Hall.
  rewrite andb_true_iff, !Bool.eqb_true_iff in Hall. apply Hall.
  rewrite in_map_iff. exists (Z.to_nat s). split; [lia|].
  apply in_seq. lia.
Qed.

Lemma includeRegionPixel_bytes (r g b a : Z) :
  isByte r -> isByte g -> isByte b ->
  includeRegionPixel r g b a = negb (excludedByCode (r, g, b, a)).
Proof.
  unfold isByte. intros Hr Hg Hb. unfold includeRegionPixel, excludedByCode.
  destruct (brightness_tests (r + g + b)) as [-> ->]; [lia|].
  rewrite !negb_orb.
  replace (negb (a <=? 50)) with (50 <? a) by (rewrite Z.leb_antisym; now destruct (50 <? a)).
  replace (negb (r + g + b <=? 6)) with (6 <? r + g + b)
    by (rewrite Z.leb_antisym; now destruct (6 <? r + g + b)).
  f_equal.
  destruct (r + g + b <? 765) eqn:E1, (r + g + b =? 765) eqn:E2; try reflexivity;
    [apply Z.ltb_lt in E1; apply Z.eqb_eq in E2
    |apply Z.ltb_ge in E1; apply Z.eqb_neq in E2]; lia.
Qed.

(** The offsets a [for] loop visits. *)
Lemma forLoop_visits {St : Type} (body : nat -> St -> St) (stride len : nat) :
  forall fuel i s,
    forLoop fuel stride len i body s =
    fold_left (fun s k => body k s)
      (filter (fun k => k <? len)%nat
              (map (fun j => i + j * stride)%nat (seq 0 fuel))) s.
Proof.
  induction fuel as [|fuel IH]; intros i s; [reflexivity|].
  cbn [forLoop seq map filter]. rewrite Nat.mul_0_l, Nat.add_0_r.
  rewrite <- seq_shift, map_map.
  destruct (i <? len)%nat eqn:E.
  - cbn [fold_left]. rewrite IH. f_equal. f_equal.
    apply map_ext. intros j. lia.
  - apply Nat.ltb_ge in E.
    replace (filter _ _) with (@nil nat); [reflexivity|].
    symmetry. clear IH.
    induction (seq 0 fuel) as [|j l IHl]; [reflexivity|]. cbn [map filter].
    destruct (i + S j * stride <? len)%nat eqn:E'; [|exact IHl].
    apply Nat.ltb_lt in E'. lia.
Qed.

End SamplingStride.

Section SamplingCharacterisation.

Lemma filter_none {A : Type} (p : A -> bool) (l : list A) :
  (forall x, In x l -> p x = false) -> filter p l = [].
Proof.
  induction l as [|x l IH]; intros H; [reflexivity|]. simpl.
  rewrite (H x (or_introl eq_refl)). apply IH. intros y Hy. apply H. now right.
Qed.

(** With a stride of 8 bytes over [4 n] bytes the loop visits the first byte
    of every second pixel. *)
Lemma visited_offsets (n : nat) :
  filter (fun k => k <? 4 * n)%nat
         (map (fun j => 0 + j * 8)%nat (seq 0 (4 * n)))
  = map (fun p => 4 * p)%nat (everyNth 2 n).
Proof.
  unfold everyNth.
  assert (Hseq : seq 0 (4 * n) = (seq 0 n ++ seq (0 + n) (3 * n))%list).
  { rewrite <- seq_app. reflexivity. }
  rewrite Hseq, map_app, filter_app. clear Hseq.
  rewrite (filter_none _ (map _ (seq (0 + n) (3 * n)))).
  - rewrite app_nil_r.
    induction (seq 0 n) as [|j l IH]; [reflexivity|]. cbn [map filter].
    replace (0 + j * 8 <? 4 * n)%nat with (j * 2 <? n)%nat.
    + destruct (j * 2 <? n)%nat; cbn [map]; rewrite IH; [f_equal; lia | reflexivity].
    + destruct (j * 2 <? n)%nat eqn:E1, (0 + j * 8 <? 4 * n)%nat eqn:E2;
        try reflexivity;
        [apply Nat.ltb_lt in E1; apply Nat.ltb_ge in E2
        |apply Nat.ltb_ge in E1; apply Nat.ltb_lt in E2]; lia.
  - intros k Hk. apply in_map_iff in Hk. destruct Hk as (j & <- & Hj).
    apply in_seq in Hj. apply Nat.ltb_ge. lia.
Qed.

Lemma everyNth_below (step n p : nat) : In p (everyNth step n) -> (p < n)%nat.
Proof.
  unfold everyNth. intros H. apply filter_In in H. now apply Nat.ltb_lt.
Qed.

Lemma byte_at (data : list Z) (i : nat) :
  Forall isByte data -> (i < List.length data)%nat -> isByte (nth i data 0).
Proof.
  intros Hall Hi. rewrite Forall_forall in Hall. apply Hall. now apply nth_In.
Qed.

(** One iteration of the source loop at the first byte of pixel [p]. *)
Lemma countPixel_pixelAt (data : list Z) (n p : nat) (t : tally) :
  List.length data = (4 * n)%nat -> Forall isByte data -> (p < n)%nat ->
  countPixel includeRegionPixel data (4 * p) t
  = tallyStep (fun px => negb (excludedByCode px)) t (pixelAt data p).
Proof.
  intros Hlen Hbytes Hp. unfold countPixel, tallyStep, pixelAt.
  rewrite (nth_error_nth' data 0) by lia.
  rewrite includeRegionPixel_bytes by (apply byte_at; [assumption | lia]).
  reflexivity.
Qed.

End SamplingCharacterisation.

(** C4, as the source has it: a region strategy reads every second pixel of
    the RGBA buffer (8 bytes per step: one quad read, one skipped) and
    leaves a pixel out of the histogram exactly when its alpha is at most
    50, its brightness is at most 2, or its brightness is 255; every other
    sampled pixel is classified and counted. *)
Theorem sampling_stride_and_filter :
  forall (data : list Z) (n : nat),
    List.length data = (4 * n)%nat ->
    Forall isByte data ->
    samplePixels 8 includeRegionPixel data
    = tallyPixels (fun px => negb (excludedByCode px))
                  (map (pixelAt data) (everyNth 2 n)).
Proof.
  intros data n Hlen Hbytes.
  unfold samplePixels, tallyPixels.
  rewrite forLoop_visits, Hlen, visited_offsets.
  pose proof (everyNth_below 2 n) as Hbelow.
  generalize emptyTally.
  induction (everyNth 2 n) as [|p ps IH]; intros t; [reflexivity|].
  cbn [map fold_left].
  rewrite (countPixel_pixelAt data n p t Hlen Hbytes)
    by (apply Hbelow; now left).
  apply IH. intros q Hq. apply Hbelow. now right.
Qed.

(** The characterisation at a buffer of six pixels. *)
Lemma sampling_stride_and_filter_witness :
  samplePixels 8 includeRegionPixel sixPixels
  = tallyPixels (fun px => negb (excludedByCode px))
                (map (pixelAt sixPixels) (everyNth 2 6)).
Proof.
  apply (sampling_stride_and_filter sixPixels 6).
  - reflexivity.
  - unfold sixPixels, isByte. repeat constructor; lia.
Defined.

(** C4 as stated fails on [sixPixels]: the source counts the red and the
    blue pixel (the blue one is two pixels on, and alpha 50 excludes the
    gray one), where sampling every fourth pixel and excluding only alpha
    below 50 counts the red and the gray pixel. *)
Lemma sampling_every_fourth_pixel_fails :
  samplePixels 8 includeRegionPixel sixPixels
  = {| colorCounts := [("Red", 1); ("Indigo", 1)]; totalValidPixels := 2 |} /\
  tallyPixels (fun px => negb (excludedBySpec px))
              (map (pixelAt sixPixels) (everyNth 4 6))
  = {| colorCounts := [("Red", 1); ("Gray", 1)]; totalValidPixels := 2 |} /\
  includeRegionPixel 120 120 120 50 = false /\
  excludedBySpec (120, 120, 120, 50) = false.
Proof. vm_compute. repeat split. Qed.

(** ** Sampling regions *)

(** C5, as the source has it: only the y coordinate of the two strategies
    that shift the region upward (Full Vehicle and Upper Body) is clamped,
    and it is never negative, for every box.  No other coordinate is
    clamped; the three strategy regions have no negative coordinate when
    the box has no negative x, y or width. *)
Theorem upward_shift_is_clamped :
  forall x y width height : float,
    (forall name reg,
        In (name, reg) (shiftedUp x y width height) -> lt (ry reg) 0 = false) /\
    (lt x 0 = false -> lt y 0 = false -> lt width 0 = false ->
     forall name reg,
       In (name, reg) (strategies x y width height) ->
       lt (rx reg) 0 = false /\ lt (ry reg) 0 = false).
Proof.
  intros x y width height. split.
  - intros name reg [H|[H|[]]]; injection H as _ <-; simpl;
      apply Math_max_zero_notNeg.
  - intros Hx Hy Hw name reg [H|[H|[H|[]]]]; injection H as _ <-; simpl; split;
      try apply Math_max_zero_notNeg; try assumption;
      apply add_notNeg; try assumption; apply mul_notNeg; try assumption;
      reflexivity.
Qed.

(** The box of the specification's end-to-end scenario. *)
Lemma upward_shift_is_clamped_witness :
  (forall name reg,
      In (name, reg) (shiftedUp 100 100 200 150) -> lt (ry reg) 0 = false) /\
  (forall name reg,
      In (name, reg) (strategies 100 100 200 150) ->
      lt (rx reg) 0 = false /\ lt (ry reg) 0 = false).
Proof.
  destruct (upward_shift_is_clamped 100 100 200 150) as [Hup Hall].
  split; [exact Hup|]. apply Hall; reflexivity.
Defined.

(** C5 as stated fails: the x of a strategy region and the y of the Main
    Body Panel follow a box that starts left of or above the frame, and the
    center crop of a small box at the origin starts at (-5, -5). *)
Lemma region_coordinates_not_all_clamped :
  allCoordinatesNonNegative 0 0 10 10 = false /\
  centerRegion 0 0 10 10 = {| rx := -5; ry := -5; rw := 20; rh := 20 |} /\
  allCoordinatesNonNegative (-10) (-5) 100 100 = false /\
  map snd (strategies (-10) (-5) 100 100)
  = [ {| rx := -10; ry := 0; rw := 100; rh := 130 |};
      {| rx := -5; ry := 0; rw := 90; rh := 80 |};
      {| rx := 0; ry := -5; rw := 80; rh := 70 |} ].
Proof. vm_compute. repeat split. Qed.

(** ** Coordinate rescaling *)

(** C7 at a 4000 by 2999 image: the image is drawn 599.8 pixels high on a
    canvas whose height attribute is 599, so the scale factor read back from
    the canvas is 2999/599 and the box that was at y = 2000 comes back at
    y = 2002.67: not the original box within tolerance.  An image of exactly
    4:3 does come back exactly. *)
Theorem rescale_roundtrip_off_by_truncation :
  let cv := standardizeImage true wideImage 800 600 in
  cv = {| width := 800; height := 599;
          drawnWidth := 800; drawnHeight := 599.80000000000007 |} /\
  drawnBox wideImage cv wideBox = (200, 400, 100, 80)%float /\
  adjustBbox wideImage cv (drawnBox wideImage cv wideBox)
  = (1000, 2002.6711185308848, 500, 400.53422370617693)%float /\
  boxCloseTo wideBox (adjustBbox wideImage cv (drawnBox wideImage cv wideBox))
  = false /\
  let cv' := standardizeImage true plainImage 800 600 in
  adjustBbox plainImage cv' (drawnBox plainImage cv' wideBox) = wideBox.
Proof. vm_compute. repeat split. Qed.

(** ** Detection passes *)

Section PassFacts.

Variable formatVideoTime : float -> string.
Variable f : frame.

Lemma settle_throw (e : string) (s : state) :
  detectCurrentVideoFrame_settle f (Throw e) s
  = alert "An error occurred during detection." s.
Proof. reflexivity. Qed.

Lemma reschedule_ui (w : world) :
  let w' := reschedule w in
  detectedVehicles (ui w') = detectedVehicles (ui w) /\
  showAlert (ui w') = showAlert (ui w) /\
  alertMessage (ui w') = alertMessage (ui w) /\
  analyzing (ui w') = analyzing (ui w) /\
  continuousDetectionRef (ui w') = continuousDetectionRef (ui w).
Proof.
  unfold reschedule.
  destruct (_ && _ && _ && _ && _); simpl; repeat split.
Qed.

End PassFacts.

(** C9, as the source has it: when the detector call throws, the displayed
    records are left as they were and an error message is shown; the
    analyzing flag is cleared by the one-shot passes (still image, manual
    current-frame detection), while an iteration of the continuous loop
    leaves the flag and the running mode as they were and goes on to its
    re-scheduling check. *)
Theorem detector_failure_keeps_records :
  forall (formatVideoTime : float -> string) (f : frame) (e : string),
    (forall (imageElement : image) (ctx : bool) (s : state),
        model s = true -> mediaRef s = true ->
        let s' := detectVehiclesInImage f imageElement ctx (Throw e) s in
        detectedVehicles s' = detectedVehicles s /\
        showAlert s' = true /\
        alertMessage s'
        = "An error occurred during detection. Please try another image." /\
        analyzing s' = false) /\
    (forall w : world,
        model (ui w) = true -> mediaRef (ui w) = true -> isVideo (ui w) = true ->
        let w' := handleDetectCurrentFrame formatVideoTime f (Throw e) w in
        detectedVehicles (ui w') = detectedVehicles (ui w) /\
        showAlert (ui w') = true /\
        alertMessage (ui w') = "An error occurred during detection." /\
        analyzing (ui w') = false) /\
    (forall w : world,
        let w' := detectVehiclesInVideo_resume f (Throw e) w in
        detectedVehicles (ui w') = detectedVehicles (ui w) /\
        showAlert (ui w') = true /\
        alertMessage (ui w') = "An error occurred during detection." /\
        analyzing (ui w') = analyzing (ui w) /\
        continuousDetectionRef (ui w') = continuousDetectionRef (ui w)).
Proof.
  intros formatVideoTime f e. split; [|split].
  - intros imageElement ctx s Hm Hr. unfold detectVehiclesInImage.
    rewrite Hm, Hr. simpl. repeat split.
  - intros w Hm Hr Hv.
    unfold handleDetectCurrentFrame, detectCurrentVideoFrame_begin.
    rewrite Hr, Hv. simpl. rewrite Hm, Hr, Hv. simpl. repeat split.
  - intros w. unfold detectVehiclesInVideo_resume. rewrite settle_throw.
    destruct (reschedule_ui (withUi (alert "An error occurred during detection." (ui w)) w))
      as (Hd & Ha & Hmsg & Han & Href).
    cbv zeta. rewrite Hd, Ha, Hmsg, Han, Href. repeat split.
Qed.

(** The three passes at a still image, a manual detection on a video, and
    the settlement of an in-flight iteration. *)
Lemma detector_failure_keeps_records_witness :
  (let s' := detectVehiclesInImage transparentFrame plainImage true
               (Throw "detector rejected") idleImage in
   detectedVehicles s' = detectedVehicles idleImage /\
   showAlert s' = true /\
   alertMessage s'
   = "An error occurred during detection. Please try another image." /\
   analyzing s' = false) /\
  (let w' := handleDetectCurrentFrame plainTime transparentFrame
               (Throw "detector rejected") idleVideo in
   detectedVehicles (ui w') = detectedVehicles (ui idleVideo) /\
   showAlert (ui w') = true /\
   alertMessage (ui w') = "An error occurred during detection." /\
   analyzing (ui w') = false).
Proof.
  destruct (detector_failure_keeps_records plainTime transparentFrame
              "detector rejected") as (Himage & Hmanual & _).
  split; [apply Himage | apply Hmanual]; reflexivity.
Defined.

(** C9 as stated fails in continuous mode: after the start and a detector
    failure in the first iteration the records are unchanged and the
    message is shown, but the analyzing flag is still set and the next
    iteration is scheduled. *)
Lemma continuous_failure_keeps_analyzing :
  let w := run plainTime transparentFrame
             [Toggle; DetectorSettles (Throw "detector rejected")] idleVideo in
  detectedVehicles (ui w) = [] /\
  showAlert (ui w) = true /\
  alertMessage (ui w) = "An error occurred during detection." /\
  analyzing (ui w) = true /\
  continuousDetectionRef (ui w) = true /\
  pendingFrames (video w) = [1%positive].
Proof. vm_compute. repeat split. Qed.

(** ** The continuous-detection loop *)

Section SchedulerFacts.

Variable formatVideoTime : float -> string.
Variable f : frame.

Lemma quiet_refl (w : world) : quiet w w.
Proof. repeat split; [apply incl_refl | lia]. Qed.

Lemma quiet_same_host (w w' : world) :
  video w' = video w -> inFlight w' = inFlight w -> quiet w w'.
Proof.
  intros Hv Hn. unfold quiet. rewrite Hv, Hn.
  split; [reflexivity | split; [apply incl_refl | apply Nat.le_refl]].
Qed.

Lemma quiet_trans (w1 w2 w3 : world) : quiet w1 w2 -> quiet w2 w3 -> quiet w1 w3.
Proof.
  intros (H1 & H2 & H3) (H4 & H5 & H6). repeat split.
  - congruence.
  - eapply incl_tran; eassumption.
  - lia.
Qed.

(** The flag is checked at the entry of an iteration. *)
Lemma enter_when_off (w : world) :
  continuousDetectionRef (ui w) = false ->
  let w' := detectVehiclesInVideo_enter formatVideoTime w in
  video w' = video w /\ inFlight w' = inFlight w /\
  playRequests w' = playRequests w /\
  animationFrameRef (ui w') = animationFrameRef (ui w) /\
  detectedVehicles (ui w') = detectedVehicles (ui w) /\
  currentFrame (ui w') = currentFrame (ui w) /\
  continuousDetectionRef (ui w') = false /\
  (continuousDetection (ui w) = false -> continuousDetection (ui w') = false).
Proof.
  intros Hoff. unfold detectVehiclesInVideo_enter.
  destruct (negb (model (ui w)) || negb (mediaRef (ui w)) || negb (isVideo (ui w))).
  - repeat split; auto.
  - destruct (ended (video w)); [repeat split; auto|].
    rewrite Hoff. simpl. repeat split; auto.
Qed.

(** The flag is checked again before re-scheduling. *)
Lemma reschedule_when_off (w : world) :
  continuousDetectionRef (ui w) = false -> reschedule w = w.
Proof. intros Hoff. unfold reschedule. now rewrite Hoff. Qed.

Lemma settle_keeps_mode (r : outcome (list DetectedObject)) (s : state) :
  let s' := detectCurrentVideoFrame_settle f r s in
  continuousDetectionRef s' = continuousDetectionRef s /\
  continuousDetection s' = continuousDetection s /\
  animationFrameRef s' = animationFrameRef s.
Proof.
  unfold detectCurrentVideoFrame_settle.
  destruct (bind r _) as [vehicles|e]; [|repeat split].
  destruct (noVehicles vehicles); repeat split.
Qed.

Lemma resume_when_off (r : outcome (list DetectedObject)) (w : world) :
  continuousDetectionRef (ui w) = false ->
  let w' := detectVehiclesInVideo_resume f r w in
  video w' = video w /\ inFlight w' = inFlight w /\
  playRequests w' = playRequests w /\
  animationFrameRef (ui w') = animationFrameRef (ui w) /\
  continuousDetectionRef (ui w') = false /\
  continuousDetection (ui w') = continuousDetection (ui w).
Proof.
  intros Hoff. unfold detectVehiclesInVideo_resume.
  destruct (settle_keeps_mode r (ui w)) as (Href & Hmode & Hframe).
  rewrite reschedule_when_off by (simpl; congruence).
  simpl. repeat split; congruence.
Qed.

Lemma cancel_incl (handle : positive) (h : host) :
  incl (pendingFrames (cancelAnimationFrame handle h)) (pendingFrames h) /\
  ~ In handle (pendingFrames (cancelAnimationFrame handle h)) /\
  nextHandle (cancelAnimationFrame handle h) = nextHandle h.
Proof.
  simpl. repeat split.
  - intros k Hk. now apply filter_In in Hk.
  - intros Hin. apply filter_In in Hin. destruct Hin as [_ Hne].
    now rewrite Pos.eqb_refl in Hne.
Qed.

(** [stop()]: the branch of the toggle taken when continuous mode is on. *)
Lemma stop_spec (w : world) :
  isVideo (ui w) = true -> mediaRef (ui w) = true ->
  continuousDetection (ui w) = true ->
  let w' := toggleContinuousDetection formatVideoTime w in
  stopped w' /\ analyzing (ui w') = false /\ quiet w w' /\
  (forall handle, animationFrameRef (ui w) = Some handle ->
     ~ In handle (pendingFrames (video w')) /\
     animationFrameRef (ui w') = None) /\
  (incl (pendingFrames (video w))
        (match animationFrameRef (ui w) with Some k => [k] | None => [] end) ->
   pendingFrames (video w') = []).
Proof.
  intros Hv Hr Hon. unfold toggleContinuousDetection.
  rewrite Hv, Hr, Hon. simpl. unfold cancelPending. simpl.
  destruct (animationFrameRef (ui w)) as [handle|] eqn:Href; simpl.
  - destruct (cancel_incl handle (video w)) as (Hincl & Hnot & Hnext).
    split; [split; reflexivity|]. split; [reflexivity|].
    split; [split; [reflexivity | split; [exact Hincl | apply Nat.le_refl]]|].
    split.
    + intros k Hk. injection Hk as <-. split; [exact Hnot | reflexivity].
    + intros Honly. apply filter_none. intros k Hk.
      destruct (Honly k Hk) as [<-|[]]. now rewrite Pos.eqb_refl.
  - split; [split; reflexivity|]. split; [reflexivity|].
    split; [now apply quiet_same_host|]. split; [intros k Hk; discriminate|].
    intros Honly. destruct (pendingFrames (video w)) as [|k l]; [reflexivity|].
    destruct (Honly k (or_introl eq_refl)).
Qed.

(** While continuous mode is off, no event other than a new toggle
    schedules an iteration or begins a detection. *)
Lemma step_when_stopped (ev : event) (w : world) :
  isToggle ev = false -> stopped w ->
  stopped (step formatVideoTime f ev w) /\ quiet w (step formatVideoTime f ev w).
Proof.
  intros Hev [Href Hmode]. destruct ev as [|r|handle|r| | |]; simpl.
  - discriminate.
  - unfold playSettled. destruct (playRequests w) as [|n];
      [split; [split; assumption | apply quiet_refl]|].
    destruct r as [[]|e].
    + match goal with |- context [detectVehiclesInVideo_enter _ ?w0] =>
        destruct (enter_when_off w0 Href)
          as (Hvid & Hfl & _ & _ & _ & _ & Href' & Hmode') end.
      split; [split; [exact Href' | exact (Hmode' Hmode)]|].
      unfold quiet. rewrite Hvid, Hfl. simpl.
      split; [reflexivity | split; [apply incl_refl | apply Nat.le_refl]].
    + split; [split; reflexivity | now apply quiet_same_host].
  - destruct (existsb _ _); [|split; [split; assumption | apply quiet_refl]].
    match goal with |- context [detectVehiclesInVideo_enter _ ?w0] =>
      destruct (enter_when_off w0 Href)
        as (Hvid & Hfl & _ & _ & _ & _ & Href' & Hmode') end.
    split; [split; [exact Href' | exact (Hmode' Hmode)]|].
    unfold quiet. rewrite Hvid, Hfl.
    destruct (cancel_incl handle (video w)) as (Hincl & _ & Hnext).
    split; [exact Hnext | split; [exact Hincl | apply Nat.le_refl]].
  - destruct (inFlight w) as [|n] eqn:Hn;
      [split; [split; assumption | apply quiet_refl]|].
    match goal with |- context [detectVehiclesInVideo_resume _ _ ?w0] =>
      destruct (resume_when_off r w0 Href)
        as (Hvid & Hfl & _ & _ & Href' & Hmode') end.
    split; [split; [exact Href' | rewrite Hmode'; exact Hmode]|].
    unfold quiet. rewrite Hvid, Hfl, Hn. simpl.
    split; [reflexivity | split; [apply incl_refl | apply Nat.le_succ_diag_r]].
  - unfold handlePause. simpl. rewrite Hmode.
    split; [split; assumption|].
    split; [reflexivity | split; [apply incl_refl | apply Nat.le_refl]].
  - unfold handlePlay. simpl. rewrite Hmode.
    split; [split; assumption|].
    split; [reflexivity | split; [apply incl_refl | apply Nat.le_refl]].
  - split; [split; assumption|].
    split; [reflexivity | split; [apply incl_refl | apply Nat.le_refl]].
Qed.

Lemma run_when_stopped (evs : list event) :
  forallb (fun ev => negb (isToggle ev)) evs = true ->
  forall w, stopped w ->
    stopped (run formatVideoTime f evs w) /\ quiet w (run formatVideoTime f evs w).
Proof.
  unfold run. induction evs as [|ev evs IH]; intros Hevs w Hw; simpl.
  - split; [exact Hw | apply quiet_refl].
  - simpl in Hevs. apply andb_true_iff in Hevs. destruct Hevs as [Hev Hevs].
    apply negb_true_iff in Hev.
    destruct (step_when_stopped ev w Hev Hw) as [Hs Hq].
    destruct (IH Hevs _ Hs) as [Hs' Hq'].
    split; [exact Hs' | eapply quiet_trans; eassumption].
Qed.

End SchedulerFacts.

(** X18: while the running flag is false a loop iteration exits without
    scheduling another: the flag is checked at the entry of an iteration
    (which then begins no detection) and again before re-scheduling; stop()
    clears the flag and cancels at once the pending iteration whose handle
    it recorded (nothing stays pending when that was the only one); and
    from then on, whatever loop event follows (a frame firing, a detection
    or a play request settling, the video pausing, playing or ending),
    short of a new start, no frame is scheduled and no loop iteration
    begins. *)
Theorem stopped_loop_schedules_nothing :
  forall (formatVideoTime : float -> string) (f : frame),
    (forall w : world,
        continuousDetectionRef (ui w) = false ->
        let w' := detectVehiclesInVideo_enter formatVideoTime w in
        video w' = video w /\ inFlight w' = inFlight w /\
        animationFrameRef (ui w') = animationFrameRef (ui w) /\
        detectedVehicles (ui w') = detectedVehicles (ui w) /\
        continuousDetectionRef (ui w') = false) /\
    (forall (r : outcome (list DetectedObject)) (w : world),
        continuousDetectionRef (ui w) = false ->
        let w' := detectVehiclesInVideo_resume f r w in
        video w' = video w /\ inFlight w' = inFlight w /\
        animationFrameRef (ui w') = animationFrameRef (ui w) /\
        continuousDetectionRef (ui w') = false) /\
    (forall w : world,
        isVideo (ui w) = true -> mediaRef (ui w) = true ->
        continuousDetection (ui w) = true ->
        let w' := toggleContinuousDetection formatVideoTime w in
        continuousDetectionRef (ui w') = false /\
        quiet w w' /\
        (forall handle, animationFrameRef (ui w) = Some handle ->
           ~ In handle (pendingFrames (video w')) /\
           animationFrameRef (ui w') = None) /\
        (incl (pendingFrames (video w))
              (match animationFrameRef (ui w) with Some k => [k] | None => [] end) ->
         pendingFrames (video w') = []) /\
        forall evs : list event,
          forallb (fun ev => negb (isToggle ev)) evs = true ->
          let w'' := run formatVideoTime f evs w' in
          continuousDetectionRef (ui w'') = false /\ quiet w' w'').
Proof.
  intros formatVideoTime f. split; [|split].
  - intros w Hoff.
    destruct (enter_when_off formatVideoTime w Hoff)
      as (Hvid & Hfl & _ & Hframe & Hrec & _ & Href & _).
    repeat split; assumption.
  - intros r w Hoff.
    destruct (resume_when_off f r w Hoff) as (Hvid & Hfl & _ & Hframe & Href & _).
    repeat split; assumption.
  - intros w Hv Hr Hon.
    destruct (stop_spec formatVideoTime w Hv Hr Hon)
      as (Hstopped & _ & Hquiet & Hcancel & Hempty).
    split; [exact (proj1 Hstopped)|]. split; [exact Hquiet|].
    split; [exact Hcancel|]. split; [exact Hempty|].
    intros evs Hevs.
    destruct (run_when_stopped formatVideoTime f evs Hevs _ Hstopped) as [Hs Hq].
    split; [exact (proj1 Hs) | exact Hq].
Qed.

(** Continuous mode is started on a playing video, the first iteration
    settles and schedules the second, and stop() is pressed: the pending
    handle is cancelled, and neither a late frame callback, a late detector
    result nor a play event schedules anything. *)
Lemma stopped_loop_schedules_nothing_witness :
  let running :=
    run plainTime transparentFrame [Toggle; DetectorSettles (Ok [])] idleVideo in
  let w' := toggleContinuousDetection plainTime running in
  pendingFrames (video running) = [1%positive] /\
  continuousDetectionRef (ui w') = false /\
  pendingFrames (video w') = [] /\
  let w'' :=
    run plainTime transparentFrame
        [FrameFires 1; DetectorSettles (Ok []); VideoPlays] w' in
  continuousDetectionRef (ui w'') = false /\ quiet w' w''.
Proof.
  cbv zeta.
  destruct (stopped_loop_schedules_nothing plainTime transparentFrame)
    as (_ & _ & Hstop).
  destruct (Hstop (run plainTime transparentFrame
                       [Toggle; DetectorSettles (Ok [])] idleVideo)
                  eq_refl eq_refl eq_refl)
    as (Hoff & _ & _ & Hempty & Hafter).
  split; [reflexivity|]. split; [exact Hoff|].
  split; [apply Hempty; vm_compute; intros k Hk; exact Hk|].
  apply (Hafter [FrameFires 1; DetectorSettles (Ok []); VideoPlays]).
  reflexivity.
Defined.


(** C10: stop() does not cancel every pending iteration.  A start on a
    paused video arms the loop twice, once by the play listener and once by
    the then of the play request; when both detections have settled two
    iterations are pending and the ref records only the later handle;
    stop() clears the flag and cancels that one, and the other is still
    pending. *)
Lemma stop_leaves_parallel_iteration_pending :
  let armedTwice := run plainTime transparentFrame startOnPaused pausedVideo in
  let w' := toggleContinuousDetection plainTime armedTwice in
  continuousDetection (ui armedTwice) = true /\
  pendingFrames (video armedTwice) = [1%positive; 2%positive] /\
  animationFrameRef (ui armedTwice) = Some 2%positive /\
  continuousDetectionRef (ui w') = false /\
  pendingFrames (video w') = [1%positive].
Proof. vm_compute. repeat split. Qed.

(** * Further properties of the code *)

(** ** Colour names and the hex table *)

Section NameFacts.

Lemma classifyHsl_name (h s l : float) :
  isClassifierName (classifyHsl h s l) = true.
Proof.
  unfold classifyHsl, grayscaleName, hueBandName.
  repeat match goal with
         | |- context [if ?c then _ else _] => destruct c
         end; reflexivity.
Qed.

Lemma classifier_name (r g b : float) :
  isClassifierName (getAdvancedColorName r g b) = true.
Proof.
  unfold getAdvancedColorName. destruct (rgbToHsl r g b) as [[h s] l].
  apply classifyHsl_name.
Qed.

Lemma classifier_names_checked :
  forallb (fun c => hasHexEntry c && negb (String.eqb c "Unknown"))
          classifierNames = true.
Proof. vm_compute. reflexivity. Qed.

Lemma classifier_name_facts (c : string) :
  isClassifierName c = true ->
  hasHexEntry c = true /\ String.eqb c "Unknown" = false.
Proof.
  unfold isClassifierName. intros H. apply existsb_exists in H.
  destruct H as (n & Hin & Heq). apply String.eqb_eq in Heq. subst n.
  pose proof classifier_names_checked as Hall. rewrite forallb_forall in Hall.
  specialize (Hall c Hin). apply andb_true_iff in Hall.
  destruct Hall as [Hhex Hunk]. split; [exact Hhex|].
  now apply negb_true_iff in Hunk.
Qed.

End NameFacts.

(** X1: every name the classifier returns has an entry of its own in the
    hex table, so [getColorHex] never answers a classified pixel with its
    default; and no pixel is classified "Unknown". *)
Theorem classified_names_have_hex :
  forall r g b : float,
    let name := getAdvancedColorName r g b in
    In name classifierNames /\
    lookup name colorMap = Some (getColorHex name) /\
    name <> "Unknown".
Proof.
  intros r g b name.
  pose proof (classifier_name r g b) as Hname. fold name in Hname.
  destruct (classifier_name_facts name Hname) as [Hhex Hunk].
  split; [|split].
  - unfold isClassifierName in Hname. apply existsb_exists in Hname.
    destruct Hname as (n & Hin & Heq). apply String.eqb_eq in Heq. now subst n.
  - unfold hasHexEntry in Hhex. unfold getColorHex.
    destruct (lookup name colorMap); [reflexivity | discriminate].
  - now apply String.eqb_neq.
Qed.

(** X2: a gray pixel (r = g = b, any byte) has hue 0 and saturation 0 and
    is named White or with one of the eight grayscale names, never with a
    hue name or Mixed. *)
Theorem gray_pixels_are_achromatic :
  forall v : Z,
    0 <= v <= 255 ->
    let '(h, s, _) := rgbToHsl (Z2float v) (Z2float v) (Z2float v) in
    (h =? 0)%float = true /\ (s =? 0)%float = true /\
    In (getAdvancedColorName (Z2float v) (Z2float v) (Z2float v)) achromaticNames.
Proof.
  intros v Hv.
  assert (Hall : forallb achromaticOk (map Z.of_nat (seq 0 256)) = true)
    by (vm_compute; reflexivity).
  rewrite forallb_forall in Hall.
  assert (Hok : achromaticOk v = true).
  { apply Hall. rewrite in_map_iff. exists (Z.to_nat v).
    split; [lia | apply in_seq; lia]. }
  unfold achromaticOk in Hok.
  destruct (rgbToHsl (Z2float v) (Z2float v) (Z2float v)) as [[h s] l].
  rewrite !andb_true_iff in Hok. destruct Hok as [[Hh Hs] Hn].
  split; [exact Hh|]. split; [exact Hs|].
  apply existsb_exists in Hn. destruct Hn as (n & Hin & Heq).
  apply String.eqb_eq in Heq. now rewrite Heq.
Qed.

(** A mid gray. *)
Lemma gray_pixels_are_achromatic_witness :
  let '(h, s, _) := rgbToHsl (Z2float 128) (Z2float 128) (Z2float 128) in
  (h =? 0)%float = true /\ (s =? 0)%float = true /\
  In (getAdvancedColorName (Z2float 128) (Z2float 128) (Z2float 128)) achromaticNames.
Proof. apply (gray_pixels_are_achromatic 128). lia. Defined.

(** ** More facts about doubles *)

Section FloatOrder.

Lemma lexCompare_lt e1 m1 e2 m2 :
  lexCompare e1 m1 e2 m2 = Lt <-> (e1 < e2 \/ (e1 = e2 /\ (m1 < m2)%positive)).
Proof.
  unfold lexCompare. change (Pos.compare_cont Eq m1 m2) with (m1 ?= m2)%positive.
  destruct (Z.compare_spec e1 e2) as [He|He|He].
  - rewrite Pos.compare_lt_iff.
    split; [intros H; right; auto | intros [H|[_ H]]; [lia | exact H]].
  - split; [intros _; now left | reflexivity].
  - split; [discriminate | intros [H|[H _]]; lia].
Qed.

Lemma lexCompare_gt e1 m1 e2 m2 :
  lexCompare e1 m1 e2 m2 = Gt <-> lexCompare e2 m2 e1 m1 = Lt.
Proof.
  unfold lexCompare.
  change (Pos.compare_cont Eq m1 m2) with (m1 ?= m2)%positive.
  change (Pos.compare_cont Eq m2 m1) with (m2 ?= m1)%positive.
  rewrite (Z.compare_antisym e1 e2), (Pos.compare_antisym m1 m2).
  destruct (e1 ?= e2); simpl; try (split; congruence).
  destruct (m1 ?= m2)%positive; simpl; split; congruence.
Qed.

Lemma lexCompare_lt_trans e1 m1 e2 m2 e3 m3 :
  lexCompare e1 m1 e2 m2 = Lt -> lexCompare e2 m2 e3 m3 = Lt ->
  lexCompare e1 m1 e3 m3 = Lt.
Proof. rewrite !lexCompare_lt. lia. Qed.

Lemma SFcompare_finite s1 m1 e1 s2 m2 e2 :
  SFcompare (S754_finite s1 m1 e1) (S754_finite s2 m2 e2)
  = Some match s1, s2 with
         | true, false => Lt
         | false, true => Gt
         | false, false => lexCompare e1 m1 e2 m2
         | true, true => CompOpp (lexCompare e1 m1 e2 m2)
         end.
Proof.
  unfold lexCompare. simpl. destruct s1, s2; try reflexivity.
  now destruct (e1 ?= e2).
Qed.

Lemma SFcompare_lt_trans (x y z : spec_float) :
  SFcompare x y = Some Lt -> SFcompare y z = Some Lt -> SFcompare x z = Some Lt.
Proof.
  destruct x as [sx|sx| |sx mx ex], y as [sy|sy| |sy my ey],
           z as [sz|sz| |sz mz ez];
    try (rewrite !SFcompare_finite);
    simpl; try discriminate;
    try (destruct sx; simpl; try discriminate);
    try (destruct sy; simpl; try discriminate);
    try (destruct sz; simpl; try discriminate);
    try reflexivity; try (intros; assumption).
  - intros H1 H2.
    assert (G1 : lexCompare ex mx ey my = Gt)
      by (destruct (lexCompare ex mx ey my); simpl in H1; congruence).
    assert (G2 : lexCompare ey my ez mz = Gt)
      by (destruct (lexCompare ey my ez mz); simpl in H2; congruence).
    apply lexCompare_gt in G1, G2.
    pose proof (lexCompare_lt_trans _ _ _ _ _ _ G2 G1) as G3.
    apply lexCompare_gt in G3. now rewrite G3.
  - intros H1 H2. injection H1 as H1. injection H2 as H2.
    now rewrite (lexCompare_lt_trans _ _ _ _ _ _ H1 H2).
Qed.

Lemma gt_trans (x y z : float) :
  gt x y = true -> gt y z = true -> gt x z = true.
Proof.
  unfold gt. rewrite !FloatAxioms.ltb_spec. unfold SFltb.
  destruct (SFcompare (Prim2SF y) (Prim2SF x)) as [[]|] eqn:E1; try discriminate.
  destruct (SFcompare (Prim2SF z) (Prim2SF y)) as [[]|] eqn:E2; try discriminate.
  intros _ _. now rewrite (SFcompare_lt_trans _ _ _ E2 E1).
Qed.

Lemma gt_irrefl (x : float) : gt x x = false.
Proof.
  unfold gt. destruct (x <? x)%float eqn:E; [|reflexivity].
  pose proof (ltb_asym _ _ E) as E'. congruence.
Qed.

Lemma gt_asym (x y : float) : gt x y = true -> gt y x = false.
Proof. unfold gt. apply ltb_asym. Qed.

(** x is not above y and y is below z: x is not above z. *)
Lemma not_gt_below (x y z : float) :
  gt x y = false -> gt z y = true -> gt x z = false.
Proof.
  intros Hxy Hzy. destruct (gt x z) eqn:E; [|reflexivity].
  rewrite (gt_trans _ _ _ E Hzy) in Hxy. discriminate.
Qed.

(** [Math.min(a, 0.95)] is never above 0.95. *)
Lemma Math_min_cap (a : float) : gt (Math_min a 0.95) 0.95 = false.
Proof.
  unfold Math_min, gt.
  destruct (is_nan a || is_nan 0.95); [reflexivity|].
  destruct (a <? 0.95)%float eqn:E1; [now apply ltb_asym|].
  destruct (0.95 <? a)%float eqn:E2; [reflexivity|].
  destruct (get_sign a); [exact E2 | reflexivity].
Qed.

End FloatOrder.

(** ** Histograms *)

Section HistogramFacts.

Lemma bump_names (c : string) (h : histogram) :
  In c classifierNames ->
  Forall (fun e => In (fst e) classifierNames) h ->
  Forall (fun e => In (fst e) classifierNames) (bump c h).
Proof.
  intros Hc. induction h as [|[k n] h IH]; intros H; simpl.
  - constructor; [exact Hc | constructor].
  - inversion H as [|? ? Hk Hh]; subst.
    destruct (String.eqb k c); constructor; auto.
Qed.

Lemma classifier_name_in (r g b : float) :
  In (getAdvancedColorName r g b) classifierNames.
Proof.
  pose proof (classifier_name r g b) as H. unfold isClassifierName in H.
  apply existsb_exists in H. destruct H as (n & Hin & Heq).
  apply String.eqb_eq in Heq. now rewrite Heq.
Qed.

Lemma samplePixels_names stride include data :
  Forall (fun e => In (fst e) classifierNames)
         (colorCounts (samplePixels stride include data)).
Proof.
  unfold samplePixels.
  apply (forLoop_invariant
           (fun t => Forall (fun e => In (fst e) classifierNames) (colorCounts t))).
  - intros i t Ht. unfold countPixel.
    destruct (nth_error data (i + 3)); [|exact Ht].
    destruct (include _ _ _ _); [|exact Ht]. simpl.
    apply bump_names; [apply classifier_name_in | exact Ht].
  - constructor.
Qed.

Lemma count_le_sum (h : histogram) :
  Forall (fun e => 0 < snd e) h -> forall e, In e h -> snd e <= sumCounts h.
Proof.
  induction 1 as [|y h Hy Hh IH]; intros e Hin; [destruct Hin|].
  destruct Hin as [<-|Hin]; rewrite sumCounts_cons.
  - pose proof (sumCounts_nonneg h Hh). lia.
  - specialize (IH e Hin). lia.
Qed.

Lemma insertDesc_withCount (c : Z) (e : string * Z) (l : histogram) :
  withCount c (insertDesc e l) = withCount c (e :: l).
Proof.
  unfold withCount. induction l as [|y l IH]; [reflexivity|].
  cbn [insertDesc]. destruct (snd y <=? snd e) eqn:E; [reflexivity|].
  apply Z.leb_gt in E. cbn [filter] in *. rewrite IH.
  destruct (snd e =? c) eqn:Ee, (snd y =? c) eqn:Ey; try reflexivity.
  apply Z.eqb_eq in Ee, Ey. lia.
Qed.

Lemma sortDesc_withCount (c : Z) (h : histogram) :
  withCount c (sortDesc h) = withCount c h.
Proof.
  induction h as [|e h IH]; [reflexivity|].
  cbn [sortDesc fold_right]. fold (sortDesc h).
  rewrite insertDesc_withCount. unfold withCount in *. cbn [filter].
  now rewrite IH.
Qed.

End HistogramFacts.

(** X3: the histogram of a sampling pass, at either stride and with either
    pixel filter: its counts add up to the number of valid pixels, every
    count is at least 1 and at most that number, every name is one the
    classifier returns, and no name has two entries. *)
Theorem histogram_invariant :
  forall (stride : nat) (include : Z -> Z -> Z -> Z -> bool) (data : list Z),
    let t := samplePixels stride include data in
    sumCounts (colorCounts t) = totalValidPixels t /\
    Forall (entryOk (totalValidPixels t)) (colorCounts t) /\
    NoDup (map fst (colorCounts t)) /\
    (totalValidPixels t = 0 <-> colorCounts t = []).
Proof.
  intros stride include data t.
  destruct (samplePixels_ok stride include data) as (Hsum & Hpos & Hnd).
  fold t in Hsum, Hpos, Hnd.
  split; [now symmetry|]. split; [|split; [exact Hnd|]].
  - pose proof (samplePixels_names stride include data) as Hnames. fold t in Hnames.
    rewrite Forall_forall in *. intros e He. split; [|now apply Hnames].
    rewrite Hsum. split; [specialize (Hpos e He); lia|].
    apply count_le_sum; [now apply Forall_forall | exact He].
  - split; [apply zero_total_empty|].
    intros Hnil. rewrite Hsum, Hnil. reflexivity.
Qed.

(** X4: the ranking is a stable sort by descending count: it keeps the
    entries, orders them by non-increasing count, and keeps entries of equal
    count in insertion order; so the top-ranked entry is the first-seen of
    the most frequent names. *)
Theorem ranking_is_stable :
  forall h : histogram,
    Permutation (sortDesc h) h /\
    StronglySorted ranked (sortDesc h) /\
    (forall c, withCount c (sortDesc h) = withCount c h) /\
    (forall top rest,
        sortDesc h = top :: rest ->
        (forall e, In e h -> snd e <= snd top) /\
        hd_error (withCount (snd top) h) = Some top).
Proof.
  intros h. split; [apply sortDesc_perm|]. split; [apply sortDesc_sorted|].
  split; [intros c; apply sortDesc_withCount|].
  intros top rest Hsorted. split.
  - intros e He. pose proof (sortDesc_sorted h) as Hs. rewrite Hsorted in Hs.
    apply (sorted_head_max top rest Hs). rewrite <- Hsorted.
    eapply Permutation_in; [symmetry; apply sortDesc_perm | exact He].
  - rewrite <- (sortDesc_withCount (snd top) h), Hsorted.
    unfold withCount. cbn [filter]. now rewrite Z.eqb_refl.
Qed.

(** ** Strategy selection *)

Section StrategyFacts.

Variable f : frame.

Lemma runStrategies_dominates :
  forall ss i st st',
    runStrategies f i ss st = Ok st' ->
    forall b, bestResult st' = Some b ->
      (forall b0, bestResult st = Some b0 ->
         b = b0 \/ gt (confidence b) (confidence b0) = true) /\
      (forall k name reg url data,
         nth_error ss k = Some (name, reg) ->
         f (Strategy (i + k)) reg = Pixels url data ->
         gt (confidence (analyzeRegion name url data)) (confidence b) = false).
Proof.
  induction ss as [|[name reg] ss IH]; intros i st st' Hrun b Hb; simpl in Hrun.
  - injection Hrun as <-. split.
    + intros b0 Hb0. left. congruence.
    + intros [|k] n r u d Hk; discriminate.
  - destruct (f (Strategy i) reg) as [|e|pushed e|url data] eqn:Hread;
      try discriminate.
    + destruct (IH _ _ _ Hrun b Hb) as [Hkeep Hlater]. split; [exact Hkeep|].
      intros [|k] n r u d Hk Hf.
      * injection Hk as <- <-. rewrite Nat.add_0_r in Hf. congruence.
      * rewrite Nat.add_succ_r in Hf. exact (Hlater k n r u d Hk Hf).
    + destruct (IH _ _ _ Hrun b Hb) as [Hkeep Hlater]. split; [exact Hkeep|].
      intros [|k] n r u d Hk Hf.
      * injection Hk as <- <-. rewrite Nat.add_0_r in Hf. congruence.
      * rewrite Nat.add_succ_r in Hf. exact (Hlater k n r u d Hk Hf).
    + destruct (IH _ _ _ Hrun b Hb) as [Hkeep Hlater]. simpl in Hkeep.
      set (r0 := analyzeRegion name url data) in *.
      assert (Hr0 : gt (confidence r0) (confidence b) = false /\
                    forall b0, bestResult st = Some b0 ->
                      b = b0 \/ gt (confidence b) (confidence b0) = true).
      { unfold keepBest in Hkeep. destruct (bestResult st) as [b0|].
        - destruct (gt (confidence r0) (confidence b0)) eqn:Hgt.
          + destruct (Hkeep r0 eq_refl) as [->|Hb1].
            * split; [apply gt_irrefl|]. intros b1 Hb1. injection Hb1 as <-.
              now right.
            * split; [now apply gt_asym|]. intros b1 Hb1'. injection Hb1' as <-.
              right. exact (gt_trans _ _ _ Hb1 Hgt).
          + destruct (Hkeep b0 eq_refl) as [->|Hb1].
            * split; [exact Hgt|]. intros b1 Hb1. injection Hb1 as <-. now left.
            * split; [exact (not_gt_below _ _ _ Hgt Hb1)|].
              intros b1 Hb1'. injection Hb1' as <-. now right.
        - destruct (Hkeep r0 eq_refl) as [->|Hb1].
          + split; [apply gt_irrefl | discriminate].
          + split; [now apply gt_asym | discriminate]. }
      destruct Hr0 as [Hr0 Hinit]. split; [exact Hinit|].
      intros [|k] n r u d Hk Hf.
      * injection Hk as <- <-. rewrite Nat.add_0_r, Hread in Hf.
        injection Hf as <- <-. exact Hr0.
      * rewrite Nat.add_succ_r in Hf. exact (Hlater k n r u d Hk Hf).
Qed.

Lemma runStrategies_none :
  forall ss i st st',
    runStrategies f i ss st = Ok st' -> bestResult st' = None ->
    forall k name reg url data,
      nth_error ss k = Some (name, reg) ->
      f (Strategy (i + k)) reg <> Pixels url data.
Proof.
  induction ss as [|[name reg] ss IH]; intros i st st' Hrun Hnone k n r u d Hk;
    simpl in Hrun.
  - destruct k; discriminate.
  - destruct (f (Strategy i) reg) as [|e|pushed e|url data] eqn:Hread;
      try discriminate.
    + destruct k as [|k].
      * injection Hk as <- <-. rewrite Nat.add_0_r. congruence.
      * rewrite Nat.add_succ_r. exact (IH _ _ _ Hrun Hnone k n r u d Hk).
    + destruct k as [|k].
      * injection Hk as <- <-. rewrite Nat.add_0_r. congruence.
      * rewrite Nat.add_succ_r. exact (IH _ _ _ Hrun Hnone k n r u d Hk).
    + exfalso.
      assert (Hsome : forall ss i st st',
                 runStrategies f i ss st = Ok st' -> bestResult st' = None ->
                 bestResult st = None).
      { clear. induction ss as [|[n r] ss IH]; intros i st st' Hrun Hnone;
          simpl in Hrun.
        - now injection Hrun as <-.
        - destruct (f (Strategy i) r) as [|e|pushed e|url data];
            try discriminate;
            try (exact (IH _ _ _ Hrun Hnone)).
          specialize (IH _ _ _ Hrun Hnone). simpl in IH.
          unfold keepBest in IH. destruct (bestResult st); [|discriminate].
          destruct (gt _ _); discriminate. }
      specialize (Hsome _ _ _ _ Hrun Hnone). simpl in Hsome.
      unfold keepBest in Hsome. destruct (bestResult st); [|discriminate].
      destruct (gt _ _); discriminate.
Qed.

End StrategyFacts.

(** X5: after the strategy loop the kept result is the analysis of a
    strategy whose region was read, and no strategy that was read computed
    a higher confidence; nothing is kept only when no region was read. *)
Theorem best_strategy_wins :
  forall (f : frame) (ss : list (string * region)) (st : loopState),
    runStrategies f 0 ss noResult = Ok st ->
    match bestResult st with
    | Some b =>
        (exists k, computed f ss k b) /\
        forall k r, computed f ss k r ->
                    gt (confidence r) (confidence b) = false
    | None => forall k r, ~ computed f ss k r
    end.
Proof.
  intros f ss st Hrun. destruct (bestResult st) as [b|] eqn:Hb.
  - split.
    + destruct (runStrategies_best f _ _ _ _ Hrun b Hb)
        as [H|(k & n & r & u & d & Hk & Hf & ->)]; [discriminate|].
      exists k, n, r, u, d. auto.
    + intros k r (n & reg & u & d & Hk & Hf & ->).
      destruct (runStrategies_dominates f _ _ _ _ Hrun b Hb) as [_ Hlater].
      exact (Hlater k n reg u d Hk Hf).
  - intros k r (n & reg & u & d & Hk & Hf & _).
    exact (runStrategies_none f _ _ _ _ Hrun Hb k n reg u d Hk Hf).
Qed.

(** The loop over the three strategies of a box on [manyColoursFrame]. *)
Lemma best_strategy_wins_witness :
  exists st,
    runStrategies manyColoursFrame 0 (strategies 100 100 200 150) noResult = Ok st /\
    match bestResult st with
    | Some b =>
        (exists k, computed manyColoursFrame (strategies 100 100 200 150) k b) /\
        forall k r, computed manyColoursFrame (strategies 100 100 200 150) k r ->
                    gt (confidence r) (confidence b) = false
    | None =>
        forall k r, ~ computed manyColoursFrame (strategies 100 100 200 150) k r
    end.
Proof.
  eexists. split; [reflexivity|].
  apply (best_strategy_wins manyColoursFrame (strategies 100 100 200 150)).
  reflexivity.
Defined.

(** ** What the extraction returns *)

Section ResultFacts.

Lemma strategyConfidence_cap (maxCount total : Z) :
  gt (strategyConfidence maxCount total) 0.95 = false.
Proof.
  unfold strategyConfidence. destruct (50 <? total); [apply Math_min_cap | reflexivity].
Qed.

Lemma preferColored_in (sorted : histogram) (total : Z) (top : string * Z) :
  In top sorted -> In (preferColored sorted total top) sorted.
Proof.
  intros Htop. unfold preferColored.
  destruct (_ && _); [|exact Htop].
  destruct (coloredPixels sorted) as [|c cs] eqn:Hc; [exact Htop|]. simpl.
  assert (Hin : In c (coloredPixels sorted)) by (rewrite Hc; now left).
  apply filter_In in Hin. tauto.
Qed.

Lemma pickDominant_in (sorted : histogram) (total : Z) :
  sorted <> [] -> In (pickDominant sorted total) sorted.
Proof.
  destruct sorted as [|top rest]; [congruence|]. intros _. unfold pickDominant.
  assert (Hc : In (preferColored (top :: rest) total top) (top :: rest))
    by (apply preferColored_in; now left).
  destruct (_ && _); [|exact Hc].
  destruct rest as [|second rest]; [exact Hc|]. simpl. auto.
Qed.

Lemma sorted_names (stride : nat) (include : Z -> Z -> Z -> Z -> bool)
    (data : list Z) (e : string * Z) :
  In e (sortDesc (colorCounts (samplePixels stride include data))) ->
  In (fst e) classifierNames /\
  In (fst e) (map fst (colorCounts (samplePixels stride include data))).
Proof.
  intros He.
  assert (Hin : In e (colorCounts (samplePixels stride include data)))
    by (eapply Permutation_in; [apply sortDesc_perm | exact He]).
  pose proof (samplePixels_names stride include data) as Hn.
  rewrite Forall_forall in Hn. split; [now apply Hn | now apply in_map].
Qed.

(** What every strategy result looks like. *)
Lemma analyzeRegion_shape (name url : string) (data : list Z) :
  let r := analyzeRegion name url data in
  method r = PixelAnalysis /\
  gt (confidence r) 0.95 = false /\
  colorHex r = getColorHex (color r) /\
  In (color r) ("Unknown" :: classifierNames).
Proof.
  unfold analyzeRegion.
  destruct (pickDominant _ _) as [c n] eqn:Hpick. simpl.
  split; [reflexivity|]. split; [apply strategyConfidence_cap|].
  split; [reflexivity|].
  destruct (sortDesc (colorCounts (samplePixels 8 includeRegionPixel data)))
    as [|top rest] eqn:Hs.
  - simpl in Hpick. injection Hpick as <- _. now left.
  - right.
    assert (Hin : In (c, n) (top :: rest)).
    { rewrite <- Hpick. apply pickDominant_in. discriminate. }
    rewrite <- Hs in Hin. now destruct (sorted_names _ _ _ _ Hin).
Qed.

(** What the center-crop fallback returns when it returns. *)
Lemma centerSample_shape (f : frame) (x y width height : float) (r : colorResult) :
  centerSample f x y width height = Some r ->
  colorHex r = getColorHex (color r) /\
  debugInfo r = Some ("Fallback center sampling: " ++ color r) /\
  exists url data,
    f CenterCrop (centerRegion x y width height) = Pixels url data /\
    debugImage r = Some url /\
    In (color r) (map fst (colorCounts (samplePixels 16 includeCenterPixel data))) /\
    In (color r) classifierNames.
Proof.
  unfold centerSample.
  destruct (f CenterCrop _) as [|e|pushed e|url data]; try discriminate.
  destruct (5 <? _); [|discriminate].
  destruct (sortDesc _) as [|top rest] eqn:Hs; [discriminate|].
  destruct (negb _); [|discriminate].
  intros H. injection H as <-. simpl.
  split; [reflexivity|]. split; [reflexivity|].
  exists url, data. split; [reflexivity|]. split; [reflexivity|].
  assert (Hin : In (preferColored (top :: rest)
                      (totalValidPixels (samplePixels 16 includeCenterPixel data)) top)
                   (top :: rest)) by (apply preferColored_in; now left).
  rewrite <- Hs in Hin at 2. destruct (sorted_names _ _ _ _ Hin) as [Hn Hm].
  split; [exact Hm | exact Hn].
Qed.

(** The center-crop fallback answers whenever its region is read with more
    than 5 valid pixels. *)
Lemma centerSample_some (f : frame) (x y width height : float)
    (url : string) (data : list Z) :
  f CenterCrop (centerRegion x y width height) = Pixels url data ->
  5 < totalValidPixels (samplePixels 16 includeCenterPixel data) ->
  exists r, centerSample f x y width height = Some r.
Proof.
  intros Hread Hmany. unfold centerSample. rewrite Hread.
  apply Z.ltb_lt in Hmany. rewrite Hmany.
  destruct (sortDesc _) as [|top rest] eqn:Hs.
  - exfalso. apply Z.ltb_lt in Hmany.
    assert (Hnil : colorCounts (samplePixels 16 includeCenterPixel data) = []).
    { apply Permutation_nil. rewrite <- Hs. apply sortDesc_perm. }
    destruct (samplePixels_ok 16 includeCenterPixel data) as (Hsum & _ & _).
    rewrite Hnil in Hsum. change (sumCounts []) with 0 in Hsum. lia.
  - assert (Hin : In (preferColored (top :: rest)
                        (totalValidPixels (samplePixels 16 includeCenterPixel data)) top)
                     (top :: rest)) by (apply preferColored_in; now left).
    rewrite <- Hs in Hin at 2. destruct (sorted_names _ _ _ _ Hin) as [Hname _].
    assert (Hunk : String.eqb
                     (fst (preferColored (top :: rest)
                        (totalValidPixels (samplePixels 16 includeCenterPixel data)) top))
                     "Unknown" = false).
    { apply classifier_name_facts. unfold isClassifierName.
      apply existsb_exists. eexists. split; [exact Hname | apply String.eqb_refl]. }
    rewrite Hunk. simpl. eexists. reflexivity.
Qed.

End ResultFacts.

(** X6: whatever the frame, the box and the class, the extraction returns
    a result whose confidence is above 0.2 and not above 0.95 and whose
    method is never api-ai.  A fallback result is the class default at
    0.3; a pixel-analysis result is named Unknown or with a classifier name
    and carries the hex code [getColorHex] gives that name. *)
Theorem returned_result_range :
  forall (f : frame) (bbox : box) (vehicleType : string),
  exists r,
    extractDominantColorWithDebug f bbox vehicleType = Ok r /\
    gt (confidence r) 0.2 = true /\
    gt (confidence r) 0.95 = false /\
    ((method r = Fallback /\ confidence r = 0.3%float /\
      color r = fst (classDefault vehicleType) /\
      colorHex r = snd (classDefault vehicleType)) \/
     (method r = PixelAnalysis /\
      In (color r) ("Unknown" :: classifierNames) /\
      colorHex r = getColorHex (color r))).
Proof.
  intros f [[[x y] width] height] vehicleType.
  unfold extractDominantColorWithDebug, extractBody.
  destruct (runStrategies f 0 (strategies x y width height) _) as [st|e] eqn:Hrun.
  - set (fallThrough :=
           match centerSample f x y width height with
           | Some r => r
           | None => getFallbackColor vehicleType (hd_error (debugImages st))
                       (Some "All strategies failed, using fallback")
           end).
    assert (Hft : gt (confidence fallThrough) 0.2 = true /\
                  gt (confidence fallThrough) 0.95 = false /\
                  ((method fallThrough = Fallback /\
                    confidence fallThrough = 0.3%float /\
                    color fallThrough = fst (classDefault vehicleType) /\
                    colorHex fallThrough = snd (classDefault vehicleType)) \/
                   (method fallThrough = PixelAnalysis /\
                    In (color fallThrough) ("Unknown" :: classifierNames) /\
                    colorHex fallThrough = getColorHex (color fallThrough)))).
    { subst fallThrough.
      destruct (centerSample f x y width height) as [r|] eqn:Hc.
      - destruct (centerSample_fields _ _ _ _ _ _ Hc) as (Hm & Hconf & _ & _).
        destruct (centerSample_shape _ _ _ _ _ _ Hc)
          as (Hhex & _ & url & data & _ & _ & _ & Hname).
        rewrite Hconf. split; [reflexivity|]. split; [reflexivity|].
        right. split; [exact Hm|]. split; [now right | exact Hhex].
      - split; [reflexivity|]. split; [reflexivity|]. left. repeat split. }
    destruct (bestResult st) as [best|] eqn:Hb.
    + destruct (gt (confidence best) 0.2) eqn:Hgt.
      * exists best. split; [reflexivity|]. split; [exact Hgt|].
        destruct (runStrategies_best f _ _ _ _ Hrun best Hb)
          as [H|(k & name & reg & url & data & _ & _ & ->)]; [discriminate|].
        destruct (analyzeRegion_shape name url data) as (Hm & Hcap & Hhex & Hname).
        split; [exact Hcap|]. right. auto.
      * exists fallThrough. split; [reflexivity | exact Hft].
    + exists fallThrough. split; [reflexivity | exact Hft].
  - eexists. split; [reflexivity|]. split; [reflexivity|]. split; [reflexivity|].
    left. repeat split.
Qed.

(** X7: when no strategy result is above 0.2 and the center crop is read
    with more than 5 valid pixels, the answer is the center crop's: method
    pixel-analysis at confidence 0.3, a colour name of the center
    histogram with its hex code, the crop as debug image, and a diagnostic
    that names the center sampling.  The class default is not used. *)
Theorem center_crop_answers :
  forall (f : frame) (x y width height : float) (vehicleType url : string)
         (data : list Z),
    (forall k r, computed f (strategies x y width height) k r ->
                 gt (confidence r) 0.2 = false) ->
    (forall k name reg e,
        nth_error (strategies x y width height) k = Some (name, reg) ->
        f (Strategy k) reg <> Crash e) ->
    f CenterCrop (centerRegion x y width height) = Pixels url data ->
    5 < totalValidPixels (samplePixels 16 includeCenterPixel data) ->
    exists r,
      extractDominantColorWithDebug f (x, y, width, height) vehicleType = Ok r /\
      method r = PixelAnalysis /\ confidence r = 0.3%float /\
      debugImage r = Some url /\
      In (color r) (map fst (colorCounts (samplePixels 16 includeCenterPixel data))) /\
      colorHex r = getColorHex (color r) /\
      debugInfo r = Some ("Fallback center sampling: " ++ color r).
Proof.
  intros f x y width height vehicleType url data Hlow Hnocrash Hread Hmany.
  destruct (centerSample_some f x y width height url data Hread Hmany) as [r Hc].
  destruct (centerSample_fields _ _ _ _ _ _ Hc) as (Hm & Hconf & _ & _).
  destruct (centerSample_shape _ _ _ _ _ _ Hc)
    as (Hhex & Hinfo & url' & data' & Hread' & Himg & Hin & _).
  rewrite Hread in Hread'. injection Hread' as <- <-.
  exists r. split; [|auto 10].
  unfold extractDominantColorWithDebug, extractBody.
  destruct (runStrategies f 0 (strategies x y width height) _) as [st|e] eqn:Hrun.
  - rewrite Hc. destruct (bestResult st) as [best|] eqn:Hb; [|reflexivity].
    destruct (runStrategies_best f _ _ _ _ Hrun best Hb)
      as [H|(k & name & reg & u & d & Hk & Hf & ->)]; [discriminate|].
    rewrite (Hlow k (analyzeRegion name u d)); [reflexivity|].
    exists name, reg, u, d. auto.
  - exfalso. destruct (runStrategies_throw f _ _ _ _ Hrun) as (k & n & reg & Hk & Hf).
    exact (Hnocrash k n reg e Hk Hf).
Qed.

(** A frame whose strategies cannot be read and whose center crop shows six
    red pixels. *)
Lemma center_crop_answers_witness :
  exists r,
    extractDominantColorWithDebug centerOnlyFrame (100, 100, 200, 150)%float "truck"
      = Ok r /\
    method r = PixelAnalysis /\ confidence r = 0.3%float /\
    debugImage r = Some "data:center" /\
    color r = "Red" /\ colorHex r = "#DC143C".
Proof.
  destruct (center_crop_answers centerOnlyFrame 100 100 200 150 "truck"
              "data:center"
              (List.concat
                 (repeat [220; 20; 60; 255; 0; 0; 0; 0; 0; 0; 0; 0; 0; 0; 0; 0] 6)))
    as (r & Hr & Hm & Hc & Himg & Hin & Hhex & _).
  - intros k r (n & reg & u & d & _ & Hf & _). discriminate.
  - intros k n reg e _. discriminate.
  - reflexivity.
  - vm_compute. reflexivity.
  - exists r. split; [exact Hr|]. split; [exact Hm|]. split; [exact Hc|].
    split; [exact Himg|].
    assert (Hred : color r = "Red").
    { vm_compute in Hin. destruct Hin as [H|[]]. now symmetry. }
    split; [exact Hred|]. rewrite Hhex, Hred. reflexivity.
Defined.

(** ** The sampling of the center crop *)

Section CenterSampling.

Lemma center_brightness (s : Z) :
  0 <= s <= 765 -> gt (Z2float s / 3) 1 = (3 <? s).
Proof.
  intros Hs.
  assert (Hall : forallb centerBrightnessAgrees (map Z.of_nat (seq 0 766)) = true)
    by (vm_compute; reflexivity).
  rewrite forallb_forall in Hall. apply Bool.eqb_prop. apply Hall.
  rewrite in_map_iff. exists (Z.to_nat s). split; [lia | apply in_seq; lia].
Qed.

Lemma includeCenterPixel_bytes (r g b a : Z) :
  isByte r -> isByte g -> isByte b ->
  includeCenterPixel r g b a = keptByCenter (r, g, b, a).
Proof.
  unfold isByte. intros Hr Hg Hb. unfold includeCenterPixel, keptByCenter.
  rewrite center_brightness by lia. reflexivity.
Qed.

(** With a stride of 16 bytes over [4 n] bytes the loop visits the first
    byte of every fourth pixel. *)
Lemma visited_offsets_center (n : nat) :
  filter (fun k => k <? 4 * n)%nat
         (map (fun j => 0 + j * 16)%nat (seq 0 (4 * n)))
  = map (fun p => 4 * p)%nat (everyNth 4 n).
Proof.
  unfold everyNth.
  assert (Hseq : seq 0 (4 * n) = (seq 0 n ++ seq (0 + n) (3 * n))%list).
  { rewrite <- seq_app. reflexivity. }
  rewrite Hseq, map_app, filter_app. clear Hseq.
  rewrite (filter_none _ (map _ (seq (0 + n) (3 * n)))).
  - rewrite app_nil_r.
    induction (seq 0 n) as [|j l IH]; [reflexivity|]. cbn [map filter].
    replace (0 + j * 16 <? 4 * n)%nat with (j * 4 <? n)%nat.
    + destruct (j * 4 <? n)%nat; cbn [map]; rewrite IH; [f_equal; lia | reflexivity].
    + destruct (j * 4 <? n)%nat eqn:E1, (0 + j * 16 <? 4 * n)%nat eqn:E2;
        try reflexivity;
        [apply Nat.ltb_lt in E1; apply Nat.ltb_ge in E2
        |apply Nat.ltb_ge in E1; apply Nat.ltb_lt in E2]; lia.
  - intros k Hk. apply in_map_iff in Hk. destruct Hk as (j & <- & Hj).
    apply in_seq in Hj. apply Nat.ltb_ge. lia.
Qed.

Lemma countCenterPixel_pixelAt (data : list Z) (n p : nat) (t : tally) :
  List.length data = (4 * n)%nat -> Forall isByte data -> (p < n)%nat ->
  countPixel includeCenterPixel data (4 * p) t
  = tallyStep keptByCenter t (pixelAt data p).
Proof.
  intros Hlen Hbytes Hp. unfold countPixel, tallyStep, pixelAt.
  rewrite (nth_error_nth' data 0) by lia.
  rewrite includeCenterPixel_bytes by (apply byte_at; [assumption | lia]).
  reflexivity.
Qed.

End CenterSampling.

(** X8: the center-crop fallback reads every fourth pixel of its RGBA
    buffer (16 bytes per step) and counts a pixel exactly when its alpha is
    above 30 and its brightness (r + g + b) / 3 is above 1; unlike the
    strategies it keeps fully white pixels. *)
Theorem center_sampling_stride_and_filter :
  forall (data : list Z) (n : nat),
    List.length data = (4 * n)%nat ->
    Forall isByte data ->
    samplePixels 16 includeCenterPixel data
    = tallyPixels keptByCenter (map (pixelAt data) (everyNth 4 n)) /\
    keptByCenter (255, 255, 255, 255) = true /\
    excludedByCode (255, 255, 255, 255) = true.
Proof.
  intros data n Hlen Hbytes. split; [|split; reflexivity].
  unfold samplePixels, tallyPixels.
  rewrite forLoop_visits, Hlen, visited_offsets_center.
  pose proof (everyNth_below 4 n) as Hbelow.
  generalize emptyTally.
  induction (everyNth 4 n) as [|p ps IH]; intros t; [reflexivity|].
  cbn [map fold_left].
  rewrite (countCenterPixel_pixelAt data n p t Hlen Hbytes)
    by (apply Hbelow; now left).
  apply IH. intros q Hq. apply Hbelow. now right.
Qed.

(** The characterisation at a buffer of eight pixels: the red pixel and the
    blue one with alpha 31, four pixels on, are counted. *)
Lemma center_sampling_stride_and_filter_witness :
  samplePixels 16 includeCenterPixel eightPixels
  = tallyPixels keptByCenter (map (pixelAt eightPixels) (everyNth 4 8)) /\
  totalValidPixels (samplePixels 16 includeCenterPixel eightPixels) = 2.
Proof.
  destruct (center_sampling_stride_and_filter eightPixels 8) as [H _].
  - reflexivity.
  - unfold eightPixels, isByte. repeat constructor; lia.
  - split; [exact H | reflexivity].
Defined.

(** ** The records of a pass *)

Section RecordFacts.

Variable f : frame.

Lemma extract_ok (b : box) (vehicleType : string) :
  exists r, extractDominantColorWithDebug f b vehicleType = Ok r.
Proof.
  unfold extractDominantColorWithDebug.
  destruct (extractBody f b vehicleType); eexists; reflexivity.
Qed.

Lemma performVehicleAnalysis_ok (d : DetectedObject) :
  exists a,
    performVehicleAnalysis f d = Ok a /\ vehicleType a = capitalize (class d).
Proof.
  unfold performVehicleAnalysis.
  destruct (extract_ok (bbox d) (class d)) as [r ->]. simpl.
  eexists. split; reflexivity.
Qed.

(** [Promise.all] over computations that all return. *)
Lemma mapAll_ok {A B : Type} (g : Z -> A -> outcome B) (P : nat -> A -> B -> Prop) :
  forall (l : list A) (base : nat),
    (forall k a, nth_error l k = Some a ->
       exists b, g (Z.of_nat (base + k)) a = Ok b /\ P (base + k)%nat a b) ->
    exists bs,
      mapAll g (Z.of_nat base) l = Ok bs /\
      List.length bs = List.length l /\
      forall k a, nth_error l k = Some a ->
        exists b, nth_error bs k = Some b /\ P (base + k)%nat a b.
Proof.
  induction l as [|a l IH]; intros base Hall.
  - exists []. split; [reflexivity|]. split; [reflexivity|].
    intros [|k] a Hk; discriminate.
  - destruct (Hall 0%nat a eq_refl) as (b & Hb & Pb).
    rewrite Nat.add_0_r in Hb, Pb.
    destruct (IH (S base)) as (bs & Hbs & Hlen & Hnth).
    { intros k a' Hk. specialize (Hall (S k) a' Hk).
      now rewrite Nat.add_succ_r in Hall. }
    exists (b :: bs). split; [|split].
    + cbn [mapAll]. rewrite Hb. cbn [bind].
      replace (Z.of_nat base + 1) with (Z.of_nat (S base)) by lia.
      rewrite Hbs. reflexivity.
    + simpl. now rewrite Hlen.
    + intros [|k] a' Hk.
      * injection Hk as <-. exists b. rewrite Nat.add_0_r. auto.
      * destruct (Hnth k a' Hk) as (b' & Hb' & Pb').
        exists b'. rewrite Nat.add_succ_r. auto.
Qed.

Lemma filtered_is_vehicle (predictions : list DetectedObject) (k : nat)
    (d : DetectedObject) :
  nth_error (filter isVehicleClass predictions) k = Some d ->
  In (class d) vehicleClasses.
Proof.
  intros Hk. apply nth_error_In in Hk. apply filter_In in Hk.
  destruct Hk as [_ Hv]. unfold isVehicleClass in Hv.
  apply existsb_exists in Hv. destruct Hv as (c & Hin & Heq).
  apply String.eqb_eq in Heq. now rewrite Heq.
Qed.

Lemma videoVehicles_ok (predictions : list DetectedObject) :
  exists vs,
    videoVehicles f predictions = Ok vs /\
    recordsOf (fun b => b) predictions vs.
Proof.
  unfold videoVehicles, recordsOf.
  destruct (mapAll_ok
              (fun index detection =>
                 bind (performVehicleAnalysis f detection)
                      (fun analysis =>
                         Ok {| id := index;
                               vehicleClass := class detection;
                               vehicleScore := score detection;
                               vehicleBbox := bbox detection;
                               vehicleColor := Some (analysisColorHex analysis);
                               analysis := Some analysis;
                               vehicleDebugImage := None |}))
              (fun k d v => In (class d) vehicleClasses -> recordOf k d (bbox d) v)
              (filter isVehicleClass predictions) 0)
    as (vs & Hvs & Hlen & Hnth).
  { intros k d Hk. destruct (performVehicleAnalysis_ok d) as (a & Ha & Hty).
    rewrite Ha. cbn [bind]. eexists. split; [reflexivity|].
    intros Hclass. unfold recordOf. simpl. repeat split; auto.
    exists a. auto. }
  exists vs. split; [exact Hvs|]. split; [exact Hlen|].
  intros k d Hk. destruct (Hnth k d Hk) as (v & Hv & Hrec).
  exists v. split; [exact Hv|]. apply Hrec. eapply filtered_is_vehicle, Hk.
Qed.

Lemma imageVehicles_ok (imageElement : image) (standardizedCanvas : canvas)
    (predictions : list DetectedObject) :
  exists vs,
    imageVehicles f imageElement standardizedCanvas predictions = Ok vs /\
    recordsOf (adjustBbox imageElement standardizedCanvas) predictions vs.
Proof.
  unfold imageVehicles, recordsOf.
  destruct (mapAll_ok
              (fun index detection =>
                 let adjustedBbox :=
                   adjustBbox imageElement standardizedCanvas (bbox detection) in
                 bind (extractDominantColorWithDebug f adjustedBbox (class detection))
                   (fun colorData =>
                      bind (performVehicleAnalysis f
                              {| class := class detection; score := score detection;
                                 bbox := adjustedBbox |})
                        (fun analysis =>
                           Ok {| id := index;
                                 vehicleClass := class detection;
                                 vehicleScore := score detection;
                                 vehicleBbox := adjustedBbox;
                                 vehicleColor := Some (analysisColorHex analysis);
                                 analysis := Some analysis;
                                 vehicleDebugImage := debugImage colorData |})))
              (fun k d v =>
                 In (class d) vehicleClasses ->
                 recordOf k d (adjustBbox imageElement standardizedCanvas (bbox d)) v)
              (filter isVehicleClass predictions) 0)
    as (vs & Hvs & Hlen & Hnth).
  { intros k d Hk. cbv zeta.
    destruct (extract_ok (adjustBbox imageElement standardizedCanvas (bbox d))
                         (class d)) as (r & ->). cbn [bind].
    destruct (performVehicleAnalysis_ok
                {| class := class d; score := score d;
                   bbox := adjustBbox imageElement standardizedCanvas (bbox d) |})
      as (a & Ha & Hty).
    rewrite Ha. cbn [bind]. eexists. split; [reflexivity|].
    intros Hclass. unfold recordOf. simpl. repeat split; auto.
    exists a. auto. }
  exists vs. split; [exact Hvs|]. split; [exact Hlen|].
  intros k d Hk. destruct (Hnth k d Hk) as (v & Hv & Hrec).
  exists v. split; [exact Hv|]. apply Hrec. eapply filtered_is_vehicle, Hk.
Qed.

Lemma recordsOf_nil (boxOf : box -> box) (predictions : list DetectedObject)
    (vs : list DetectedVehicle) :
  recordsOf boxOf predictions vs ->
  (filter isVehicleClass predictions = [] <-> vs = []).
Proof.
  intros [Hlen _]. split; intros H.
  - rewrite H in Hlen. now destruct vs.
  - rewrite H in Hlen. now destruct (filter isVehicleClass predictions).
Qed.

End RecordFacts.

(** X9: a pass never fails once the detector has answered, and its records
    are the detections of the eight vehicle classes, one record each, in
    the detector's order, numbered from 0, with the class name capitalised
    for display; a video pass keeps the detector's boxes and an image pass
    rescales them from the standardized canvas. *)
Theorem pass_records :
  forall (f : frame) (imageElement : image) (standardizedCanvas : canvas)
         (predictions : list DetectedObject),
    (exists vs,
        videoVehicles f predictions = Ok vs /\
        recordsOf (fun b => b) predictions vs) /\
    (exists vs,
        imageVehicles f imageElement standardizedCanvas predictions = Ok vs /\
        recordsOf (adjustBbox imageElement standardizedCanvas) predictions vs).
Proof.
  intros f imageElement standardizedCanvas predictions. split.
  - apply videoVehicles_ok.
  - apply imageVehicles_ok.
Qed.

(** ** Completed passes *)

Section CompletedPass.

Variable formatVideoTime : float -> string.
Variable f : frame.

Lemma noVehicles_spec (boxOf : box -> box) (predictions : list DetectedObject)
    (vs : list DetectedVehicle) :
  recordsOf boxOf predictions vs ->
  noVehicles vs =
  match filter isVehicleClass predictions with [] => true | _ :: _ => false end.
Proof.
  intros [Hlen _]. unfold noVehicles. rewrite Hlen.
  now destruct (filter isVehicleClass predictions).
Qed.

Lemma image_pass_completed (imageElement : image) (ctx : bool)
    (predictions : list DetectedObject) (s : state) :
  model s = true -> mediaRef s = true ->
  let s' := detectVehiclesInImage f imageElement ctx (Ok predictions) s in
  recordsOf (adjustBbox imageElement (standardizeImage ctx imageElement 800 600))
            predictions (detectedVehicles s') /\
  analyzing s' = false /\ hasAttemptedDetection s' = true /\
  noticeAfter predictions "No vehicles detected in this image." s s'.
Proof.
  intros Hm Hr. unfold detectVehiclesInImage. rewrite Hm, Hr. cbn [negb orb bind].
  destruct (imageVehicles_ok f imageElement
              (standardizeImage ctx imageElement 800 600) predictions)
    as (vs & Hvs & Hrec).
  cbv zeta. rewrite Hvs. rewrite (noVehicles_spec _ _ _ Hrec).
  unfold noticeAfter.
  destruct (filter isVehicleClass predictions) eqn:Hfilter; simpl;
    (split; [exact Hrec | repeat split; reflexivity]).
Qed.

Lemma frame_pass_completed (predictions : list DetectedObject) (w : world) :
  model (ui w) = true -> mediaRef (ui w) = true -> isVideo (ui w) = true ->
  let w' := handleDetectCurrentFrame formatVideoTime f (Ok predictions) w in
  recordsOf (fun b => b) predictions (detectedVehicles (ui w')) /\
  analyzing (ui w') = false /\ hasAttemptedDetection (ui w') = true /\
  noticeAfter predictions "No vehicles detected in this frame." (ui w) (ui w') /\
  lastDetectionTimestamp (ui w')
  = Some (formatVideoTime (currentTime (video w))) /\
  currentFrame (ui w') = currentFrame (ui w) /\
  video w' = video w /\ inFlight w' = inFlight w.
Proof.
  intros Hm Hr Hv. unfold handleDetectCurrentFrame, detectCurrentVideoFrame_begin.
  rewrite Hv, Hr. cbn [negb orb]. cbv zeta. cbn [ui withUi setAnalyzing model mediaRef isVideo].
  rewrite Hm, Hr, Hv. cbn [negb orb].
  unfold detectCurrentVideoFrame_settle. cbn [bind].
  destruct (videoVehicles_ok f predictions) as (vs & Hvs & Hrec).
  rewrite Hvs. rewrite (noVehicles_spec _ _ _ Hrec).
  unfold noticeAfter.
  destruct (filter isVehicleClass predictions) eqn:Hfilter; simpl;
    (split; [exact Hrec | repeat split; reflexivity]).
Qed.

End CompletedPass.

(** X10: when the detector answers, a pass on an image and the manual pass
    on the current video frame both end with the records of that answer in
    place of the earlier ones, the analyzing flag cleared and the attempt
    recorded; the notice that no vehicle was detected is shown exactly when
    no detection is of a vehicle class, and otherwise the alert is left as
    it was.  The manual video pass also records the timestamp of the frame
    and leaves the frame counter and the video alone. *)
Theorem completed_pass_publishes_records :
  forall (formatVideoTime : float -> string) (f : frame)
         (predictions : list DetectedObject),
    (forall (imageElement : image) (ctx : bool) (s : state),
        model s = true -> mediaRef s = true ->
        let s' := detectVehiclesInImage f imageElement ctx (Ok predictions) s in
        recordsOf
          (adjustBbox imageElement (standardizeImage ctx imageElement 800 600))
          predictions (detectedVehicles s') /\
        analyzing s' = false /\ hasAttemptedDetection s' = true /\
        noticeAfter predictions "No vehicles detected in this image." s s') /\
    (forall w : world,
        model (ui w) = true -> mediaRef (ui w) = true -> isVideo (ui w) = true ->
        let w' := handleDetectCurrentFrame formatVideoTime f (Ok predictions) w in
        recordsOf (fun b => b) predictions (detectedVehicles (ui w')) /\
        analyzing (ui w') = false /\ hasAttemptedDetection (ui w') = true /\
        noticeAfter predictions "No vehicles detected in this frame."
                    (ui w) (ui w') /\
        lastDetectionTimestamp (ui w')
        = Some (formatVideoTime (currentTime (video w))) /\
        currentFrame (ui w') = currentFrame (ui w) /\
        video w' = video w /\ inFlight w' = inFlight w).
Proof.
  intros formatVideoTime f predictions. split.
  - intros imageElement ctx s. apply image_pass_completed.
  - intros w. apply frame_pass_completed.
Qed.

(** A person and a truck on a still image give one record, the truck's,
    numbered 0; a person alone on a video frame gives the notice. *)
Lemma completed_pass_publishes_records_witness :
  let s' := detectVehiclesInImage transparentFrame plainImage true
              (Ok personAndTruck) idleImage in
  let w' := handleDetectCurrentFrame plainTime transparentFrame
              (Ok onlyPerson) idleVideo in
  (recordsOf (adjustBbox plainImage (standardizeImage true plainImage 800 600))
             personAndTruck (detectedVehicles s') /\
   map id (detectedVehicles s') = [0] /\
   map vehicleClass (detectedVehicles s') = ["truck"] /\
   showAlert s' = false) /\
  (detectedVehicles (ui w') = [] /\
   showAlert (ui w') = true /\
   alertMessage (ui w') = "No vehicles detected in this frame." /\
   lastDetectionTimestamp (ui w') = Some "00:12.50").
Proof.
  cbv zeta.
  destruct (completed_pass_publishes_records plainTime transparentFrame
              personAndTruck) as [Himage _].
  destruct (completed_pass_publishes_records plainTime transparentFrame
              onlyPerson) as [_ Hframe].
  destruct (Himage plainImage true idleImage eq_refl eq_refl)
    as (Hrec & _ & _ & Hnotice).
  destruct (Hframe idleVideo eq_refl eq_refl eq_refl)
    as (Hrec' & _ & _ & Hnotice' & Hstamp & _).
  split.
  - split; [exact Hrec|]. split; [vm_compute; reflexivity|].
    split; [vm_compute; reflexivity|]. exact (proj1 Hnotice).
  - split; [|split; [exact (proj1 Hnotice')|split; [exact (proj2 Hnotice')|exact Hstamp]]].
    destruct Hrec' as [Hlen _].
    destruct (detectedVehicles (ui (handleDetectCurrentFrame plainTime
                transparentFrame (Ok onlyPerson) idleVideo))); [reflexivity|discriminate].
Defined.

(** ** The loop while it runs *)

Section LoopFacts.

Variable formatVideoTime : float -> string.
Variable f : frame.

Lemma existsb_eqb_In (handle : positive) (l : list positive) :
  In handle l -> existsb (Pos.eqb handle) l = true.
Proof.
  intros Hin. apply existsb_exists. exists handle.
  split; [exact Hin | apply Pos.eqb_refl].
Qed.

(** An iteration that enters the running loop counts its frame and is in
    flight; nothing is scheduled. *)
Lemma enter_when_running (w : world) :
  mounted w -> continuousDetectionRef (ui w) = true -> playing w ->
  let w' := detectVehiclesInVideo_enter formatVideoTime w in
  inFlight w' = S (inFlight w) /\
  currentFrame (ui w') = currentFrame (ui w) + 1 /\
  lastDetectionTimestamp (ui w')
  = Some (formatVideoTime (currentTime (video w))) /\
  video w' = video w /\
  playRequests w' = playRequests w /\
  detectedVehicles (ui w') = detectedVehicles (ui w) /\
  analyzing (ui w') = analyzing (ui w) /\
  animationFrameRef (ui w') = animationFrameRef (ui w) /\
  continuousDetection (ui w') = continuousDetection (ui w) /\
  continuousDetectionRef (ui w') = true /\
  mounted w'.
Proof.
  intros (Hm & Hr & Hv) Href (Hp & He).
  unfold detectVehiclesInVideo_enter, detectCurrentVideoFrame_begin, mounted.
  rewrite Hm, Hr, Hv, He, Href, Hp. cbn [negb orb]. cbv zeta.
  cbn [ui withUi setCurrentFrame model mediaRef isVideo].
  rewrite Hm, Hr, Hv. cbn [negb orb]. simpl.
  repeat split; assumption.
Qed.

(** A settlement in the running loop requests exactly one frame and
    records its handle. *)
Lemma resume_when_running (r : outcome (list DetectedObject)) (w : world) :
  mounted w -> continuousDetectionRef (ui w) = true -> playing w ->
  let w' := detectVehiclesInVideo_resume f r w in
  pendingFrames (video w') = (pendingFrames (video w) ++ [nextHandle (video w)])%list /\
  nextHandle (video w') = Pos.succ (nextHandle (video w)) /\
  animationFrameRef (ui w') = Some (nextHandle (video w)) /\
  paused (video w') = false /\ ended (video w') = false /\
  inFlight w' = inFlight w /\
  currentFrame (ui w') = currentFrame (ui w) /\
  continuousDetection (ui w') = continuousDetection (ui w) /\
  continuousDetectionRef (ui w') = true /\
  mounted w' /\
  detectedVehicles (ui w')
  = detectedVehicles (detectCurrentVideoFrame_settle f r (ui w)).
Proof.
  intros (Hm & Hr & Hv) Href (Hp & He).
  unfold detectVehiclesInVideo_resume, reschedule, mounted.
  cbn [ui video withUi].
  assert (Hkeep :
    let s' := detectCurrentVideoFrame_settle f r (ui w) in
    model s' = model (ui w) /\ mediaRef s' = mediaRef (ui w) /\
    isVideo s' = isVideo (ui w) /\ currentFrame s' = currentFrame (ui w) /\
    continuousDetection s' = continuousDetection (ui w) /\
    continuousDetectionRef s' = continuousDetectionRef (ui w)).
  { unfold detectCurrentVideoFrame_settle.
    destruct (bind r (videoVehicles f)) as [vs|e]; [|simpl; repeat split].
    destruct (noVehicles vs); simpl; repeat split. }
  cbv zeta in Hkeep. destruct Hkeep as (Km & Kr & Kv & Kf & Kc & Kref).
  rewrite Kref, Href, Hp, He, Km, Hm, Kr, Hr. cbn [negb andb].
  unfold requestAnimationFrame. simpl.
  rewrite Km, Kr, Kv, Kf, Kc, Kref, Hm, Hr, Hv, Hp, He.
  repeat split; assumption.
Qed.

End LoopFacts.

(** X11: one turn of the running loop.  On a mounted, playing video with
    continuous mode on, a pending iteration that fires counts one frame and
    begins one detection without scheduling anything; when that detection
    settles, whether it answered or failed, exactly one new frame is
    requested and its handle recorded, and the loop is in the same running
    condition as before.  An answer replaces the records by its own; a
    failure leaves the records as they were. *)
Theorem running_loop_turn :
  forall (formatVideoTime : float -> string) (f : frame) (w : world)
         (handle : positive) (r : outcome (list DetectedObject)),
    mounted w -> continuous w -> playing w ->
    In handle (pendingFrames (video w)) ->
    let w1 := step formatVideoTime f (FrameFires handle) w in
    let w2 := step formatVideoTime f (DetectorSettles r) w1 in
    (~ In handle (pendingFrames (video w1)) /\
     incl (pendingFrames (video w1)) (pendingFrames (video w)) /\
     nextHandle (video w1) = nextHandle (video w) /\
     inFlight w1 = S (inFlight w) /\
     currentFrame (ui w1) = currentFrame (ui w) + 1 /\
     detectedVehicles (ui w1) = detectedVehicles (ui w)) /\
    (pendingFrames (video w2)
     = (pendingFrames (video w1) ++ [nextHandle (video w)])%list /\
     animationFrameRef (ui w2) = Some (nextHandle (video w)) /\
     nextHandle (video w2) = Pos.succ (nextHandle (video w)) /\
     inFlight w2 = inFlight w /\
     currentFrame (ui w2) = currentFrame (ui w) + 1 /\
     (forall predictions, r = Ok predictions ->
        recordsOf (fun b => b) predictions (detectedVehicles (ui w2))) /\
     (forall e, r = Throw e ->
        detectedVehicles (ui w2) = detectedVehicles (ui w))) /\
    mounted w2 /\ continuous w2 /\ playing w2.
Proof.
  intros formatVideoTime f w handle r.
  intros Hmounted [Hc Href] [Hp He] Hin. cbv zeta.
  set (w0 := withVideo (takeFrame handle (video w)) w).
  assert (Hstep1 : step formatVideoTime f (FrameFires handle) w
                   = detectVehiclesInVideo_enter formatVideoTime w0).
  { cbn [step]. now rewrite (existsb_eqb_In _ _ Hin). }
  rewrite Hstep1.
  destruct (cancel_incl handle (video w)) as (Hincl & Hgone & Hnext).
  assert (Hm0 : mounted w0) by exact Hmounted.
  assert (Hp0 : playing w0) by (split; [exact Hp | exact He]).
  destruct (enter_when_running formatVideoTime w0 Hm0 Href Hp0)
    as (Hfl & Hframe & _ & Hvid & _ & Hrec & _ & _ & Hc1 & Href1 & Hm1).
  set (w1 := detectVehiclesInVideo_enter formatVideoTime w0) in *.
  assert (Hstep2 : step formatVideoTime f (DetectorSettles r) w1
                   = detectVehiclesInVideo_resume f r
                       {| ui := ui w1; video := video w1; inFlight := inFlight w;
                          playRequests := playRequests w1 |}).
  { cbn [step]. rewrite Hfl. reflexivity. }
  rewrite Hstep2.
  set (w1' := {| ui := ui w1; video := video w1; inFlight := inFlight w;
                 playRequests := playRequests w1 |}).
  assert (Hp1 : playing w1').
  { unfold playing, w1'. cbn [video]. rewrite Hvid. exact Hp0. }
  destruct (resume_when_running f r w1' Hm1 Href1 Hp1)
    as (Hpend & Hnext2 & Hrefd & Hp2 & He2 & Hfl2 & Hframe2 & Hc2 & Href2 & Hm2 & Hrec2).
  subst w1'.
  cbn [ui video inFlight] in Hpend, Hnext2, Hrefd, Hfl2, Hframe2, Hc2, Hrec2.
  assert (Hn1 : nextHandle (video w1) = nextHandle (video w))
    by (rewrite Hvid; exact Hnext).
  rewrite Hn1 in Hpend, Hnext2, Hrefd.
  split; [|split; [|split; [exact Hm2 | split]]].
  - rewrite Hvid. unfold w0. cbn [video withVideo]. unfold takeFrame.
    split; [exact Hgone|]. split; [exact Hincl|]. split; [exact Hnext|].
    split; [exact Hfl|]. split; [exact Hframe | exact Hrec].
  - split; [exact Hpend|].
    split; [exact Hrefd|]. split; [exact Hnext2|]. split; [exact Hfl2|].
    split; [rewrite Hframe2; exact Hframe|].
    split.
    + intros predictions ->. rewrite Hrec2.
      unfold detectCurrentVideoFrame_settle. cbn [bind].
      destruct (videoVehicles_ok f predictions) as (vs & Hvs & Hrecs).
      rewrite Hvs. simpl. exact Hrecs.
    + intros e ->. rewrite Hrec2. simpl. exact Hrec.
  - split; [rewrite Hc2, Hc1; exact Hc | exact Href2].
  - split; [exact Hp2 | exact He2].
Qed.

(** The second iteration of a loop started on the playing video fires and
    its detector fails: frame 2 is counted and the third iteration is
    pending under a fresh handle. *)
Lemma running_loop_turn_witness :
  let w1 := step plainTime transparentFrame (FrameFires 1) secondPending in
  let w2 := step plainTime transparentFrame (DetectorSettles (Throw "detect")) w1 in
  pendingFrames (video secondPending) = [1%positive] /\
  pendingFrames (video w1) = [] /\
  currentFrame (ui w1) = 2 /\
  pendingFrames (video w2) = [2%positive] /\
  animationFrameRef (ui w2) = Some 2%positive /\
  continuous w2.
Proof.
  cbv zeta.
  assert (Hmounted : mounted secondPending) by (repeat split).
  assert (Hcontinuous : continuous secondPending) by (split; reflexivity).
  assert (Hplaying : playing secondPending) by (split; reflexivity).
  assert (Hin : In 1%positive (pendingFrames (video secondPending)))
    by (left; reflexivity).
  destruct (running_loop_turn plainTime transparentFrame secondPending 1
              (Throw "detect") Hmounted Hcontinuous Hplaying Hin)
    as ((_ & _ & _ & _ & Hframe & _) & (Hpend & Href & _) & _ & Hcont & _).
  split; [reflexivity|]. split; [reflexivity|]. split; [exact Hframe|].
  split; [exact Hpend|]. split; [exact Href | exact Hcont].
Defined.

(** ** Pause and play *)

Section PauseFacts.

Variable formatVideoTime : float -> string.
Variable f : frame.

Lemma settle_keeps_guards (r : outcome (list DetectedObject)) (s : state) :
  let s' := detectCurrentVideoFrame_settle f r s in
  model s' = model s /\ mediaRef s' = mediaRef s /\ isVideo s' = isVideo s /\
  currentFrame s' = currentFrame s /\ analyzing s' = analyzing s /\
  continuousDetection s' = continuousDetection s /\
  continuousDetectionRef s' = continuousDetectionRef s.
Proof.
  unfold detectCurrentVideoFrame_settle.
  destruct (bind r (videoVehicles f)) as [vs|e]; [|simpl; repeat split].
  destruct (noVehicles vs); simpl; repeat split.
Qed.

Lemma enter_when_paused (w : world) :
  mounted w -> continuousDetectionRef (ui w) = true ->
  paused (video w) = true -> ended (video w) = false ->
  detectVehiclesInVideo_enter formatVideoTime w
  = withUi (setAnalyzing false (ui w)) w.
Proof.
  intros (Hm & Hr & Hv) Href Hp He. unfold detectVehiclesInVideo_enter.
  rewrite Hm, Hr, Hv, He, Href, Hp. reflexivity.
Qed.

Lemma reschedule_when_paused (w : world) :
  paused (video w) = true -> reschedule w = w.
Proof.
  intros Hp. unfold reschedule. rewrite Hp.
  now destruct (continuousDetectionRef (ui w)).
Qed.

Lemma step_when_suspended (ev : event) (w : world) :
  firesOrSettles ev = true -> suspended w ->
  let w' := step formatVideoTime f ev w in
  suspended w' /\ quiet w w' /\
  currentFrame (ui w') = currentFrame (ui w).
Proof.
  intros Hev (Hmounted & [Hc Href] & Hp & He).
  destruct ev as [|r|handle|r| | |]; try discriminate Hev; cbn [step]; cbv zeta.
  - destruct (existsb (Pos.eqb handle) (pendingFrames (video w))).
    + rewrite enter_when_paused; try assumption.
      destruct (cancel_incl handle (video w)) as (Hincl & _ & Hnext).
      split; [|split; [|reflexivity]].
      * repeat split; try assumption; apply Hmounted.
      * split; [exact Hnext|]. split; [exact Hincl | apply Nat.le_refl].
    + split; [|split; [apply quiet_refl | reflexivity]].
      repeat split; try assumption; apply Hmounted.
  - destruct (inFlight w) as [|n] eqn:Hfl.
    + split; [|split; [apply quiet_refl | reflexivity]].
      repeat split; try assumption; apply Hmounted.
    + unfold detectVehiclesInVideo_resume.
      rewrite reschedule_when_paused by exact Hp.
      destruct (settle_keeps_guards r (ui w)) as (Km & Kr & Kv & Kf & _ & Kc & Kref).
      destruct Hmounted as (Hm & Hr & Hv).
      split; [|split].
      * unfold suspended, mounted, continuous. cbn [ui video withUi].
        rewrite Km, Kr, Kv, Kc, Kref. repeat split; assumption.
      * split; [reflexivity|]. split; [apply incl_refl|].
        cbn [inFlight withUi]. rewrite Hfl. apply Nat.le_succ_diag_r.
      * exact Kf.
Qed.

Lemma run_when_suspended (evs : list event) :
  forallb firesOrSettles evs = true ->
  forall w, suspended w ->
    let w' := run formatVideoTime f evs w in
    suspended w' /\ quiet w w' /\ currentFrame (ui w') = currentFrame (ui w).
Proof.
  induction evs as [|ev evs IH]; intros Hevs w Hs.
  - split; [exact Hs|]. split; [apply quiet_refl | reflexivity].
  - cbn [forallb] in Hevs. apply andb_prop in Hevs. destruct Hevs as [Hev Hevs].
    destruct (step_when_suspended ev w Hev Hs) as (Hs1 & Hq1 & Hf1).
    destruct (IH Hevs _ Hs1) as (Hs2 & Hq2 & Hf2).
    change (run formatVideoTime f (ev :: evs) w)
      with (run formatVideoTime f evs (step formatVideoTime f ev w)).
    split; [exact Hs2|]. split; [exact (quiet_trans _ _ _ Hq1 Hq2)|].
    exact (eq_trans Hf2 Hf1).
Qed.

Lemma pause_spec (w : world) :
  mounted w -> continuous w -> ended (video w) = false ->
  let w1 := step formatVideoTime f VideoPauses w in
  suspended w1 /\ analyzing (ui w1) = false /\ quiet w w1 /\
  (forall handle, animationFrameRef (ui w) = Some handle ->
     ~ In handle (pendingFrames (video w1))) /\
  detectedVehicles (ui w1) = detectedVehicles (ui w) /\
  currentFrame (ui w1) = currentFrame (ui w).
Proof.
  intros (Hm & Hr & Hv) [Hc Href] He. cbn [step]. unfold handlePause.
  cbn [ui withVideo]. rewrite Hc.
  destruct (animationFrameRef (ui w)) as [k|] eqn:Hk.
  - destruct (cancel_incl k (setPaused true (video w))) as (Hincl & Hgone & Hnext).
    cbv zeta. simpl.
    split; [repeat split; assumption|]. split; [reflexivity|].
    split; [split; [reflexivity | split; [exact Hincl | apply Nat.le_refl]]|].
    split; [|split; reflexivity].
    intros handle Hh. injection Hh as <-. exact Hgone.
  - cbv zeta. simpl.
    split; [repeat split; assumption|]. split; [reflexivity|].
    split; [split; [reflexivity | split; [apply incl_refl | apply Nat.le_refl]]|].
    split; [|split; reflexivity].
    intros handle Hh. discriminate Hh.
Qed.

Lemma play_spec (w : world) :
  suspended w ->
  let w' := step formatVideoTime f VideoPlays w in
  inFlight w' = S (inFlight w) /\
  currentFrame (ui w') = currentFrame (ui w) + 1 /\
  analyzing (ui w') = true /\
  pendingFrames (video w') = pendingFrames (video w) /\
  nextHandle (video w') = nextHandle (video w) /\
  mounted w' /\ continuous w' /\ playing w'.
Proof.
  intros (Hmounted & [Hc Href] & Hp & He). cbn [step]. unfold handlePlay.
  cbn [ui withVideo]. rewrite Hc.
  set (w0 := withUi (setAnalyzing true (ui w))
               (withVideo (setPaused false (video w)) w)).
  assert (Hm0 : mounted w0) by exact Hmounted.
  assert (Hp0 : playing w0) by (split; [reflexivity | exact He]).
  destruct (enter_when_running formatVideoTime w0 Hm0 Href Hp0)
    as (Hfl & Hframe & _ & Hvid & _ & _ & Han & _ & Hc1 & Href1 & Hm1).
  cbv zeta.
  split; [exact Hfl|]. split; [exact Hframe|]. split; [rewrite Han; reflexivity|].
  rewrite Hvid.
  split; [reflexivity|]. split; [reflexivity|]. split; [exact Hm1|].
  split; [split; [rewrite Hc1; exact Hc | exact Href1]|].
  unfold playing. rewrite Hvid. split; [reflexivity | exact He].
Qed.

End PauseFacts.

(** X12: pausing the video suspends the loop without leaving continuous
    mode.  The pause listener cancels the recorded frame and clears the
    analyzing flag; continuous mode stays on in state and ref.  While the
    video stays paused, iterations that fire and detections that settle
    schedule nothing, begin no detection and count no frame.  Playing again
    begins one more iteration: the number of detections in flight goes up
    by one, one more frame is counted, the analyzing flag is set and
    nothing is scheduled at that point.  A detection that was in flight at
    the pause and has not settled is not waited for: the play listener adds
    a second one to it.  When no detection was in flight at the pause and
    no frame was pending besides the recorded one, exactly one detection is
    in flight after the play and no frame is pending. *)
Theorem pause_suspends_play_resumes :
  forall (formatVideoTime : float -> string) (f : frame) (w : world),
    mounted w -> continuous w -> ended (video w) = false ->
    let w1 := step formatVideoTime f VideoPauses w in
    (suspended w1 /\ analyzing (ui w1) = false /\ quiet w w1 /\
     (forall handle, animationFrameRef (ui w) = Some handle ->
        ~ In handle (pendingFrames (video w1))) /\
     detectedVehicles (ui w1) = detectedVehicles (ui w) /\
     currentFrame (ui w1) = currentFrame (ui w)) /\
    forall evs : list event,
      forallb firesOrSettles evs = true ->
      let w2 := run formatVideoTime f evs w1 in
      (suspended w2 /\ quiet w1 w2 /\
       currentFrame (ui w2) = currentFrame (ui w)) /\
      let w3 := step formatVideoTime f VideoPlays w2 in
      (inFlight w3 = S (inFlight w2) /\
       currentFrame (ui w3) = currentFrame (ui w) + 1 /\
       analyzing (ui w3) = true /\
       pendingFrames (video w3) = pendingFrames (video w2) /\
       nextHandle (video w3) = nextHandle (video w2) /\
       mounted w3 /\ continuous w3 /\ playing w3) /\
      (inFlight w = 0%nat ->
       incl (pendingFrames (video w))
            (match animationFrameRef (ui w) with Some k => [k] | None => [] end) ->
       inFlight w3 = 1%nat /\ pendingFrames (video w3) = []).
Proof.
  intros formatVideoTime f w Hm Hc He.
  destruct (pause_spec formatVideoTime f w Hm Hc He)
    as (Hs1 & Han & Hq & Hcancel & Hrec & Hframe).
  cbv zeta.
  split; [repeat (split; [assumption|]); assumption|].
  intros evs Hevs.
  destruct (run_when_suspended formatVideoTime f evs Hevs _ Hs1)
    as (Hs2 & Hq2 & Hf2).
  cbv zeta in Hf2.
  split; [split; [exact Hs2 | split; [exact Hq2 | rewrite Hf2; exact Hframe]]|].
  destruct (play_spec formatVideoTime f _ Hs2)
    as (Hfl & Hf3 & Han3 & Hpend & Hnext & Hm3 & Hc3 & Hp3).
  split.
  - split; [exact Hfl|]. split; [rewrite Hf3, Hf2, Hframe; reflexivity|].
    split; [exact Han3|]. split; [exact Hpend|]. split; [exact Hnext|].
    split; [exact Hm3|]. split; [exact Hc3 | exact Hp3].
  - intros Hnone Honly.
    destruct Hq as (_ & Hincl1 & Hfl1). destruct Hq2 as (_ & Hincl2 & Hfl2).
    assert (Hnone1 : forall k,
              ~ In k (pendingFrames
                        (video (step formatVideoTime f VideoPauses w)))).
    { intros k Hk. pose proof (Honly k (Hincl1 k Hk)) as Hrecorded.
      destruct (animationFrameRef (ui w)) as [h|] eqn:Href;
        [|exact Hrecorded].
      destruct Hrecorded as [<-|[]]. exact (Hcancel h eq_refl Hk). }
    split.
    + rewrite Hfl. f_equal. rewrite Hnone in Hfl1.
      apply Nat.le_0_r. apply Nat.le_0_r in Hfl1. rewrite Hfl1 in Hfl2.
      exact Hfl2.
    + rewrite Hpend.
      destruct (pendingFrames
                  (video (run formatVideoTime f evs
                              (step formatVideoTime f VideoPauses w))))
        as [|k rest]; [reflexivity|].
      exfalso. apply (Hnone1 k). apply Hincl2. left. reflexivity.
Qed.

(** The loop with its second iteration pending is paused: the pending
    frame is cancelled; its late callback and a late detector answer change
    nothing; on play the second frame is counted and one detection is in
    flight.  Paused while its first detection is still in flight, the loop
    has two in flight after the play. *)
Lemma pause_suspends_play_resumes_witness :
  let w1 := step plainTime transparentFrame VideoPauses secondPending in
  let w2 := run plainTime transparentFrame
                [FrameFires 1; DetectorSettles (Ok [])] w1 in
  let w3 := step plainTime transparentFrame VideoPlays w2 in
  pendingFrames (video secondPending) = [1%positive] /\
  pendingFrames (video w1) = [] /\
  continuous w1 /\
  quiet w1 w2 /\
  inFlight w3 = 1%nat /\
  pendingFrames (video w3) = [] /\
  currentFrame (ui w3) = 2 /\
  inFlight (run plainTime transparentFrame [VideoPauses; VideoPlays] justStarted)
  = 2%nat.
Proof.
  cbv zeta.
  assert (Hmounted : mounted secondPending) by (repeat split).
  assert (Hcontinuous : continuous secondPending) by (split; reflexivity).
  destruct (pause_suspends_play_resumes plainTime transparentFrame secondPending
              Hmounted Hcontinuous eq_refl)
    as ((Hs1 & _) & Hafter).
  destruct (Hafter [FrameFires 1; DetectorSettles (Ok [])] eq_refl)
    as ((_ & Hq & _) & (_ & Hframe & _) & Hexact).
  assert (Honly : incl (pendingFrames (video secondPending)) [1%positive])
    by (intros k Hk; exact Hk).
  destruct (Hexact eq_refl Honly) as (Hone & Hnone).
  split; [reflexivity|]. split; [reflexivity|].
  split; [exact (proj1 (proj2 Hs1))|]. split; [exact Hq|].
  split; [exact Hone|]. split; [exact Hnone|].
  split; [exact Hframe | reflexivity].
Defined.

(** ** Loading new media *)

Section MediaFacts.

Variable formatVideoTime : float -> string.
Variable f : frame.

Lemma cancelRecorded_spec (w : world) :
  let w' := Media.cancelRecorded w in
  ui w' = ui w /\ quiet w w' /\ recordedFrameCancelled w w' /\
  paused (video w') = paused (video w).
Proof.
  unfold Media.cancelRecorded, recordedFrameCancelled.
  destruct (animationFrameRef (ui w)) as [k|] eqn:Hk; cbv zeta.
  - destruct (cancel_incl k (video w)) as (Hincl & Hgone & Hnext).
    split; [reflexivity|].
    split; [split; [exact Hnext | split; [exact Hincl | apply Nat.le_refl]]|].
    split; [|reflexivity].
    intros handle Hh. injection Hh as <-. exact Hgone.
  - split; [reflexivity|]. split; [apply quiet_refl|]. split; [|reflexivity].
    intros handle Hh. discriminate Hh.
Qed.

Lemma reset_spec (nowVideo : bool) (w : world) :
  let w' := withUi (Media.resetSession nowVideo (ui (Media.cancelRecorded w)))
                   (Media.cancelRecorded w) in
  freshSession w' /\ isVideo (ui w') = nowVideo /\
  quiet w w' /\ recordedFrameCancelled w w' /\
  inFlight w' = inFlight w /\
  (forall evs : list event,
      forallb (fun ev => negb (isToggle ev)) evs = true ->
      let w'' := run formatVideoTime f evs w' in
      stopped w'' /\ quiet w' w'') /\
  (forall predictions : list DetectedObject,
      (0 < inFlight w)%nat ->
      recordsOf (fun b => b) predictions
        (detectedVehicles
           (ui (step formatVideoTime f (DetectorSettles (Ok predictions)) w')))).
Proof.
  destruct (cancelRecorded_spec w) as (Hui & Hq & Hgone & _).
  cbv zeta in *.
  set (w0 := Media.cancelRecorded w) in *.
  assert (Hfresh : freshSession
            (withUi (Media.resetSession nowVideo (ui w0)) w0)).
  { repeat split. }
  assert (Hfl : inFlight w0 = inFlight w).
  { unfold w0, Media.cancelRecorded.
    now destruct (animationFrameRef (ui w)). }
  split; [exact Hfresh|]. split; [reflexivity|].
  split; [exact Hq|]. split; [exact Hgone|]. split; [exact Hfl|].
  split.
  - intros evs Hevs.
    apply (run_when_stopped formatVideoTime f evs Hevs).
    apply Hfresh.
  - intros predictions Hpos. cbn [step inFlight withUi]. rewrite Hfl.
    destruct (inFlight w) as [|n]; [inversion Hpos|].
    unfold detectVehiclesInVideo_resume.
    destruct (settle_keeps_mode f (Ok predictions)
                (Media.resetSession nowVideo (ui w0))) as (Href & _).
    rewrite reschedule_when_off by exact Href.
    cbn [ui withUi]. unfold detectCurrentVideoFrame_settle. cbn [bind].
    destruct (videoVehicles_ok f predictions) as (vs & Hvs & Hrecs).
    rewrite Hvs. simpl. exact Hrecs.
Qed.

Lemma tryAnother_spec (a : Media.analyzer) :
  let a' := Media.handleTryAnother a in
  stopped (Media.core a') /\ analyzing (ui (Media.core a')) = false /\
  quiet (Media.core a) (Media.core a') /\
  (mounted (Media.core a) ->
   paused (video (Media.core a')) = true /\
   recordedFrameCancelled (Media.core a) (Media.core a')).
Proof.
  unfold Media.handleTryAnother. cbv zeta. cbn [Media.core].
  destruct (isVideo (ui (Media.core a))) eqn:Hv.
  - destruct (cancelRecorded_spec (Media.core a)) as (Hui & Hq & Hgone & _).
    cbv zeta in *.
    set (w0 := Media.cancelRecorded (Media.core a)) in *.
    rewrite Hui, Hv.
    destruct (mediaRef (ui (Media.core a))) eqn:Hr; cbn [andb].
    + split; [split; reflexivity|]. split; [reflexivity|].
      split; [exact Hq|]. intros _. split; [reflexivity | exact Hgone].
    + split; [split; reflexivity|]. split; [reflexivity|].
      split; [exact Hq|]. intros (_ & Hr' & _). congruence.
  - rewrite Hv, Bool.andb_false_r.
    split; [split; reflexivity|]. split; [reflexivity|].
    split; [apply quiet_same_host; reflexivity|].
    intros (_ & _ & Hv'). congruence.
Qed.

Lemma mediaLoad_video (imageElement : image) (ctx : bool)
    (detect : outcome (list DetectedObject)) (s : state) :
  isVideo s = true ->
  Media.handleMediaLoad f imageElement ctx detect s = s.
Proof.
  intros Hv. unfold Media.handleMediaLoad. now rewrite Hv.
Qed.

Lemma mediaLoad_image (imageElement : image) (ctx : bool)
    (predictions : list DetectedObject) (s : state) :
  isVideo s = false -> model s = true -> mediaRef s = true ->
  let s' := Media.handleMediaLoad f imageElement ctx (Ok predictions) s in
  recordsOf
    (adjustBbox imageElement (standardizeImage ctx imageElement 800 600))
    predictions (detectedVehicles s') /\
  analyzing s' = false /\ hasAttemptedDetection s' = true.
Proof.
  intros Hv Hm Hr. unfold Media.handleMediaLoad. rewrite Hv. cbn [negb].
  destruct (image_pass_completed f imageElement ctx predictions s Hm Hr)
    as (Hrec & Han & Hatt & _).
  split; [exact Hrec|]. split; [exact Han | exact Hatt].
Qed.

End MediaFacts.

(** X13: loading new media, by file or by URL, resets the session: the
    records are emptied, the analyzing flag, the attempt flag and the
    timestamp are cleared, continuous mode is switched off in state and
    ref, the uploader is hidden and the frame the ref records is cancelled.
    A file counts as a video by its MIME type, a URL by its extension.  The
    continuous loop then stays off: whatever loop event follows (a frame
    firing, a detection or a play request settling, the video pausing,
    playing or ending), short of a new start, no frame is scheduled and no
    loop iteration begins.  The load of the new media is another matter:
    [handleMediaLoad] leaves a video alone and analyses an image at once,
    with the records, the cleared analyzing flag and the recorded attempt
    of a pass on an image.  And the reset does not reach a detection
    already in flight: when it answers, its records are published. *)
Theorem new_media_resets_session :
  forall (formatVideoTime : float -> string) (f : frame)
         (lowerOther : Text.text -> Z -> Text.text -> Text.text)
         (a : Media.analyzer),
    let resetBy (nowVideo : bool) (a' : Media.analyzer) :=
      freshSession (Media.core a') /\
      isVideo (ui (Media.core a')) = nowVideo /\
      Media.showUploader a' = false /\
      quiet (Media.core a) (Media.core a') /\
      recordedFrameCancelled (Media.core a) (Media.core a') /\
      (forall evs : list event,
          forallb (fun ev => negb (isToggle ev)) evs = true ->
          let w := run formatVideoTime f evs (Media.core a') in
          stopped w /\ quiet (Media.core a') w) /\
      (forall predictions : list DetectedObject,
          (0 < inFlight (Media.core a))%nat ->
          recordsOf (fun b => b) predictions
            (detectedVehicles
               (ui (step formatVideoTime f (DetectorSettles (Ok predictions))
                         (Media.core a'))))) /\
      (forall (imageElement : image) (ctx : bool)
              (detect : outcome (list DetectedObject)),
          nowVideo = true ->
          Media.handleMediaLoad f imageElement ctx detect (ui (Media.core a'))
          = ui (Media.core a')) /\
      (forall (imageElement : image) (ctx : bool)
              (predictions : list DetectedObject),
          nowVideo = false ->
          model (ui (Media.core a')) = true ->
          mediaRef (ui (Media.core a')) = true ->
          let s' := Media.handleMediaLoad f imageElement ctx (Ok predictions)
                      (ui (Media.core a')) in
          recordsOf
            (adjustBbox imageElement (standardizeImage ctx imageElement 800 600))
            predictions (detectedVehicles s') /\
          analyzing s' = false /\ hasAttemptedDetection s' = true) in
    (forall (newFile : Media.File) (objectUrl : Text.text),
        let a' := Media.handleFileUpload newFile objectUrl a in
        resetBy (Media.isVideoFile newFile) a' /\
        Media.fileUrl a' = objectUrl /\ Media.file a' = Some newFile) /\
    (forall url : Text.text,
        let a' := Media.handleUrlInput lowerOther url a in
        resetBy (Media.isVideoUrl lowerOther url) a' /\
        Media.fileUrl a' = url /\ Media.file a' = None).
Proof.
  intros formatVideoTime f lowerOther a. cbv zeta. split.
  - intros newFile objectUrl.
    destruct (reset_spec formatVideoTime f (Media.isVideoFile newFile)
                         (Media.core a))
      as (Hfresh & Hv & Hq & Hgone & _ & Hafter & Hflight).
    unfold Media.handleFileUpload. cbn [Media.core Media.showUploader
                                         Media.fileUrl Media.file].
    split; [|split; reflexivity].
    split; [exact Hfresh|]. split; [exact Hv|]. split; [reflexivity|].
    split; [exact Hq|]. split; [exact Hgone|]. split; [exact Hafter|].
    split; [exact Hflight|].
    split.
    + intros imageElement ctx detect Hnow.
      apply mediaLoad_video. rewrite Hv. exact Hnow.
    + intros imageElement ctx predictions Hnow Hm Hr.
      apply mediaLoad_image; [rewrite Hv; exact Hnow | exact Hm | exact Hr].
  - intros url.
    destruct (reset_spec formatVideoTime f (Media.isVideoUrl lowerOther url)
                         (Media.core a))
      as (Hfresh & Hv & Hq & Hgone & _ & Hafter & Hflight).
    unfold Media.handleUrlInput. cbn [Media.core Media.showUploader
                                       Media.fileUrl Media.file].
    split; [|split; reflexivity].
    split; [exact Hfresh|]. split; [exact Hv|]. split; [reflexivity|].
    split; [exact Hq|]. split; [exact Hgone|]. split; [exact Hafter|].
    split; [exact Hflight|].
    split.
    + intros imageElement ctx detect Hnow.
      apply mediaLoad_video. rewrite Hv. exact Hnow.
    + intros imageElement ctx predictions Hnow Hm Hr.
      apply mediaLoad_image; [rewrite Hv; exact Hnow | exact Hm | exact Hr].
Qed.

(** X14: "try another" keeps everything that is shown (records, attempt
    flag, media URL and file) and brings the uploader back, with the
    analyzing flag cleared and continuous mode switched off in state and
    ref; on a mounted video it pauses the video and cancels the frame the
    ref records.  From then on, short of a new start, nothing is scheduled
    and no detection begins. *)
Theorem try_another_keeps_results :
  forall (formatVideoTime : float -> string) (f : frame) (a : Media.analyzer),
    let a' := Media.handleTryAnother a in
    (detectedVehicles (ui (Media.core a')) = detectedVehicles (ui (Media.core a)) /\
     hasAttemptedDetection (ui (Media.core a'))
     = hasAttemptedDetection (ui (Media.core a)) /\
     Media.fileUrl a' = Media.fileUrl a /\ Media.file a' = Media.file a /\
     Media.revoked a' = Media.revoked a /\ Media.showUploader a' = true) /\
    (stopped (Media.core a') /\ analyzing (ui (Media.core a')) = false /\
     quiet (Media.core a) (Media.core a')) /\
    (mounted (Media.core a) ->
     paused (video (Media.core a')) = true /\
     recordedFrameCancelled (Media.core a) (Media.core a')) /\
    (forall evs : list event,
        forallb (fun ev => negb (isToggle ev)) evs = true ->
        let w := run formatVideoTime f evs (Media.core a') in
        stopped w /\ quiet (Media.core a') w).
Proof.
  intros formatVideoTime f a.
  destruct (tryAnother_spec a) as (Hstopped & Han & Hq & Hvideo).
  cbv zeta in *.
  split; [|split; [|split]].
  - unfold Media.handleTryAnother, Media.cancelRecorded. cbv zeta.
    cbn [Media.core Media.fileUrl Media.file Media.revoked Media.showUploader].
    destruct (isVideo (ui (Media.core a)));
      destruct (animationFrameRef (ui (Media.core a)));
      cbn [ui withVideo withUi];
      destruct (mediaRef (ui (Media.core a)));
      destruct (isVideo (ui (Media.core a))); repeat split.
  - split; [exact Hstopped|]. split; [exact Han | exact Hq].
  - exact Hvideo.
  - intros evs Hevs.
    apply (run_when_stopped formatVideoTime f evs Hevs). exact Hstopped.
Qed.

(** A still picture is uploaded while the first detection of a running
    loop is in flight: the session is reset; when the picture has loaded it
    is analysed at once, a person and a truck giving the truck's record;
    and when the detection of the old clip answers, its record is
    published. *)
Lemma new_media_resets_session_witness :
  let a' := Media.handleFileUpload stillPicture (Text.lit "blob:second")
              watchingLocalClip in
  inFlight (Media.core watchingLocalClip) = 1%nat /\
  freshSession (Media.core a') /\
  isVideo (ui (Media.core a')) = false /\
  (let s' := Media.handleMediaLoad transparentFrame plainImage true
               (Ok personAndTruck) (ui (Media.core a')) in
   map vehicleClass (detectedVehicles s') = ["truck"] /\
   hasAttemptedDetection s' = true) /\
  map vehicleClass
      (detectedVehicles
         (ui (step plainTime transparentFrame
                   (DetectorSettles (Ok personAndTruck)) (Media.core a'))))
  = ["truck"].
Proof.
  cbv zeta.
  destruct (new_media_resets_session plainTime transparentFrame intoAscii
              watchingLocalClip) as [Hfile _].
  destruct (Hfile stillPicture (Text.lit "blob:second"))
    as ((Hfresh & Hv & _ & _ & _ & _ & _ & _ & Hload) & _).
  destruct (Hload plainImage true personAndTruck eq_refl eq_refl eq_refl)
    as (_ & _ & Hattempt).
  split; [reflexivity|]. split; [exact Hfresh|]. split; [exact Hv|].
  split; [split; [vm_compute; reflexivity | exact Hattempt]|].
  vm_compute. reflexivity.
Defined.

(** ** Video URLs *)

Section UrlFacts.

Variable lowerOther : Text.text -> Z -> Text.text -> Text.text.

Lemma startsWith_app (a b : Text.text) : Text.startsWith a (a ++ b)%list = true.
Proof.
  induction a as [|u a IH]; [reflexivity|].
  cbn [app Text.startsWith]. now rewrite Z.eqb_refl, IH.
Qed.

Lemma startsWith_split (a h : Text.text) :
  Text.startsWith a h = true -> exists s, h = (a ++ s)%list.
Proof.
  revert h. induction a as [|u a IH]; intros h Hp.
  - exists h. reflexivity.
  - destruct h as [|v h]; [discriminate Hp|]. cbn [Text.startsWith] in Hp.
    apply andb_prop in Hp. destruct Hp as [Huv Hp].
    apply Z.eqb_eq in Huv. subst v.
    destruct (IH h Hp) as [s ->]. exists s. reflexivity.
Qed.

Lemma includes_app (needle p s : Text.text) :
  Text.includes needle (p ++ needle ++ s)%list = true.
Proof.
  induction p as [|u p IH].
  - cbn [app]. destruct (needle ++ s)%list eqn:Heq;
      cbn [Text.includes]; rewrite <- Heq, startsWith_app; reflexivity.
  - cbn [app Text.includes]. rewrite IH. apply Bool.orb_true_r.
Qed.

Lemma includes_split (needle hay : Text.text) :
  Text.includes needle hay = true ->
  exists p s, hay = (p ++ needle ++ s)%list.
Proof.
  induction hay as [|u hay IH]; cbn [Text.includes]; intros H.
  - rewrite Bool.orb_false_r in H. destruct (startsWith_split _ _ H) as [s Hs].
    exists [], s. exact Hs.
  - apply Bool.orb_true_iff in H. destruct H as [H|H].
    + destruct (startsWith_split _ _ H) as [s Hs]. exists [], s. exact Hs.
    + destruct (IH H) as (p & s & ->). exists (u :: p), s. reflexivity.
Qed.

(** What precedes a part of the string only adds to the front of the
    result. *)
Lemma lowerFrom_app (p q before : Text.text) :
  exists front,
    Text.lowerFrom lowerOther before (p ++ q)%list
    = (front ++ Text.lowerFrom lowerOther (before ++ p) q)%list.
Proof.
  revert before. induction p as [|u p IH]; intros before.
  - exists []. cbn [app]. now rewrite app_nil_r.
  - destruct (IH (before ++ [u])%list) as [front Hfront].
    cbn [app Text.lowerFrom]. rewrite Hfront.
    eexists. rewrite <- app_assoc. cbn [app]. rewrite app_assoc. reflexivity.
Qed.

(** An ASCII part is lowered unit by unit, whatever surrounds it. *)
Lemma lowerFrom_ascii (e s before : Text.text) :
  isAsciiText e = true ->
  Text.lowerFrom lowerOther before (e ++ s)%list
  = (map Text.lowerAsciiUnit e
     ++ Text.lowerFrom lowerOther (before ++ e) s)%list.
Proof.
  revert before. induction e as [|u e IH]; intros before He.
  - cbn [app map]. now rewrite app_nil_r.
  - cbn [isAsciiText forallb] in He. apply andb_prop in He.
    destruct He as [Hu He]. cbn [app Text.lowerFrom map]. rewrite Hu.
    rewrite (IH (before ++ [u])%list He). rewrite <- app_assoc. reflexivity.
Qed.

Lemma toLowerCase_ascii (url : Text.text) :
  isAsciiText url = true ->
  Text.toLowerCase lowerOther url = map Text.lowerAsciiUnit url.
Proof.
  intros Hurl. unfold Text.toLowerCase.
  rewrite <- (app_nil_r url) at 1.
  rewrite (lowerFrom_ascii url [] [] Hurl). cbn [Text.lowerFrom].
  apply app_nil_r.
Qed.

Lemma extension_found (url : Text.text) :
  carriesExtension url -> Media.isVideoUrl lowerOther url = true.
Proof.
  intros (p & ext & s & -> & Hascii & Hin).
  unfold Media.isVideoUrl. apply existsb_exists.
  exists (map Text.lowerAsciiUnit ext). split; [exact Hin|].
  unfold Text.toLowerCase.
  destruct (lowerFrom_app p (ext ++ s)%list []) as [front ->].
  rewrite (lowerFrom_ascii ext s _ Hascii). apply includes_app.
Qed.

Lemma extension_needed (url : Text.text) :
  isAsciiText url = true -> Media.isVideoUrl lowerOther url = true ->
  carriesExtension url.
Proof.
  intros Hurl Hv. unfold Media.isVideoUrl in Hv.
  apply existsb_exists in Hv. destruct Hv as (e & Hin & Hinc).
  rewrite (toLowerCase_ascii url Hurl) in Hinc.
  destruct (includes_split _ _ Hinc) as (p' & s' & Hsplit).
  apply map_eq_app in Hsplit. destruct Hsplit as (p & rest & -> & _ & Hrest).
  apply map_eq_app in Hrest. destruct Hrest as (ext & s & -> & Hext & _).
  exists p, ext, s. split; [reflexivity|].
  unfold isAsciiText in *. rewrite !forallb_app in Hurl.
  apply andb_prop in Hurl. destruct Hurl as [_ Hurl].
  apply andb_prop in Hurl. destruct Hurl as [Hext' _].
  split; [exact Hext'|]. now rewrite Hext.
Qed.

Lemma kelvin_extension (p s : Text.text) :
  lowerOther (p ++ Text.lit ".m")%list 8490 (Text.lit "v" ++ s)%list = [107] ->
  Media.isVideoUrl lowerOther
    (p ++ Text.lit ".m" ++ [8490] ++ Text.lit "v" ++ s)%list = true.
Proof.
  intros Hk. unfold Media.isVideoUrl. apply existsb_exists.
  exists (Text.lit ".mkv"). split; [cbn; tauto|].
  unfold Text.toLowerCase.
  destruct (lowerFrom_app p (Text.lit ".m" ++ [8490] ++ Text.lit "v" ++ s)%list [])
    as [front ->].
  rewrite (lowerFrom_ascii (Text.lit ".m") _ _ eq_refl).
  cbn [app Text.lowerFrom]. cbn [app] in Hk.
  replace (Text.isAscii 8490) with false by reflexivity.
  rewrite Hk.
  change (Text.lit "v" ++ s)%list with ([118] ++ s)%list.
  cbn [app Text.lowerFrom].
  replace (Text.isAscii 118) with true by reflexivity.
  change (map Text.lowerAsciiUnit (Text.lit ".m")) with [46; 109].
  change (Text.lowerAsciiUnit 118) with 118.
  change (Text.lit ".mkv") with [46; 109; 107; 118].
  cbn [app].
  apply (includes_app [46; 109; 107; 118] front).
Qed.

End UrlFacts.

(** X15: an address counts as a video whenever one of the five extensions
    .mp4, .webm, .mov, .avi, .mkv occurs somewhere in it, in any mix of
    ASCII upper and lower case: the test looks at the whole address, not at
    the end of its path.  For an address of ASCII characters that is the
    only way.  Outside ASCII the engine's case mapping decides more: with
    the Kelvin sign lowered to k, as Unicode has it, an address with
    ".m", the Kelvin sign and "v" counts as a video. *)
Theorem video_url_by_extension_anywhere :
  forall lowerOther : Text.text -> Z -> Text.text -> Text.text,
    (forall url : Text.text,
        carriesExtension url -> Media.isVideoUrl lowerOther url = true) /\
    (forall url : Text.text,
        isAsciiText url = true -> Media.isVideoUrl lowerOther url = true ->
        carriesExtension url) /\
    (forall p s : Text.text,
        lowerOther (p ++ Text.lit ".m")%list 8490 (Text.lit "v" ++ s)%list = [107] ->
        Media.isVideoUrl lowerOther
          (p ++ Text.lit ".m" ++ [8490] ++ Text.lit "v" ++ s)%list = true).
Proof.
  intros lowerOther. split; [|split].
  - intros url. apply extension_found.
  - intros url. apply extension_needed.
  - intros p s. apply kelvin_extension.
Qed.

(** An address with the extension in capitals and a query after it, and
    the address spelled with the Kelvin sign. *)
Lemma video_url_by_extension_anywhere_witness :
  Media.isVideoUrl intoAscii (Text.lit "https://cdn.example/Clip.MP4?t=1") = true /\
  carriesExtension (Text.lit "https://cdn.example/Clip.MP4?t=1") /\
  Media.isVideoUrl intoAscii kelvinClip = true /\
  isAsciiText kelvinClip = false.
Proof.
  destruct (video_url_by_extension_anywhere intoAscii)
    as (Hfound & Hneeded & Hkelvin).
  split; [reflexivity|].
  split; [apply Hneeded; reflexivity|].
  split; [|reflexivity].
  apply (Hkelvin (Text.lit "https://x/a") []). reflexivity.
Defined.

(** ** The URL form *)

Section UploaderFacts.

Variable lowerOther : Text.text -> Z -> Text.text -> Text.text.
Variable parses : Text.text -> bool.






End UploaderFacts.



(** ** Starting continuous mode *)

Section StartFacts.

Variable formatVideoTime : float -> string.
Variable f : frame.

Lemma cancelPending_spec (w : world) :
  let w' := cancelPending w in
  animationFrameRef (ui w') = None /\ recordedFrameCancelled w w' /\
  quiet w w' /\ inFlight w' = inFlight w /\ playRequests w' = playRequests w /\
  paused (video w') = paused (video w) /\ ended (video w') = ended (video w) /\
  currentTime (video w') = currentTime (video w) /\
  setAnimationFrameRef None (ui w) = ui w'.
Proof.
  unfold cancelPending, recordedFrameCancelled.
  destruct (animationFrameRef (ui w)) as [k|] eqn:Hk; cbv zeta.
  - destruct (cancel_incl k (video w)) as (Hincl & Hgone & Hnext).
    split; [reflexivity|]. split.
    { intros handle Hh. injection Hh as <-. exact Hgone. }
    split; [split; [exact Hnext | split; [exact Hincl | apply Nat.le_refl]]|].
    repeat split.
  - split; [exact Hk|]. split; [intros handle Hh; discriminate Hh|].
    split; [apply quiet_refl|]. repeat split.
    destruct w as [s h n p]. destruct s. simpl in *. now rewrite Hk.
Qed.

Lemma start_on_paused (w : world) :
  mounted w -> stopped w -> paused (video w) = true ->
  let w1 := step formatVideoTime f Toggle w in
  (mounted w1 /\ continuous w1 /\ analyzing (ui w1) = true /\
   hasAttemptedDetection (ui w1) = true) /\
  (playRequests w1 = S (playRequests w) /\ inFlight w1 = inFlight w /\
   currentFrame (ui w1) = currentFrame (ui w) /\
   detectedVehicles (ui w1) = detectedVehicles (ui w) /\
   quiet w w1 /\ recordedFrameCancelled w w1 /\
   paused (video w1) = true /\ ended (video w1) = ended (video w)).
Proof.
  intros (Hm & Hr & Hv) [Href Hc] Hp. cbn [step]. unfold toggleContinuousDetection.
  rewrite Hv, Hr, Hc. cbn [negb orb]. cbv zeta.
  destruct (cancelPending_spec w)
    as (_ & Hgone & Hq & Hfl & Hpr & Hp' & He' & _ & Hui).
  cbv zeta in *. cbn [ui video withUi]. rewrite Hp', Hp.
  cbn [ui video inFlight playRequests].
  rewrite <- Hui. cbn.
  split; [repeat split; assumption|].
  split; [now rewrite Hpr|]. split; [exact Hfl|].
  split; [reflexivity|]. split; [reflexivity|]. split; [exact Hq|].
  split; [exact Hgone|]. split; [now rewrite Hp' | exact He'].
Qed.

Lemma play_settles_ok (w : world) (n : nat) :
  mounted w -> continuous w -> ended (video w) = false ->
  playRequests w = S n ->
  let w' := step formatVideoTime f (PlaySettles (Ok tt)) w in
  inFlight w' = S (inFlight w) /\
  currentFrame (ui w') = currentFrame (ui w) + 1 /\
  playRequests w' = n /\
  pendingFrames (video w') = pendingFrames (video w) /\
  nextHandle (video w') = nextHandle (video w) /\
  continuous w' /\ playing w'.
Proof.
  intros Hmounted [Hc Href] He Hpr. cbn [step]. unfold playSettled.
  rewrite Hpr. cbv zeta.
  set (w0 := withVideo _ _).
  assert (Hm0 : mounted w0) by exact Hmounted.
  assert (Hp0 : playing w0) by (split; [reflexivity | exact He]).
  destruct (enter_when_running formatVideoTime w0 Hm0 Href Hp0)
    as (Hfl & Hframe & _ & Hvid & Hpr' & _ & _ & _ & Hc1 & Href1 & _).
  split; [exact Hfl|]. split; [exact Hframe|]. split; [exact Hpr'|].
  unfold playing. rewrite Hvid.
  split; [reflexivity|]. split; [reflexivity|].
  split; [split; [rewrite Hc1; exact Hc | exact Href1]|].
  split; [reflexivity | exact He].
Qed.

Lemma play_settles_throw (w : world) (n : nat) (e : string) :
  playRequests w = S n ->
  let w' := step formatVideoTime f (PlaySettles (Throw e)) w in
  stopped w' /\ analyzing (ui w') = false /\
  showAlert (ui w') = true /\
  alertMessage (ui w')
  = "Could not start video playback for auto-detection. Try playing the video manually first." /\
  detectedVehicles (ui w') = detectedVehicles (ui w) /\
  video w' = video w /\ inFlight w' = inFlight w /\ playRequests w' = n.
Proof.
  intros Hpr. cbn [step]. unfold playSettled. rewrite Hpr.
  cbv zeta. cbn. repeat split.
Qed.

Lemma start_on_playing (w : world) :
  mounted w -> stopped w -> playing w ->
  let w1 := step formatVideoTime f Toggle w in
  inFlight w1 = S (inFlight w) /\
  currentFrame (ui w1) = currentFrame (ui w) + 1 /\
  playRequests w1 = playRequests w /\
  nextHandle (video w1) = nextHandle (video w) /\
  incl (pendingFrames (video w1)) (pendingFrames (video w)) /\
  recordedFrameCancelled w w1 /\
  analyzing (ui w1) = true /\ hasAttemptedDetection (ui w1) = true /\
  continuous w1 /\ playing w1.
Proof.
  intros (Hm & Hr & Hv) [Href Hc] [Hp He]. cbn [step].
  unfold toggleContinuousDetection.
  rewrite Hv, Hr, Hc. cbn [negb orb]. cbv zeta.
  destruct (cancelPending_spec w)
    as (_ & Hgone & (Hnext & Hincl & _) & Hfl & Hpr & Hp' & He' & _ & Hui).
  cbv zeta in *. cbn [ui video withUi]. rewrite Hp', Hp.
  set (w0 := withUi _ (cancelPending w)).
  assert (Hm0 : mounted w0).
  { unfold mounted, w0. cbn [ui withUi]. rewrite <- Hui. cbn.
    repeat split; assumption. }
  assert (Href0 : continuousDetectionRef (ui w0) = true) by reflexivity.
  assert (Hp0 : playing w0).
  { unfold playing, w0. cbn [video withUi]. now rewrite Hp', He'. }
  destruct (enter_when_running formatVideoTime w0 Hm0 Href0 Hp0)
    as (Hfl1 & Hframe & _ & Hvid & Hpr1 & _ & Han & _ & Hc1 & Href1 & _).
  split; [rewrite Hfl1; unfold w0; cbn [inFlight withUi]; now rewrite Hfl|].
  split; [rewrite Hframe; unfold w0; cbn [ui withUi]; rewrite <- Hui; reflexivity|].
  split; [rewrite Hpr1; exact Hpr|].
  unfold playing, recordedFrameCancelled. rewrite Hvid.
  split; [exact Hnext|]. split; [exact Hincl|]. split; [exact Hgone|].
  split; [rewrite Han; reflexivity|].
  split.
  { unfold detectVehiclesInVideo_enter, detectCurrentVideoFrame_begin.
    destruct Hm0 as (Hm0 & Hr0 & Hv0). destruct Hp0 as [Hp0 He0].
    rewrite Hm0, Hr0, Hv0, He0, Href0, Hp0. cbn [negb orb]. cbv zeta.
    cbn [ui withUi setCurrentFrame model mediaRef isVideo].
    rewrite Hm0, Hr0, Hv0. reflexivity. }
  split; [split; [rewrite Hc1; reflexivity | exact Href1]|].
  exact Hp0.
Qed.

Lemma play_keeps_requests (w : world) :
  suspended w ->
  playRequests (step formatVideoTime f VideoPlays w) = playRequests w.
Proof.
  intros (Hmounted & [Hc Href] & Hp & He). cbn [step]. unfold handlePlay.
  cbn [ui withVideo]. rewrite Hc.
  set (w0 := withUi (setAnalyzing true (ui w))
               (withVideo (setPaused false (video w)) w)).
  assert (Hm0 : mounted w0) by exact Hmounted.
  assert (Hp0 : playing w0) by (split; [reflexivity | exact He]).
  destruct (enter_when_running formatVideoTime w0 Hm0 Href Hp0)
    as (_ & _ & _ & _ & Hpr & _).
  exact Hpr.
Qed.

End StartFacts.

(** X17: starting continuous mode.  A start cancels the frame the ref
    records, switches continuous mode on in state and ref, sets the
    analyzing flag and records the attempt.  On a playing video it begins
    one iteration at once: the number of detections in flight goes up by
    one and one frame is counted.  On a paused video it asks the video to
    play and begins nothing itself: right after the start no detection has
    been added and no frame is counted or scheduled.  When the video then
    plays, the loop is entered twice, by the play listener when the play
    event is delivered and by the then of the request when it settles: two
    detections are added and two frames are counted.  When the request is
    refused with no play event, continuous mode is switched off again, the
    analyzing flag is cleared and the alert about playback is raised, with
    the records and the video left as they were. *)
Theorem start_of_continuous_mode :
  forall (formatVideoTime : float -> string) (f : frame) (w : world),
    mounted w -> stopped w -> ended (video w) = false ->
    let w1 := step formatVideoTime f Toggle w in
    (continuous w1 /\ analyzing (ui w1) = true /\
     hasAttemptedDetection (ui w1) = true /\
     recordedFrameCancelled w w1 /\
     nextHandle (video w1) = nextHandle (video w) /\
     incl (pendingFrames (video w1)) (pendingFrames (video w))) /\
    (paused (video w) = false ->
     inFlight w1 = S (inFlight w) /\
     currentFrame (ui w1) = currentFrame (ui w) + 1 /\
     playRequests w1 = playRequests w) /\
    (paused (video w) = true ->
     (playRequests w1 = S (playRequests w) /\ inFlight w1 = inFlight w /\
      currentFrame (ui w1) = currentFrame (ui w) /\
      detectedVehicles (ui w1) = detectedVehicles (ui w)) /\
     (let w2 := step formatVideoTime f VideoPlays w1 in
      let w3 := step formatVideoTime f (PlaySettles (Ok tt)) w2 in
      (inFlight w2 = S (inFlight w) /\
       currentFrame (ui w2) = currentFrame (ui w) + 1) /\
      (inFlight w3 = S (S (inFlight w)) /\
       currentFrame (ui w3) = currentFrame (ui w) + 2 /\
       playRequests w3 = playRequests w /\
       nextHandle (video w3) = nextHandle (video w) /\
       continuous w3 /\ playing w3)) /\
     (forall e : string,
         let w2 := step formatVideoTime f (PlaySettles (Throw e)) w1 in
         stopped w2 /\ analyzing (ui w2) = false /\
         showAlert (ui w2) = true /\
         alertMessage (ui w2)
         = "Could not start video playback for auto-detection. Try playing the video manually first." /\
         detectedVehicles (ui w2) = detectedVehicles (ui w) /\
         video w2 = video w1 /\ inFlight w2 = inFlight w /\
         playRequests w2 = playRequests w)).
Proof.
  intros formatVideoTime f w Hm Hs He. cbv zeta.
  destruct (paused (video w)) eqn:Hp.
  - destruct (start_on_paused formatVideoTime f w Hm Hs Hp)
      as ((Hm1 & Hc1 & Han & Hatt)
          & (Hpr & Hfl & Hframe & Hrec & Hq & Hgone & Hp1 & He1)).
    cbv zeta in *.
    split.
    { split; [exact Hc1|]. split; [exact Han|]. split; [exact Hatt|].
      split; [exact Hgone|]. destruct Hq as (Hnext & Hincl & _).
      split; [exact Hnext | exact Hincl]. }
    split; [intros H; discriminate H|].
    intros _. split.
    { split; [exact Hpr|]. split; [exact Hfl|]. split; [exact Hframe | exact Hrec]. }
    split.
    + rewrite He in He1.
      assert (Hsusp : suspended (step formatVideoTime f Toggle w)).
      { split; [exact Hm1|]. split; [exact Hc1|]. split; [exact Hp1 | exact He1]. }
      destruct (play_spec formatVideoTime f _ Hsusp)
        as (Hfl2 & Hframe2 & _ & _ & Hnext2 & Hm2 & Hc2 & Hp2).
      pose proof (play_keeps_requests formatVideoTime f _ Hsusp) as Hpr2.
      cbv zeta in *. rewrite Hpr in Hpr2.
      destruct (play_settles_ok formatVideoTime f _ (playRequests w)
                                Hm2 Hc2 (proj2 Hp2) Hpr2)
        as (Hfl3 & Hframe3 & Hpr3 & _ & Hnext3 & Hc3 & Hp3).
      cbv zeta in *.
      split.
      * split; [rewrite Hfl2, Hfl; reflexivity|].
        rewrite Hframe2, Hframe. reflexivity.
      * split; [rewrite Hfl3, Hfl2, Hfl; reflexivity|].
        split; [rewrite Hframe3, Hframe2, Hframe; lia|].
        split; [exact Hpr3|].
        split; [rewrite Hnext3, Hnext2; exact (proj1 Hq)|].
        split; [exact Hc3 | exact Hp3].
    + intros e.
      destruct (play_settles_throw formatVideoTime f _ (playRequests w) e Hpr)
        as (Hs2 & Han2 & Hal & Hmsg & Hrec2 & Hvid2 & Hfl2 & Hpr2).
      cbv zeta in *.
      split; [exact Hs2|]. split; [exact Han2|]. split; [exact Hal|].
      split; [exact Hmsg|]. split; [rewrite Hrec2; exact Hrec|].
      split; [exact Hvid2|]. split; [rewrite Hfl2; exact Hfl | exact Hpr2].
  - destruct (start_on_playing formatVideoTime f w Hm Hs (conj Hp He))
      as (Hfl & Hframe & Hpr & Hnext & Hincl & Hgone & Han & Hatt & Hc1 & _).
    cbv zeta in *.
    split.
    { split; [exact Hc1|]. split; [exact Han|]. split; [exact Hatt|].
      split; [exact Hgone|]. split; [exact Hnext | exact Hincl]. }
    split; [|intros H; discriminate H].
    intros _. split; [exact Hfl|]. split; [exact Hframe | exact Hpr].
Qed.

(** Continuous mode is started on the paused video.  When the video plays,
    two detections are in flight and two frames counted once the request
    has settled; when playback is refused, nothing was in flight and the
    mode is off again with the alert raised. *)
Lemma start_of_continuous_mode_witness :
  let w1 := step plainTime transparentFrame Toggle pausedVideo in
  let w3 := run plainTime transparentFrame [VideoPlays; PlaySettles (Ok tt)] w1 in
  let refused :=
    step plainTime transparentFrame (PlaySettles (Throw "NotAllowedError")) w1 in
  continuous w1 /\ playRequests w1 = 1%nat /\ inFlight w1 = 0%nat /\
  (inFlight w3 = 2%nat /\ currentFrame (ui w3) = 2) /\
  stopped refused /\ analyzing (ui refused) = false /\
  showAlert (ui refused) = true.
Proof.
  cbv zeta.
  assert (Hmounted : mounted pausedVideo) by (repeat split).
  assert (Hstopped : stopped pausedVideo) by (split; reflexivity).
  destruct (start_of_continuous_mode plainTime transparentFrame pausedVideo
              Hmounted Hstopped eq_refl)
    as ((Hc & _) & _ & Hpaused).
  destruct (Hpaused eq_refl)
    as ((Hpr & Hfl & _) & (_ & Htwo & Hframes & _) & Hrefused).
  destruct (Hrefused "NotAllowedError") as (Hs & Han & Hal & _).
  split; [exact Hc|]. split; [exact Hpr|]. split; [exact Hfl|].
  split; [split; [exact Htwo | exact Hframes]|].
  split; [exact Hs|]. split; [exact Han | exact Hal].
Defined.
